(** * Realm.ts: the object-mapping and transaction layer

    A shallow embedding of [packages/realm/src/Realm.ts].  JavaScript values
    are an inductive type, exceptions are an explicit completion, and the
    methods of the [Realm] class that touch the storage engine are written
    in a small state-and-exception monad over the handle they act on. *)

From Stdlib Require Import ZArith String List Bool Lia.
From stdpp Require Import gmap strings list.

Open Scope string_scope.
Open Scope Z_scope.

(** ** JavaScript values and exceptions *)

(** A JavaScript number, as far as the layer tells numbers apart: an
    integer-valued double, or any other double (a fraction, NaN or an
    infinity). *)
Inductive JsNumber : Type :=
| Int (n : Z)
| NonInteger.

(** The JavaScript values the layer inspects; [VBigInt] is a [bigint]. *)
Inductive JsValue : Type :=
| VUndefined
| VNull
| VBool (b : bool)
| VNumber (x : JsNumber)
| VBigInt (n : Z)
| VString (s : string)
| VArrayBuffer (bytes : list Z)
| VDate (ms : Z).

Definition JsValue_eqb (a b : JsValue) : bool :=
  match a, b with
  | VUndefined, VUndefined => true
  | VNull, VNull => true
  | VBool x, VBool y => Bool.eqb x y
  | VNumber (Int x), VNumber (Int y) => Z.eqb x y
  | VBigInt x, VBigInt y => Z.eqb x y
  | VString x, VString y => String.eqb x y
  | _, _ => false
  end.

(** What a [throw] carries.  [Error m] is [new Error(m)]; [RangeError] is
    the built-in one; the assert helpers raise [AssertionError] and
    [TypeAssertionError]; all of these are instances of [Error].
    [ThrownValue] is a thrown value that is not an [Error]. *)
Inductive Thrown : Type :=
| Error (message : string)
| RangeError (message : string)
| AssertionError (message : string)
| TypeAssertionError (expected : string) (name : string)
| ThrownValue (v : JsValue).

(** [err instanceof Error] *)
Definition instanceOfError (e : Thrown) : bool :=
  match e with
  | ThrownValue _ => false
  | _ => true
  end.

(** [err.message] *)
Definition message_of (e : Thrown) : string :=
  match e with
  | Error m => m
  | RangeError m => m
  | AssertionError m => m
  | TypeAssertionError expected name =>
      "Expected " ++ name ++ " to be " ++ expected
  | ThrownValue _ => ""
  end.

(** The completion of a call: a normal return or a thrown exception. *)
Inductive Completion (A : Type) : Type :=
| Normal (a : A)
| Throw (e : Thrown).
Arguments Normal {A} a.
Arguments Throw {A} e.

(** Sequencing of completions without state (static helpers). *)
Definition cbind {A B : Type} (c : Completion A) (k : A -> Completion B)
  : Completion B :=
  match c with
  | Normal a => k a
  | Throw e => Throw e
  end.

(** ** The state-and-exception monad of the instance methods *)

Definition M (S A : Type) : Type := S -> Completion A * S.

Definition ret {S A : Type} (a : A) : M S A := fun s => (Normal a, s).
Definition throw {S A : Type} (e : Thrown) : M S A := fun s => (Throw e, s).
Definition bind {S A B : Type} (m : M S A) (k : A -> M S B) : M S B :=
  fun s =>
    match m s with
    | (Normal a, s') => k a s'
    | (Throw e, s') => (Throw e, s')
    end.
(** [try { m } catch (err) { h err }] *)
Definition try_catch {S A : Type} (m : M S A) (h : Thrown -> M S A) : M S A :=
  fun s =>
    match m s with
    | (Normal a, s') => (Normal a, s')
    | (Throw e, s') => h e s'
    end.
Definition get {S : Type} : M S S := fun s => (Normal s, s).
Definition put {S : Type} (s : S) : M S unit := fun _ => (Normal tt, s).

Declare Scope js_scope.
Delimit Scope js_scope with js.
Notation "x <- m ;; k" := (bind m (fun x => k))
  (at level 100, m at next level, right associativity) : js_scope.
Notation "m ;;; k" := (bind m (fun _ => k))
  (at level 100, right associativity) : js_scope.

(** ** Helpers imported from [./internal] *)

(** Modelled from the spec: the [assert] helper module is defined outside
    [Realm.ts].  [assert(cond, message)] raises an assertion error
    carrying [message] when [cond] does not hold. *)
Definition assert {S : Type} (cond : bool) (message : string) : M S unit :=
  if cond then ret tt else throw (AssertionError message).

Definition assert_pure (cond : bool) (message : string) : Completion unit :=
  if cond then Normal tt else Throw (AssertionError message).

(** ** Number(bigint)

    [Number(n)] for a [bigint] [n] is the double nearest to [n], ties to
    even.  Every such double is an integer, so the result is given as the
    integer it denotes (exact below [2^1024], far above any 64-bit value). *)
Definition Number_of_BigInt (n : Z) : Z :=
  let a := Z.abs n in
  if a <? 2 ^ 53 then n
  else
    let e := Z.log2 a - 52 in
    let q := Z.shiftr a e in
    let r := a - Z.shiftl q e in
    let half := 2 ^ (e - 1) in
    let q' :=
      if r <? half then q
      else if half <? r then q + 1
      else if Z.even q then q else q + 1 in
    Z.sgn n * Z.shiftl q' e.

(** [BigInt(x)] for a number [x]: the integer itself, and a [RangeError]
    for a number that is not an integer. *)
Definition BigInt_of_Number (x : JsNumber) : Completion Z :=
  match x with
  | Int n => Normal n
  | NonInteger =>
      Throw (RangeError
               "The number cannot be converted to a BigInt because it is not an integer")
  end.

(** ** The platform file system [fs] *)

(** Modelled from the spec: [fs] is injected per platform and is defined
    outside [Realm.ts]; the layer uses it only through these three
    operations, so they are taken as they come. *)
Record FileSystem : Type := {
  isAbsolutePath : string -> bool;
  joinPaths : string -> string -> string;
  getDefaultDirectoryPath : string
}.

(** ** Schemas and configuration *)

(** [UpdateMode]: [{ Never = "never", Modified = "modified", All = "all" }],
    the three values the error message of [create] names. *)
Module UpdateMode.
Definition Never : string := "never".
Definition Modified : string := "modified".
Definition All : string := "all".
(** [Object.values(UpdateMode)] *)
Definition values : list string := [Never; Modified; All].
End UpdateMode.

(** A property as the user declares it: the shorthand string (["int?"],
    ["string[]"], ...) or the object form. *)
Inductive PropertySchema : Type :=
| PropertyShorthand (type : string)
| PropertyObject (type : string) (objectType : option string)
    (optional : option bool) (default : JsValue).

(** [Realm.ObjectSchema], as the user supplies it. *)
Record ObjectSchema : Type := {
  os_name : string;
  os_primaryKey : option string;
  os_properties : list (string * PropertySchema)
}.

(** A property of a canonical (normalized) object schema. *)
Record CanonicalPropertySchema : Type := {
  prop_name : string;
  prop_type : string;
  prop_optional : bool;
  prop_default : JsValue
}.

(** A canonical object schema: its name, its properties in
    [Object.entries] order, and its primary key. *)
Record CanonicalObjectSchema : Type := {
  cos_name : string;
  cos_properties : list (string * CanonicalPropertySchema);
  cos_primaryKey : option string
}.

(** An object schema as the engine holds it ([binding.ObjectSchema]);
    [bos_primaryKey] is falsy ([None] or the empty string) when the class
    declares no primary key. *)
Record BindingObjectSchema : Type := {
  bos_name : string;
  bos_tableKey : Z;
  bos_primaryKey : option string
}.

Module Configuration.
Record t : Type := {
  path : option string;
  schema : option (list ObjectSchema);
  schemaVersion : JsValue;
  inMemory : option bool;
  readOnly : option bool;
  deleteRealmIfMigrationNeeded : option bool;
  fifoFilesFallbackPath : option string;
  shouldCompactOnLaunch : option (Z -> Z -> bool);
  disableFormatUpgrade : option bool;
  sync : bool
}.
(** [{}] *)
Definition empty : t :=
  {| path := None; schema := None; schemaVersion := VUndefined;
     inMemory := None; readOnly := None;
     deleteRealmIfMigrationNeeded := None; fifoFilesFallbackPath := None;
     shouldCompactOnLaunch := None; disableFormatUpgrade := None;
     sync := false |}.
(** [{ path }] *)
Definition of_path (p : string) : t :=
  {| path := Some p; schema := None; schemaVersion := VUndefined;
     inMemory := None; readOnly := None;
     deleteRealmIfMigrationNeeded := None; fifoFilesFallbackPath := None;
     shouldCompactOnLaunch := None; disableFormatUpgrade := None;
     sync := false |}.
End Configuration.

(** Truthiness of an optional boolean field: [undefined] is falsy. *)
Definition truthy (b : option bool) : bool :=
  match b with
  | Some true => true
  | _ => false
  end.

(** [binding.SchemaMode] (the two members the layer names). *)
Inductive SchemaMode : Type := Immutable | ResetFile.

(** [binding.RealmConfig_Relaxed] *)
Module RealmConfig.
Record t : Type := {
  path : string;
  fifoFilesFallbackPath : option string;
  schema : option (list BindingObjectSchema);
  inMemory : bool;
  schemaMode : option SchemaMode;
  schemaVersion : option Z;
  shouldCompactOnLaunchFunction : option (Z -> Z -> bool);
  disableFormatUpgrade : option bool
}.
End RealmConfig.

(** [NOT_VERSIONED = 18446744073709551615n] *)
Definition NOT_VERSIONED : Z := 18446744073709551615.

(** ** The storage engine behind a handle *)

(** Modelled from the spec: the storage engine ([binding]) is an external
    collaborator, defined outside [Realm.ts].  Its handle is modelled by
    the state the spec gives it (sections 3, 4.4 and 6): an open/closed flag,
    the transaction state, the versioned schema, the live rows, and what
    the last commit persisted.  Begin, commit and cancel are the
    transitions of section 4.4; every operation on a closed handle
    fails. *)
Module binding.

(** [binding.Obj]: a row, named by its table key and its object key. *)
Record Obj : Type := { obj_table : Z; obj_key : Z }.

Definition Obj_eqb (a b : Obj) : bool :=
  (obj_table a =? obj_table b) && (obj_key a =? obj_key b).

(** What a commit persists. *)
Record Snapshot : Type := {
  snap_schema : list BindingObjectSchema;
  snap_schemaVersion : Z;
  snap_rows : list Obj
}.

Record Realm : Type := {
  isClosed : bool;
  isInTransaction : bool;
  schema : list BindingObjectSchema;
  schemaVersion : Z;
  rows : list Obj;
  persisted : Snapshot
}.

Definition current (r : Realm) : Snapshot :=
  {| snap_schema := schema r; snap_schemaVersion := schemaVersion r;
     snap_rows := rows r |}.

Definition closedError : Thrown :=
  Error "Cannot access realm that has been closed.".

(** Every method first checks that the handle is open. *)
Definition whenOpen {A : Type} (m : M Realm A) : M Realm A :=
  fun r => if isClosed r then (Throw closedError, r) else m r.

Definition verifyOpen : M Realm unit := whenOpen (ret tt).

Definition beginTransaction : M Realm unit :=
  whenOpen (fun r =>
    if isInTransaction r
    then (Throw (Error "The Realm is already in a write transaction"), r)
    else (Normal tt,
          {| isClosed := isClosed r; isInTransaction := true;
             schema := schema r; schemaVersion := schemaVersion r;
             rows := rows r; persisted := persisted r |})).

Definition commitTransaction : M Realm unit :=
  whenOpen (fun r =>
    if isInTransaction r
    then (Normal tt,
          {| isClosed := isClosed r; isInTransaction := false;
             schema := schema r; schemaVersion := schemaVersion r;
             rows := rows r; persisted := current r |})
    else (Throw (Error "Cannot commit: not in a write transaction"), r)).

Definition cancelTransaction : M Realm unit :=
  whenOpen (fun r =>
    if isInTransaction r
    then (Normal tt,
          {| isClosed := isClosed r; isInTransaction := false;
             schema := snap_schema (persisted r);
             schemaVersion := snap_schemaVersion (persisted r);
             rows := snap_rows (persisted r); persisted := persisted r |})
    else (Throw (Error "Cannot cancel: not in a write transaction"), r)).

Definition close : M Realm unit :=
  fun r =>
    (Normal tt,
     {| isClosed := true; isInTransaction := false;
        schema := snap_schema (persisted r);
        schemaVersion := snap_schemaVersion (persisted r);
        rows := snap_rows (persisted r); persisted := persisted r |}).

(** [obj.isValid]: the row is still there and its handle is open. *)
Definition isValid (r : Realm) (obj : Obj) : bool :=
  negb (isClosed r) && existsb (Obj_eqb obj) (rows r).

(** [table.removeObject(key)]: removes the row; a key that names no row
    surfaces the engine's not-found-by-key error. *)
Definition removeObject (tableKey objKey : Z) : M Realm unit :=
  whenOpen (fun r =>
    let obj := {| obj_table := tableKey; obj_key := objKey |} in
    if existsb (Obj_eqb obj) (rows r)
    then (Normal tt,
          {| isClosed := isClosed r; isInTransaction := isInTransaction r;
             schema := schema r; schemaVersion := schemaVersion r;
             rows := List.filter (fun o => negb (Obj_eqb obj o)) (rows r);
             persisted := persisted r |})
    else (Throw (Error "No object with key"), r)).

(** [table.clear()] *)
Definition clear (tableKey : Z) : M Realm unit :=
  whenOpen (fun r =>
    (Normal tt,
     {| isClosed := isClosed r; isInTransaction := isInTransaction r;
        schema := schema r; schemaVersion := schemaVersion r;
        rows := List.filter (fun o => negb (obj_table o =? tableKey)) (rows r);
        persisted := persisted r |})).

Definition tableKeyOf (r : Realm) (name : string) : option Z :=
  option_map bos_tableKey
    (List.find (fun objectSchema => String.eqb (bos_name objectSchema) name)
       (schema r)).

(** [binding.Helpers.deleteDataForObject(realm, name)]: removes every
    row of the class; an engine error if there is no such class.  The
    handle's schema is re-applied by the caller. *)
Definition deleteDataForObject (name : string) : M Realm unit :=
  whenOpen (fun r =>
    match tableKeyOf r name with
    | Some tableKey =>
        (Normal tt,
         {| isClosed := isClosed r; isInTransaction := isInTransaction r;
            schema := schema r; schemaVersion := schemaVersion r;
            rows := List.filter (fun o => negb (obj_table o =? tableKey)) (rows r);
            persisted := persisted r |})
    | None => (Throw (Error ("No such class: " ++ name)), r)
    end).

(** [realm.updateSchema(schema, version, null, null, true)]: applies the
    schema and the version inside the running transaction. *)
Definition updateSchema (newSchema : list BindingObjectSchema) (version : Z)
  : M Realm unit :=
  whenOpen (fun r =>
    (Normal tt,
     {| isClosed := isClosed r; isInTransaction := isInTransaction r;
        schema := newSchema; schemaVersion := version;
        rows := rows r; persisted := persisted r |})).

End binding.

(** The calls the layer makes into the engine, in the order it makes
    them (property reads such as [isInTransaction] are not calls). *)
Inductive EngineCall : Type :=
| CallGetSharedRealm (config : RealmConfig.t)
| CallConvert (config : RealmConfig.t)
| CallVerifyOpen
| CallBeginTransaction
| CallCommitTransaction
| CallCancelTransaction
| CallGetTable (tableKey : Z)
| CallRemoveObject (tableKey objKey : Z)
| CallDeleteDataForObject (name : string)
| CallUpdateSchema (schema : list BindingObjectSchema) (version : Z)
| CallFindPrimaryKey (tableKey : Z) (value : JsValue)
| CallGetObject (tableKey : Z) (objKey : Z).

(** ** Typed objects and class helpers *)

(** A typed object wrapper ([RealmObject]): the class it was made for and
    its backing row [object[INTERNAL]], [None] when it is detached. *)
Record RealmObject : Type := {
  ro_class : string;
  ro_INTERNAL : option binding.Obj
}.

(** What [classes.getHelpers] accepts. *)
Inductive ClassIdentifier : Type :=
| ClassName (name : string)
| ClassConstructor (name : string)
| ClassInstance (object : RealmObject).

(** [ClassHelpers]: the engine's schema of the class, the encoder of a
    property ([properties.get(name).toBinding(value, undefined)]) and the
    factory that wraps a row. *)
Record ClassHelpers : Type := {
  objectSchema : BindingObjectSchema;
  toBinding : string -> JsValue -> Completion JsValue;
  wrapObject : binding.Obj -> RealmObject
}.

(** Modelled from the spec: [ClassMap] is defined outside [Realm.ts].
    The layer uses it through [getHelpers] only, which resolves a class
    identifier or raises (section 4.3). *)
Record ClassMap : Type := {
  getHelpers : ClassIdentifier -> Completion ClassHelpers
}.

(** The argument of [delete] at run time. *)
Inductive DeleteItem : Type :=
| ItemObject (object : RealmObject)
| ItemOther (v : JsValue).

Inductive ObjectSubject : Type :=
| SubjectObject (subject : RealmObject)
| SubjectArray (items : list DeleteItem)
| SubjectIterable (items : list DeleteItem)
| SubjectOther.

Inductive Subject : Type :=
| IsObject (subject : ObjectSubject)
| NotObject (v : JsValue).

(** The [values] argument of [create] at run time. *)
Inductive CreateValues : Type :=
| ValuesPlain (props : list (string * JsValue))
| ValuesRealmObject (object : RealmObject).

(** [schemaExtras]: the defaults per class, by property name. *)
Definition RealmSchemaExtra : Type := list (string * list (string * JsValue)).

(** ** The class [Realm] *)

Module Realm.

(** An instance: the engine handle [internal], the class map, and the
    schema extras.  [engineCalls] is not a field of the class: it records
    the calls made into the engine through this instance. *)
Record t : Type := {
  internal : binding.Realm;
  classes : ClassMap;
  schemaExtras : RealmSchemaExtra;
  engineCalls : list EngineCall
}.

(** A call [c] into the engine, carried out by [op] on the handle. *)
Definition engine {A : Type} (c : EngineCall) (op : M binding.Realm A)
  : M t A :=
  fun this =>
    let '(r, i) := op (internal this) in
    (r, {| internal := i; classes := classes this;
           schemaExtras := schemaExtras this;
           engineCalls := engineCalls this ++ [c] |}).

(** [get isInTransaction()] *)
Definition isInTransaction (this : t) : bool :=
  binding.isInTransaction (internal this).

(** [get isClosed()] *)
Definition isClosed (this : t) : bool := binding.isClosed (internal this).

(** [get schemaVersion()], before its conversion to a number. *)
Definition internal_schemaVersion (this : t) : Z :=
  binding.schemaVersion (internal this).

(** Modelled from the spec: [assert.inTransaction(realm, message)] and
    [assert.outTransaction(realm, message)] are defined outside
    [Realm.ts]; they raise when the handle is not, respectively is, in a
    transaction (sections 4.4 and 4.5). *)
Definition assert_inTransaction (message : string) : M t unit :=
  (this <- get ;; assert (isInTransaction this) message)%js.

Definition assert_outTransaction (message : string) : M t unit :=
  (this <- get ;; assert (negb (isInTransaction this)) message)%js.

(** Modelled from the spec: [assert.object(value, name)] is defined
    outside [Realm.ts]; it raises a type assertion unless [value] is an
    object, and narrows the type of [value] otherwise. *)
Definition assert_object (value : Subject) (name : string)
  : M t ObjectSubject :=
  match value with
  | IsObject o => ret o
  | NotObject _ => throw (TypeAssertionError "an object" name)
  end.

(** Modelled from the spec: [assert.instanceOf(value, RealmObject)] is
    defined outside [Realm.ts]; it raises a type assertion unless [value]
    is a typed object. *)
Definition assert_instanceOf_RealmObject (value : DeleteItem)
  : M t RealmObject :=
  match value with
  | ItemObject o => ret o
  | ItemOther _ =>
      throw (TypeAssertionError "an instance of RealmObject" "value")
  end.

(** Reading a property of [undefined] is a [TypeError]. *)
Definition propertyOfUndefined (property : string) : Thrown :=
  Error ("Cannot read properties of undefined (reading '" ++ property ++ "')").

(** Modelled from the spec: [assert.isValid(obj, message)] is defined
    outside [Realm.ts]; it raises [message] unless [obj.isValid]. *)
Definition assert_isValid (obj : option binding.Obj) (message : string)
  : M t binding.Obj :=
  match obj with
  | None => throw (propertyOfUndefined "isValid")
  | Some obj =>
      (this <- get ;;
       assert (binding.isValid (internal this) obj) message ;;;
       ret obj)%js
  end.

(** Modelled from the spec: [assert.bigInt(value)] is defined outside
    [Realm.ts]; it raises a type assertion unless [value] is a [bigint]. *)
Definition assert_bigInt (value : JsValue) : M t Z :=
  match value with
  | VBigInt n => ret n
  | _ => throw (TypeAssertionError "a bigint" "value")
  end.

(** [this.classes.getHelpers(arg)] *)
Definition classes_getHelpers (arg : ClassIdentifier) : M t ClassHelpers :=
  fun this => (getHelpers (classes this) arg, this).

(** [binding.Helpers.getTable(this.internal, tableKey)]: the table is
    named by its key. *)
Definition getTable (tableKey : Z) : M t Z :=
  engine (CallGetTable tableKey) (binding.whenOpen (ret tableKey)).

(** *** Transactions *)

Definition beginTransaction : M t unit :=
  engine CallBeginTransaction binding.beginTransaction.

Definition commitTransaction : M t unit :=
  engine CallCommitTransaction binding.commitTransaction.

Definition cancelTransaction : M t unit :=
  engine CallCancelTransaction binding.cancelTransaction.

Definition write {T : Type} (callback : M t T) : M t T :=
  (engine CallBeginTransaction binding.beginTransaction ;;;
   result <- try_catch callback
               (fun err =>
                  engine CallCancelTransaction binding.cancelTransaction ;;;
                  throw err) ;;
   engine CallCommitTransaction binding.commitTransaction ;;;
   ret result)%js.

(** *** delete, deleteModel *)

Definition delete_one (object : DeleteItem) : M t unit :=
  (object <- assert_instanceOf_RealmObject object ;;
   helpers <- classes_getHelpers (ClassInstance object) ;;
   table <- getTable (bos_tableKey (objectSchema helpers)) ;;
   match ro_INTERNAL object with
   | None => throw (propertyOfUndefined "key")
   | Some obj =>
       engine (CallRemoveObject table (binding.obj_key obj))
         (binding.removeObject table (binding.obj_key obj))
   end)%js.

(** [for (const object of subject) { ... }] *)
Fixpoint delete_each (items : list DeleteItem) : M t unit :=
  match items with
  | [] => ret tt
  | object :: rest => (delete_one object ;;; delete_each rest)%js
  end.

Definition delete (subject : Subject) : M t unit :=
  (assert_inTransaction "Can only delete objects within a transaction." ;;;
   subject <- assert_object subject "subject" ;;
   match subject with
   | SubjectObject subject =>
       helpers <- classes_getHelpers (ClassInstance subject) ;;
       let obj := ro_INTERNAL subject in
       obj <- assert_isValid obj
                "Object is invalid. Either it has been previously deleted or the Realm it belongs to has been closed." ;;
       table <- getTable (bos_tableKey (objectSchema helpers)) ;;
       engine (CallRemoveObject table (binding.obj_key obj))
         (binding.removeObject table (binding.obj_key obj))
   | SubjectArray items => delete_each items
   | SubjectIterable items => delete_each items
   | SubjectOther => throw (Error "Not yet implemented")
   end)%js.

Definition deleteModel (name : string) : M t unit :=
  (assert_inTransaction "Can only delete objects within a transaction." ;;;
   engine (CallDeleteDataForObject name) (binding.deleteDataForObject name) ;;;
   this <- get ;;
   let newSchema :=
     List.filter (fun objectSchema => negb (String.eqb (bos_name objectSchema) name))
       (binding.schema (internal this)) in
   let version := binding.schemaVersion (internal this) + 1 in
   engine (CallUpdateSchema newSchema version)
     (binding.updateSchema newSchema version))%js.

(** *** Resolving a configuration; the parts imported from elsewhere *)

Section WithPlatform.

Variable fs : FileSystem.
(** The current value of the mutable static field [Realm.defaultPath]. *)
Variable defaultPath : string.

(** These functions of [./internal] are defined outside [Realm.ts] and
    are taken as parameters: the validators raise or return, the
    normalizers and [toBindingSchema] compute the canonical and the
    engine's form. *)
Variable validateConfiguration : Configuration.t -> Completion unit.
Variable validateObjectSchema : ObjectSchema -> Completion unit.
Variable normalizeObjectSchema : ObjectSchema -> CanonicalObjectSchema.
Variable normalizeRealmSchema :
  list ObjectSchema -> Completion (list CanonicalObjectSchema).
Variable toBindingSchema :
  list CanonicalObjectSchema -> list BindingObjectSchema.
Variable ClassMap_new : binding.Realm -> ClassMap.
Variable RealmObject_create :
  CreateValues -> string -> ClassHelpers -> M t RealmObject.

(** The engine's static entry points and the lookups of a table; each
    answers or raises as the engine decides. *)
Variable getSchemaVersion : string -> Completion Z.
Variable getSharedRealm : RealmConfig.t -> Completion binding.Realm.
Variable convert : RealmConfig.t -> M binding.Realm unit.
Variable findPrimaryKey : Z -> JsValue -> M binding.Realm JsValue.
Variable getObject : Z -> Z -> M binding.Realm binding.Obj.
(** The string a template literal makes of a value. *)
Variable toString : JsValue -> string.

Definition normalizePath (path : option string) : Completion string :=
  match path with
  | None => Normal defaultPath
  | Some path =>
      if (String.length path =? 0)%nat
      then Throw (Error "Unexpected empty path")
      else if isAbsolutePath fs path then Normal path
      else Normal (joinPaths fs (getDefaultDirectoryPath fs) path)
  end.

Definition determinePath (config : Configuration.t) : Completion string :=
  normalizePath (Configuration.path config).

Definition determineSchemaMode (config : Configuration.t)
  : Completion (option SchemaMode) :=
  let readOnly := Configuration.readOnly config in
  let deleteRealmIfMigrationNeeded :=
    Configuration.deleteRealmIfMigrationNeeded config in
  cbind
    (assert_pure
       (negb (truthy readOnly) || negb (truthy deleteRealmIfMigrationNeeded))
       "Cannot set 'deleteRealmIfMigrationNeeded' when 'readOnly' is set.")
    (fun _ =>
       if truthy readOnly then Normal (Some Immutable)
       else if truthy deleteRealmIfMigrationNeeded
            then Normal (Some ResetFile)
            else Normal None).

Definition transformConfig (config : Configuration.t)
    (normalizedSchema : option (list CanonicalObjectSchema))
  : Completion RealmConfig.t :=
  cbind (determinePath config) (fun path =>
  let fifoFilesFallbackPath := Configuration.fifoFilesFallbackPath config in
  let shouldCompactOnLaunch := Configuration.shouldCompactOnLaunch config in
  let inMemory := Configuration.inMemory config in
  let bindingSchema := option_map toBindingSchema normalizedSchema in
  cbind (determineSchemaMode config) (fun schemaMode =>
  cbind
    (match Configuration.schema config with
     | Some _ =>
         match Configuration.schemaVersion config with
         | VNumber x => cbind (BigInt_of_Number x) (fun n => Normal (Some n))
         | _ => Normal (Some 0)
         end
     | None => Normal None
     end) (fun schemaVersion =>
  Normal
    {| RealmConfig.path := path;
       RealmConfig.fifoFilesFallbackPath := fifoFilesFallbackPath;
       RealmConfig.schema := bindingSchema;
       RealmConfig.inMemory :=
         match inMemory with Some true => true | _ => false end;
       RealmConfig.schemaMode := schemaMode;
       RealmConfig.schemaVersion := schemaVersion;
       RealmConfig.shouldCompactOnLaunchFunction :=
         match shouldCompactOnLaunch with
         | Some f =>
             Some (fun totalBytes usedBytes =>
                     f (Number_of_BigInt totalBytes)
                       (Number_of_BigInt usedBytes))
         | None => None
         end;
       RealmConfig.disableFormatUpgrade :=
         Configuration.disableFormatUpgrade config |}))).

(** The static [Realm.schemaVersion(path, encryptionKey?)]. *)
Definition schemaVersion (path : string) (encryptionKey : option (list Z))
  : Completion JsValue :=
  let config := Configuration.of_path path in
  match encryptionKey with
  | Some _ => Throw (Error "Not yet supported")
  | None =>
      cbind (determinePath config) (fun absolutePath =>
      cbind (getSchemaVersion absolutePath) (fun schemaVersion =>
      if schemaVersion =? NOT_VERSIONED then Normal (VNumber (Int (-1)))
      else Normal (VNumber (Int (Number_of_BigInt schemaVersion)))))
  end.

(** *** createTemplateObject *)

(** The [switch (property.type)] of the loop body: the value a required
    property without a default receives, if any. *)
Definition typeDefault (type : string) : option JsValue :=
  if String.eqb type "bool" then Some (VBool false)
  else if String.eqb type "int" then Some (VNumber (Int 0))
  else if String.eqb type "float" then Some (VNumber (Int 0))
  else if String.eqb type "double" then Some (VNumber (Int 0))
  else if String.eqb type "string" then Some (VString "")
  else if String.eqb type "data" then Some (VArrayBuffer [])
  else if String.eqb type "date" then Some (VDate 0)
  else None.

(** One iteration of the loop over [Object.entries(properties)]. *)
Definition templateStep (result : gmap string JsValue)
    (entry : string * CanonicalPropertySchema) : gmap string JsValue :=
  let '(key, property) := entry in
  match prop_default property with
  | VUndefined =>
      if prop_optional property then result
      else
        match typeDefault (prop_type property) with
        | Some v => <[key := v]> result
        | None => result
        end
  | default => <[key := default]> result
  end.

Definition createTemplateObject (objectSchema : ObjectSchema)
  : Completion (gmap string JsValue) :=
  cbind (validateObjectSchema objectSchema) (fun _ =>
  let normalizedSchema := normalizeObjectSchema objectSchema in
  Normal (fold_left templateStep (cos_properties normalizedSchema) ∅)).

(** *** Opening a handle *)

Definition extractSchemaExtras (schemas : list CanonicalObjectSchema)
  : RealmSchemaExtra :=
  map (fun schema =>
         (cos_name schema,
          map (fun '(name, property) => (name, prop_default property))
            (cos_properties schema)))
    schemas.

(** [config.schema && normalizeRealmSchema(config.schema)] *)
Definition normalizeOptional (schema : option (list ObjectSchema))
  : Completion (option (list CanonicalObjectSchema)) :=
  match schema with
  | None => Normal None
  | Some schema => cbind (normalizeRealmSchema schema) (fun n => Normal (Some n))
  end.

Definition lift {S A : Type} (c : Completion A) : M S A := fun s => (c, s).

(** [binding.Realm.getSharedRealm(config)] *)
Definition binding_getSharedRealm (config : RealmConfig.t)
  : M (list EngineCall) binding.Realm :=
  fun calls : list EngineCall =>
    (getSharedRealm config, (calls ++ [CallGetSharedRealm config])%list).

(** [new Realm(config)], over the calls made into the engine so far. *)
Definition constructor (config : Configuration.t) : M (list EngineCall) t :=
  (lift (validateConfiguration config) ;;;
   normalizedSchema <- lift (normalizeOptional (Configuration.schema config)) ;;
   let schemaExtras :=
     extractSchemaExtras
       (match normalizedSchema with Some n => n | None => [] end) in
   internalConfig <- lift (transformConfig config normalizedSchema) ;;
   internal <- binding_getSharedRealm internalConfig ;;
   ret {| internal := internal; classes := ClassMap_new internal;
          schemaExtras := schemaExtras; engineCalls := [] |})%js.

Definition writeCopyTo (config : Configuration.t) : M t unit :=
  (assert_outTransaction "Can only convert Realms outside a transaction." ;;;
   lift (validateConfiguration config) ;;;
   normalizedSchema <- lift (normalizeOptional (Configuration.schema config)) ;;
   internalConfig <- lift (transformConfig config normalizedSchema) ;;
   engine (CallConvert internalConfig) (convert internalConfig))%js.

(** *** create *)

(** [values instanceof RealmObject && !values[INTERNAL]] *)
Definition isDetached (values : CreateValues) : bool :=
  match values with
  | ValuesRealmObject object =>
      match ro_INTERNAL object with
      | None => true
      | Some _ => false
      end
  | ValuesPlain _ => false
  end.

(** [Object.values(UpdateMode).includes(mode)], with the matching member. *)
Definition asUpdateMode (mode : JsValue) : option string :=
  match mode with
  | VString s =>
      if existsb (String.eqb s) UpdateMode.values then Some s else None
  | _ => None
  end.

Definition create (type : ClassIdentifier) (values : CreateValues)
    (mode : JsValue) : M t RealmObject :=
  (* the default of the parameter *)
  let mode :=
    match mode with
    | VUndefined => VString UpdateMode.Never
    | _ => mode
    end in
  (* Supporting a boolean overload for mode *)
  let mode :=
    match mode with
    | VBool true => VString UpdateMode.All
    | VBool false => VString UpdateMode.Never
    | _ => mode
    end in
  if isDetached values
  then throw (Error "Cannot create an object from a detached Realm.Object instance")
  else
    match asUpdateMode mode with
    | None =>
        throw (Error "Unsupported 'updateMode'. Only 'never', 'modified' or 'all' is supported.")
    | Some mode =>
        (engine CallVerifyOpen binding.verifyOpen ;;;
         helpers <- classes_getHelpers type ;;
         RealmObject_create values mode helpers)%js
    end.

(** *** objectForPrimaryKey *)

(** [!objectSchema.primaryKey] *)
Definition declaredPrimaryKey (objectSchema : BindingObjectSchema)
  : option string :=
  match bos_primaryKey objectSchema with
  | Some pk => if (String.length pk =? 0)%nat then None else Some pk
  | None => None
  end.

Definition objectForPrimaryKey (type : ClassIdentifier)
    (primaryKey : JsValue) : M t (option RealmObject) :=
  (helpers <- classes_getHelpers type ;;
   let objectSchema := objectSchema helpers in
   match declaredPrimaryKey objectSchema with
   | None =>
       throw (Error ("Expected a primary key on '"
                       ++ bos_name objectSchema ++ "'"))
   | Some pk =>
       table <- getTable (bos_tableKey objectSchema) ;;
       value <- lift (toBinding helpers pk primaryKey) ;;
       try_catch
         (objKey <- engine (CallFindPrimaryKey table value)
                      (findPrimaryKey table value) ;;
          objKey <- assert_bigInt objKey ;;
          if objKey =? -1 then ret None
          else
            obj <- engine (CallGetObject table objKey)
                     (getObject table objKey) ;;
            ret (Some (wrapObject helpers obj)))
         (fun err =>
            if instanceOfError err
               && String.prefix "No object with key" (message_of err)
            then throw (Error ("No '" ++ bos_name objectSchema
                                 ++ "' with key '" ++ toString primaryKey
                                 ++ "'"))
            else throw err)
   end)%js.

End WithPlatform.

(** The initializer of the static field:
    [defaultPath = Realm.normalizePath("default.realm")]. *)
Definition defaultPath_initializer (fs : FileSystem) : Completion string :=
  normalizePath fs "" (Some "default.realm").

End Realm.

(** ** validateConfiguration *)

(** Modelled from the spec: [validateConfiguration] is defined outside
    [Realm.ts].  By section 4.1 it fails if the mutually exclusive flags [readOnly] and
    [deleteRealmIfMigrationNeeded] are both set, if [path] is an empty
    string, or if the schema entries fail schema validation. *)
Definition validateConfiguration_spec
    (validateRealmSchema : list ObjectSchema -> Completion unit)
    (config : Configuration.t) : Completion unit :=
  if truthy (Configuration.readOnly config)
     && truthy (Configuration.deleteRealmIfMigrationNeeded config)
  then Throw (AssertionError
                "Cannot set 'deleteRealmIfMigrationNeeded' when 'readOnly' is set.")
  else
    match Configuration.path config with
    | Some "" => Throw (AssertionError "Expected a non-empty path")
    | _ =>
        match Configuration.schema config with
        | Some schema => validateRealmSchema schema
        | None => Normal tt
        end
    end.

(** ** Auxiliary definitions of the statements *)

(** What one iteration stores under its key, if anything. *)
Definition templateValue (property : CanonicalPropertySchema)
  : option JsValue :=
  match prop_default property with
  | VUndefined =>
      if prop_optional property then None
      else Realm.typeDefault (prop_type property)
  | default => Some default
  end.

(** What [create] does once its checks have passed, with the update mode
    it hands on. *)
Definition createWith
    (RealmObject_create :
       CreateValues -> string -> ClassHelpers -> M Realm.t RealmObject)
    (type : ClassIdentifier) (values : CreateValues) (mode : string)
  : M Realm.t RealmObject :=
  (Realm.engine CallVerifyOpen binding.verifyOpen ;;;
   helpers <- Realm.classes_getHelpers type ;;
   RealmObject_create values mode helpers)%js.

(** The test of the [catch] clause: an [Error] whose message starts with
    the engine's not-found wording. *)
Definition isNotFoundError (err : Thrown) : bool :=
  instanceOfError err && String.prefix "No object with key" (message_of err).

(** The message of the validity check of [delete]. *)
Definition invalidObjectMessage : string :=
  "Object is invalid. Either it has been previously deleted or the Realm it belongs to has been closed.".

(** The handle as [beginTransaction] leaves it. *)
Definition afterBegin (this : Realm.t) : Realm.t :=
  snd (Realm.beginTransaction this).

(** ** The rest of [Realm.ts] *)

(** [s.endsWith(suffix)] *)
Fixpoint endsWith (s suffix : string) : bool :=
  if String.eqb s suffix then true
  else
    match s with
    | EmptyString => false
    | String _ rest => endsWith rest suffix
    end.

(** [for (const x of items) { body x }] *)
Fixpoint forEach {S A : Type} (body : A -> M S unit) (items : list A)
  : M S unit :=
  match items with
  | [] => ret tt
  | x :: rest => (body x ;;; forEach body rest)%js
  end.

(** An entry of a directory listing. *)
Record Dirent : Type := {
  dirent_name : string;
  dirent_isDirectory : bool
}.

(** The calls the layer makes into the platform file system, in the
    order it makes them. *)
Inductive FsCall : Type :=
| CallExists (path : string)
| CallReadDirectory (path : string)
| CallRemoveFile (path : string)
| CallRemoveDirectory (path : string).

(** The operations of the platform file system that read or change the
    files, over whatever state [F] the platform keeps; each answers or
    raises as the platform decides. *)
Record FileSystemEffects (F : Type) : Type := {
  fs_exists : string -> M F bool;
  fs_readDirectory : string -> M F (list Dirent);
  fs_removeFile : string -> M F unit;
  fs_removeDirectory : string -> M F unit
}.
Arguments fs_exists {F} _.
Arguments fs_readDirectory {F} _.
Arguments fs_removeFile {F} _.
Arguments fs_removeDirectory {F} _.

(** What the static members work on: the engine handles alive in the
    process, [RETURNED_REALMS] (a weak reference is the index of its
    handle, or [None] once the handle has been collected), and the files
    with the calls made on them. *)
Record Process (F : Type) : Type := {
  heap : list binding.Realm;
  RETURNED_REALMS : list (option nat);
  files : F;
  fsCalls : list FsCall
}.
Arguments heap {F} _.
Arguments RETURNED_REALMS {F} _.
Arguments files {F} _.
Arguments fsCalls {F} _.

(** The argument of [exists] and [open]: absent, a path, or a
    configuration. *)
Inductive ConfigurationArg : Type :=
| ArgAbsent
| ArgPath (path : string)
| ArgConfiguration (config : Configuration.t).

(** [typeof arg === "string" ? { path: arg } : arg], with the default
    [{}] of the parameter. *)
Definition configOf (arg : ConfigurationArg) : Configuration.t :=
  match arg with
  | ArgAbsent => Configuration.empty
  | ArgPath path => Configuration.of_path path
  | ArgConfiguration config => config
  end.

(** A JavaScript object as the list of its own string-keyed properties,
    in the order in which its keys are enumerated ([Object.keys],
    [for ... in], [JSON.stringify]): the array indices first, in
    ascending order, then the other keys in the order in which they were
    first assigned. *)
Definition JsObject : Type := list (string * JsValue).

(** The value of a string of decimal digits, read after [acc]. *)
Fixpoint digits (s : string) (acc : N) : option N :=
  match s with
  | EmptyString => Some acc
  | String c rest =>
      let n := Ascii.N_of_ascii c in
      if ((48 <=? n) && (n <=? 57))%N then digits rest (10 * acc + (n - 48))%N
      else None
  end.

(** The array index a key stands for, if any: a key that is the decimal
    writing, without a leading zero, of an integer from [0] to
    [2^32 - 2]. *)
Definition arrayIndex (key : string) : option N :=
  match key with
  | EmptyString => None
  | String c rest =>
      if (Ascii.N_of_ascii c =? 48)%N && negb (String.eqb rest "") then None
      else
        match digits key 0 with
        | Some n => if (n <? 2 ^ 32 - 1)%N then Some n else None
        | None => None
        end
  end.

Definition hasOwnProperty (key : string) (object : JsObject) : bool :=
  existsb (fun entry => String.eqb (fst entry) key) object.

(** The place of a new array index [i]: before the first key that is not
    an array index or is a greater one. *)
Fixpoint insertIndex (i : N) (key : string) (value : JsValue)
    (object : JsObject) : JsObject :=
  match object with
  | [] => [(key, value)]
  | (k, v) :: rest =>
      match arrayIndex k with
      | Some j =>
          if (j <? i)%N then (k, v) :: insertIndex i key value rest
          else (key, value) :: object
      | None => (key, value) :: object
      end
  end.

(** [object[key] = value] on an ordinary object that inherits from
    [Object.prototype]: a property the object has keeps its place; a new
    one goes to its place among the array indices, or last.  The key
    [__proto__] is the accessor of [Object.prototype]: assigning to it
    creates no property of the object. *)
Definition setProperty (key : string) (value : JsValue) (object : JsObject)
  : JsObject :=
  if String.eqb key "__proto__" then object
  else if hasOwnProperty key object
  then map (fun entry =>
              if String.eqb (fst entry) key then (fst entry, value) else entry)
         object
  else
    match arrayIndex key with
    | Some i => insertIndex i key value object
    | None => (object ++ [(key, value)])%list
    end.

Module RealmMore.

Section Statics.

Variable fs : FileSystem.
Variable defaultPath : string.
Context {F : Type}.
Variable fsx : FileSystemEffects F.
Variable validateConfiguration : Configuration.t -> Completion unit.
Variable normalizeRealmSchema :
  list ObjectSchema -> Completion (list CanonicalObjectSchema).
Variable toBindingSchema :
  list CanonicalObjectSchema -> list BindingObjectSchema.
Variable ClassMap_new : binding.Realm -> ClassMap.
Variable getSharedRealm : RealmConfig.t -> Completion binding.Realm.

(** A call [c] into the file system, carried out by [op] on the files. *)
Definition onFiles {A : Type} (c : FsCall) (op : M F A) : M (Process F) A :=
  fun p =>
    let '(r, f) := op (files p) in
    (r, {| heap := heap p; RETURNED_REALMS := RETURNED_REALMS p;
           files := f; fsCalls := (fsCalls p ++ [c])%list |}).

(** The body of the first loop of [clearTestState]:
    [const realm = weakRealm.deref();
     if (realm && !realm.isClosed) { realm.close(); }] *)
Definition closeStraggler (weakRealm : option nat) : M (Process F) unit :=
  fun p =>
    match weakRealm with
    | None => (Normal tt, p)
    | Some i =>
        match heap p !! i with
        | None => (Normal tt, p)
        | Some realm =>
            if binding.isClosed realm then (Normal tt, p)
            else
              let '(r, closed) := binding.close realm in
              (r, {| heap := <[i := closed]> (heap p);
                     RETURNED_REALMS := RETURNED_REALMS p;
                     files := files p; fsCalls := fsCalls p |})
        end
    end.

(** The body of the second loop of [clearTestState]. *)
Definition removeDirent (defaultDirectoryPath : string) (dirent : Dirent)
  : M (Process F) unit :=
  let direntPath := joinPaths fs defaultDirectoryPath (dirent_name dirent) in
  if dirent_isDirectory dirent
     && endsWith (dirent_name dirent) ".realm.management"
  then onFiles (CallRemoveDirectory direntPath)
         (fs_removeDirectory fsx direntPath)
  else if endsWith (dirent_name dirent) ".realm"
          || endsWith (dirent_name dirent) ".realm.note"
          || endsWith (dirent_name dirent) ".realm.lock"
          || endsWith (dirent_name dirent) ".realm.log"
  then onFiles (CallRemoveFile direntPath) (fs_removeFile fsx direntPath)
  else ret tt.

Definition clearTestState : M (Process F) unit :=
  (p <- get ;;
   (* Close any realms not already closed *)
   forEach closeStraggler (RETURNED_REALMS p) ;;;
   (fun p => (Normal tt,
              {| heap := heap p; RETURNED_REALMS := [];
                 files := files p; fsCalls := fsCalls p |})) ;;;
   (* Delete all Realm files in the default directory *)
   let defaultDirectoryPath := getDefaultDirectoryPath fs in
   dirents <- onFiles (CallReadDirectory defaultDirectoryPath)
                (fs_readDirectory fsx defaultDirectoryPath) ;;
   forEach (removeDirent defaultDirectoryPath) dirents)%js.

Definition deleteFile (config : Configuration.t) : M (Process F) unit :=
  (path <- Realm.lift (Realm.determinePath fs defaultPath config) ;;
   onFiles (CallRemoveFile path) (fs_removeFile fsx path) ;;;
   onFiles (CallRemoveFile (path ++ ".lock"))
     (fs_removeFile fsx (path ++ ".lock")) ;;;
   onFiles (CallRemoveFile (path ++ ".note"))
     (fs_removeFile fsx (path ++ ".note")) ;;;
   onFiles (CallRemoveDirectory (path ++ ".management"))
     (fs_removeDirectory fsx (path ++ ".management")))%js.

Definition exists_ (arg : ConfigurationArg) : M (Process F) bool :=
  let config := configOf arg in
  (Realm.lift (validateConfiguration config) ;;;
   path <- Realm.lift (Realm.determinePath fs defaultPath config) ;;
   onFiles (CallExists path) (fs_exists fsx path))%js.

(** [open]: the promise it returns is settled at once, so a rejection is
    a raised error here. *)
Definition open (arg : ConfigurationArg) : M (list EngineCall) Realm.t :=
  let config := configOf arg in
  (Realm.lift (validateConfiguration config) ;;;
   if negb (Configuration.sync config)
   then Realm.constructor fs defaultPath validateConfiguration
          normalizeRealmSchema toBindingSchema ClassMap_new getSharedRealm
          config
   else throw (Error "Not yet supported"))%js.

End Statics.

Section Template.

Variable validateObjectSchema : ObjectSchema -> Completion unit.
Variable normalizeObjectSchema : ObjectSchema -> CanonicalObjectSchema.

(** One iteration of the loop of [createTemplateObject], with [result]
    as the object it is, the order of its keys included. *)
Definition templateStep (result : JsObject)
    (entry : string * CanonicalPropertySchema) : JsObject :=
  let '(key, property) := entry in
  match prop_default property with
  | VUndefined =>
      if prop_optional property then result
      else
        match Realm.typeDefault (prop_type property) with
        | Some v => setProperty key v result
        | None => result
        end
  | default => setProperty key default result
  end.

(** [createTemplateObject], with the object it returns as the list of
    its properties in the order of its keys. *)
Definition createTemplateObject (objectSchema : ObjectSchema)
  : Completion JsObject :=
  cbind (validateObjectSchema objectSchema) (fun _ =>
  let normalizedSchema := normalizeObjectSchema objectSchema in
  Normal (fold_left templateStep (cos_properties normalizedSchema) [])).

End Template.

Section Instance.

(** [validateRealmSchema], [normalizeRealmSchema], [toBindingSchema] and
    the constructor of [ClassMap] are defined outside [Realm.ts]; the
    class map is built from the handle's schema and from [this.schema],
    which is computed from that schema and the schema extras.
    [compact] is the engine's. *)
Variable validateRealmSchema : list ObjectSchema -> Completion unit.
Variable normalizeRealmSchema :
  list ObjectSchema -> Completion (list CanonicalObjectSchema).
Variable toBindingSchema :
  list CanonicalObjectSchema -> list BindingObjectSchema.
Variable ClassMap_of : binding.Realm -> RealmSchemaExtra -> ClassMap.
Variable compact_ : M binding.Realm bool.

(** An operation of the handle that has no entry of its own among the
    recorded calls ([table.clear], [compact]). *)
Definition onHandle {A : Type} (op : M binding.Realm A) : M Realm.t A :=
  fun this =>
    let '(r, i) := op (Realm.internal this) in
    (r, {| Realm.internal := i; Realm.classes := Realm.classes this;
           Realm.schemaExtras := Realm.schemaExtras this;
           Realm.engineCalls := Realm.engineCalls this |}).

(** [get schemaVersion()] *)
Definition schemaVersion (this : Realm.t) : JsValue :=
  VNumber (Int (Number_of_BigInt (binding.schemaVersion (Realm.internal this)))).

Definition deleteAll : M Realm.t unit :=
  (Realm.assert_inTransaction "Can only delete objects within a transaction." ;;;
   this <- get ;;
   forEach
     (fun objectSchema =>
        table <- Realm.getTable (bos_tableKey objectSchema) ;;
        onHandle (binding.clear table))
     (binding.schema (Realm.internal this)))%js.

Definition compact : M Realm.t bool :=
  (Realm.assert_outTransaction "Cannot compact a Realm within a transaction." ;;;
   onHandle compact_)%js.

Definition _updateSchema (schema : list ObjectSchema) : M Realm.t unit :=
  (Realm.lift (validateRealmSchema schema) ;;;
   normalizedSchema <- Realm.lift (normalizeRealmSchema schema) ;;
   let bindingSchema := toBindingSchema normalizedSchema in
   this <- get ;;
   if negb (Realm.isInTransaction this)
   then throw (Error "Can only create object schema within a transaction.")
   else
     Realm.engine
       (CallUpdateSchema bindingSchema
          (binding.schemaVersion (Realm.internal this) + 1))
       (binding.updateSchema bindingSchema
          (binding.schemaVersion (Realm.internal this) + 1)) ;;;
     (fun this =>
        (Normal tt,
         {| Realm.internal := Realm.internal this;
            Realm.classes :=
              ClassMap_of (Realm.internal this) (Realm.schemaExtras this);
            Realm.schemaExtras := Realm.schemaExtras this;
            Realm.engineCalls := Realm.engineCalls this |})))%js.

End Instance.

End RealmMore.

(** ** The app provider of the React bindings *)

Module AppProvider.

(** [Realm.App.Sync.NumericLogLevel]: the members the logger names, and
    any other value of the enumeration. *)
Inductive NumericLogLevel : Type :=
| Fatal | Error_ | Warn | Info | Detail | Debug | Trace
| OtherLevel (n : Z).

Definition getLogLevelString (level : NumericLogLevel) : string :=
  match level with
  | Fatal => "fatal"
  | Error_ => "error"
  | Warn => "warn"
  | Info => "info"
  | Detail => "detail"
  | Debug => "debug"
  | Trace => "trace"
  | OtherLevel _ => ""
  end.

(** [c.toUpperCase()] for a character of the ASCII range. *)
Definition upperAscii (c : Ascii.ascii) : Ascii.ascii :=
  let n := Ascii.nat_of_ascii c in
  if ((97 <=? n) && (n <=? 122))%nat then Ascii.ascii_of_nat (n - 32) else c.

(** [s.toUpperCase()], exact on ASCII strings (all that
    [getLogLevelString] returns). *)
Fixpoint toUpperCase (s : string) : string :=
  match s with
  | EmptyString => EmptyString
  | String c rest => String (upperAscii c) (toUpperCase rest)
  end.

(** The call on [console] that the logger makes. *)
Inductive ConsoleCall : Type :=
| ConsoleError (line : string)
| ConsoleWarn (line : string)
| ConsoleLog (line : string).

Definition defaultLogger (level : NumericLogLevel) (message : string)
  : ConsoleCall :=
  let logLevelString := getLogLevelString level in
  let logLevel := toUpperCase logLevelString in
  let logMessage := "[" ++ logLevel ++ "] " ++ message in
  match level with
  | Error_ | Fatal => ConsoleError logMessage
  | Warn => ConsoleWarn logMessage
  | _ => ConsoleLog logMessage
  end.

(** [DEFAULT_LOG_LEVEL] *)
Definition DEFAULT_LOG_LEVEL : string := "warn".

(** What the layout effect of [AppProvider] does, for a logger type [L]. *)
Inductive EffectCall (L : Type) : Type :=
| SetRefCurrent
| SetLogger (logger : L)
| SetLogLevel (level : string).
Arguments SetRefCurrent {L}.
Arguments SetLogger {L} logger.
Arguments SetLogLevel {L} level.

(** The body of the layout effect.  [appRef] tells whether the prop was
    given; [logger] is the prop, [theDefault] when it was not given; an
    absent or empty [logLevel] is falsy. *)
Definition layoutEffect {L : Type} (theDefault : L) (appRef : bool)
    (logLevel : option string) (logger : option L) : list (EffectCall L) :=
  let logger := match logger with Some l => l | None => theDefault end in
  if appRef then
    SetRefCurrent ::
    match logLevel with
    | Some level =>
        if (String.length level =? 0)%nat
        then [SetLogger theDefault; SetLogLevel DEFAULT_LOG_LEVEL]
        else [SetLogger logger; SetLogLevel level]
    | None => [SetLogger theDefault; SetLogLevel DEFAULT_LOG_LEVEL]
    end
  else [].

End AppProvider.

(** ** Auxiliary definitions of the statements, continued *)

(** The suffixes of the files the sweep of [clearTestState] removes. *)
Definition realmFileSuffixes : list string :=
  [".realm"; ".realm.note"; ".realm.lock"; ".realm.log"].

(** The calls the sweep makes for one entry of the listing. *)
Definition sweepCalls (fs : FileSystem) (dir : string) (dirent : Dirent)
  : list FsCall :=
  let path := joinPaths fs dir (dirent_name dirent) in
  if dirent_isDirectory dirent
     && endsWith (dirent_name dirent) ".realm.management"
  then [CallRemoveDirectory path]
  else if existsb (endsWith (dirent_name dirent)) realmFileSuffixes
       then [CallRemoveFile path]
       else [].

(** The calls that remove a database by path. *)
Definition deleteFileCalls (path : string) : list FsCall :=
  [CallRemoveFile path; CallRemoveFile (path ++ ".lock");
   CallRemoveFile (path ++ ".note");
   CallRemoveDirectory (path ++ ".management")].

(** The operation of the file system behind a call, its answer left
    aside. *)
Definition perform {F : Type} (fsx : FileSystemEffects F) (c : FsCall)
  : M F unit :=
  match c with
  | CallExists path => (fs_exists fsx path ;;; ret tt)%js
  | CallReadDirectory path => (fs_readDirectory fsx path ;;; ret tt)%js
  | CallRemoveFile path => fs_removeFile fsx path
  | CallRemoveDirectory path => fs_removeDirectory fsx path
  end.

(** A key that is neither an array index nor [__proto__]: assigned for
    the first time, it becomes the last key of the object. *)
Definition plainKey (key : string) : bool :=
  negb (String.eqb key "__proto__")
  && match arrayIndex key with Some _ => false | None => true end.

(** The properties a template receives, in the order of the properties
    of the schema. *)
Definition templateEntries
    (properties : list (string * CanonicalPropertySchema)) : JsObject :=
  flat_map
    (fun entry =>
       match templateValue (snd entry) with
       | Some v => [(fst entry, v)]
       | None => []
       end)
    properties.

(** The rows that are in none of the tables of a schema. *)
Definition outsideSchema (schema : list BindingObjectSchema)
    (rows : list binding.Obj) : list binding.Obj :=
  List.filter
    (fun o =>
       negb (existsb (fun objectSchema =>
                        binding.obj_table o =? bos_tableKey objectSchema)
               schema))
    rows.

(** The rows that are not among the given ones. *)
Definition withoutRows (removed rows : list binding.Obj) : list binding.Obj :=
  List.filter (fun o => negb (existsb (binding.Obj_eqb o) removed)) rows.

(** A typed object that [delete] can remove: it has a backing row, its
    class resolves, and the table of the class is the table of the row. *)
Definition removable (this : Realm.t) (object : RealmObject)
    (obj : binding.Obj) : Prop :=
  ro_INTERNAL object = Some obj
  /\ exists helpers,
       getHelpers (Realm.classes this) (ClassInstance object) = Normal helpers
       /\ bos_tableKey (objectSchema helpers) = binding.obj_table obj.

(** Two states of an instance that differ at most in the rows and in the
    record of calls: the class map, the schema extras, the open and
    transaction flags, the schema, its version and what is persisted are
    the same. *)
Definition rowsOnly (this final : Realm.t) : Prop :=
  Realm.classes final = Realm.classes this
  /\ Realm.schemaExtras final = Realm.schemaExtras this
  /\ binding.isClosed (Realm.internal final)
     = binding.isClosed (Realm.internal this)
  /\ binding.isInTransaction (Realm.internal final)
     = binding.isInTransaction (Realm.internal this)
  /\ binding.schema (Realm.internal final)
     = binding.schema (Realm.internal this)
  /\ binding.schemaVersion (Realm.internal final)
     = binding.schemaVersion (Realm.internal this)
  /\ binding.persisted (Realm.internal final)
     = binding.persisted (Realm.internal this).

(** ** A reference platform, for evaluating the definitions *)

Module Reference.

(** A POSIX-like file system: absolute paths start with a slash. *)
Definition fs : FileSystem :=
  {| isAbsolutePath := fun p => String.prefix "/" p;
     joinPaths := fun a b => a ++ "/" ++ b;
     getDefaultDirectoryPath := "/data" |}.

Definition defaultPath : string := "/data/default.realm".

Definition toBindingSchema (schemas : list CanonicalObjectSchema)
  : list BindingObjectSchema :=
  map (fun s => {| bos_name := cos_name s; bos_tableKey := 0;
                   bos_primaryKey := cos_primaryKey s |}) schemas.

Definition dogSchema : ObjectSchema :=
  {| os_name := "Dog"; os_primaryKey := None;
     os_properties :=
       [("name", PropertyShorthand "string");
        ("age", PropertyObject "int" None None (VNumber (Int 3)));
        ("nick", PropertyShorthand "string?");
        ("toys", PropertyShorthand "string[]")] |}.

Definition dogCanonical : CanonicalObjectSchema :=
  {| cos_name := "Dog"; cos_primaryKey := None;
     cos_properties :=
       [("name", {| prop_name := "name"; prop_type := "string";
                    prop_optional := false; prop_default := VUndefined |});
        ("age", {| prop_name := "age"; prop_type := "int";
                   prop_optional := false; prop_default := VNumber (Int 3) |});
        ("nick", {| prop_name := "nick"; prop_type := "string";
                    prop_optional := true; prop_default := VUndefined |});
        ("toys", {| prop_name := "toys"; prop_type := "list";
                    prop_optional := false; prop_default := VUndefined |})] |}.

(** A configuration with both exclusive flags set. *)
Definition exclusiveConfig : Configuration.t :=
  {| Configuration.path := Some "a.realm";
     Configuration.schema := None;
     Configuration.schemaVersion := VUndefined;
     Configuration.inMemory := None;
     Configuration.readOnly := Some true;
     Configuration.deleteRealmIfMigrationNeeded := Some true;
     Configuration.fifoFilesFallbackPath := None;
     Configuration.shouldCompactOnLaunch := None;
     Configuration.disableFormatUpgrade := None;
     Configuration.sync := false |}.

(** A configuration with a schema and a numeric schema version. *)
Definition versionedConfig : Configuration.t :=
  {| Configuration.path := Some "a.realm";
     Configuration.schema := Some [dogSchema];
     Configuration.schemaVersion := VNumber (Int 7);
     Configuration.inMemory := None;
     Configuration.readOnly := None;
     Configuration.deleteRealmIfMigrationNeeded := None;
     Configuration.fifoFilesFallbackPath := None;
     Configuration.shouldCompactOnLaunch := None;
     Configuration.disableFormatUpgrade := None;
     Configuration.sync := false |}.

(** A handle with two classes and three rows. *)
Definition dogTable : BindingObjectSchema :=
  {| bos_name := "Dog"; bos_tableKey := 1; bos_primaryKey := Some "name" |}.

Definition catTable : BindingObjectSchema :=
  {| bos_name := "Cat"; bos_tableKey := 2; bos_primaryKey := None |}.

Definition row (table key : Z) : binding.Obj :=
  {| binding.obj_table := table; binding.obj_key := key |}.

Definition snapshot : binding.Snapshot :=
  {| binding.snap_schema := [dogTable; catTable];
     binding.snap_schemaVersion := 3;
     binding.snap_rows := [row 1 10; row 1 11; row 2 20] |}.

Definition handle (inTransaction : bool) : binding.Realm :=
  {| binding.isClosed := false;
     binding.isInTransaction := inTransaction;
     binding.schema := [dogTable; catTable];
     binding.schemaVersion := 3;
     binding.rows := [row 1 10; row 1 11; row 2 20];
     binding.persisted := snapshot |}.

Definition helpersOf (objectSchema : BindingObjectSchema) : ClassHelpers :=
  {| objectSchema := objectSchema;
     toBinding := fun _ value => Normal value;
     wrapObject := fun obj =>
       {| ro_class := bos_name objectSchema; ro_INTERNAL := Some obj |} |}.

Definition classNameOf (arg : ClassIdentifier) : string :=
  match arg with
  | ClassName name => name
  | ClassConstructor name => name
  | ClassInstance object => ro_class object
  end.

Definition classMap : ClassMap :=
  {| getHelpers := fun arg =>
       if String.eqb (classNameOf arg) "Dog" then Normal (helpersOf dogTable)
       else if String.eqb (classNameOf arg) "Cat"
            then Normal (helpersOf catTable)
            else Throw (Error "Object type not found in schema.") |}.

Definition realm (inTransaction : bool) : Realm.t :=
  {| Realm.internal := handle inTransaction;
     Realm.classes := classMap;
     Realm.schemaExtras := [];
     Realm.engineCalls := [] |}.

(** A typed object over a live row, and one whose row is gone. *)
Definition liveDog : RealmObject :=
  {| ro_class := "Dog"; ro_INTERNAL := Some (row 1 10) |}.

Definition staleDog : RealmObject :=
  {| ro_class := "Dog"; ro_INTERNAL := Some (row 1 99) |}.

(** A typed object that was never attached to a handle. *)
Definition detachedDog : RealmObject :=
  {| ro_class := "Dog"; ro_INTERNAL := None |}.

(** A callback that removes a row and then fails, and one that removes a
    row and returns. *)
Definition failingCallback : M Realm.t Z :=
  (Realm.delete (IsObject (SubjectObject liveDog)) ;;;
   throw (Error "callback failed"))%js.

Definition returningCallback : M Realm.t Z :=
  (Realm.delete (IsObject (SubjectObject liveDog)) ;;; ret 42)%js.

(** A callback that ends the transaction itself before failing. *)
Definition cancellingCallback : M Realm.t Z :=
  (Realm.cancelTransaction ;;; throw (Error "callback failed"))%js.

(** An engine whose primary-key index knows one dog, and an object
    creation that wraps a fixed row. *)
Definition findPrimaryKey (table : Z) (value : JsValue)
  : M binding.Realm JsValue :=
  binding.whenOpen
    (ret (if JsValue_eqb value (VString "Rex") then VBigInt 10
          else VBigInt (-1))).

Definition getObject (table objKey : Z) : M binding.Realm binding.Obj :=
  binding.whenOpen (fun r =>
    if binding.isValid r (row table objKey)
    then (Normal (row table objKey), r)
    else (Throw (Error "No object with key"), r)).

Definition RealmObject_create (values : CreateValues) (mode : string)
    (helpers : ClassHelpers) : M Realm.t RealmObject :=
  ret (wrapObject helpers (row (bos_tableKey (objectSchema helpers)) 12)).

Definition toString (v : JsValue) : string :=
  match v with
  | VString s => s
  | _ => "[object]"
  end.

End Reference.

(** ** More of the reference platform *)

Module ReferenceMore.

(** A listing of the default directory. *)
Definition listing : list Dirent :=
  [{| dirent_name := "a.realm"; dirent_isDirectory := false |};
   {| dirent_name := "a.realm.lock"; dirent_isDirectory := false |};
   {| dirent_name := "a.realm.management"; dirent_isDirectory := true |};
   {| dirent_name := "notes.txt"; dirent_isDirectory := false |};
   {| dirent_name := "b.realm"; dirent_isDirectory := true |}].

(** A file system that answers with [listing] and lets every removal
    succeed. *)
Definition fsx : FileSystemEffects unit :=
  {| fs_exists := fun _ => ret true;
     fs_readDirectory := fun _ => ret listing;
     fs_removeFile := fun _ => ret tt;
     fs_removeDirectory := fun _ => ret tt |}.

(** A file system on which nothing can be removed. *)
Definition readOnlyFsx : FileSystemEffects unit :=
  {| fs_exists := fun _ => ret true;
     fs_readDirectory := fun _ => ret listing;
     fs_removeFile := fun _ => throw (Error "EACCES");
     fs_removeDirectory := fun _ => throw (Error "EACCES") |}.

(** A file system on which the lock files cannot be removed. *)
Definition busyFsx : FileSystemEffects unit :=
  {| fs_exists := fun _ => ret true;
     fs_readDirectory := fun _ => ret listing;
     fs_removeFile := fun path =>
       if endsWith path ".lock" then throw (Error "EBUSY") else ret tt;
     fs_removeDirectory := fun _ => ret tt |}.

(** The properties of the dog in the opposite order. *)
Definition dogReversed : CanonicalObjectSchema :=
  {| cos_name := "Dog"; cos_primaryKey := None;
     cos_properties := rev (cos_properties Reference.dogCanonical) |}.

(** A callback that commits the transaction itself before returning. *)
Definition committingCallback : M Realm.t Z :=
  (Realm.commitTransaction ;;; ret 42)%js.

Definition closedHandle : binding.Realm :=
  snd (binding.close (Reference.handle false)).

(** Three handles, the last one closed already; two weak references to
    the first, one whose handle has been collected, one to the last. *)
Definition process : Process unit :=
  {| heap := [Reference.handle true; Reference.handle false; closedHandle];
     RETURNED_REALMS := [Some 0%nat; None; Some 0%nat; Some 2%nat];
     files := tt;
     fsCalls := [] |}.

Definition classMapOf (internal : binding.Realm) (extras : RealmSchemaExtra)
  : ClassMap :=
  {| getHelpers := fun arg =>
       match
         List.find
           (fun objectSchema =>
              String.eqb (bos_name objectSchema) (Reference.classNameOf arg))
           (binding.schema internal)
       with
       | Some objectSchema => Normal (Reference.helpersOf objectSchema)
       | None => Throw (Error "Object type not found in schema.")
       end |}.

Definition birdTable : BindingObjectSchema :=
  {| bos_name := "Bird"; bos_tableKey := 5; bos_primaryKey := None |}.

Definition liveCat : RealmObject :=
  {| ro_class := "Cat"; ro_INTERNAL := Some (Reference.row 2 20) |}.

End ReferenceMore.

(** * Properties *)

(** ** Paths *)

Lemma length_zero_iff_empty (s : string) :
  (String.length s =? 0)%nat = true <-> s = "".
Proof.
  destruct s; simpl; split; intros H; try reflexivity; discriminate.
Qed.

Lemma normalizePath_nonempty fs dp (p : string) :
  p <> "" ->
  Realm.normalizePath fs dp (Some p) =
  Normal (if isAbsolutePath fs p then p
          else joinPaths fs (getDefaultDirectoryPath fs) p).
Proof.
  intros Hp. unfold Realm.normalizePath.
  destruct (String.length p =? 0)%nat eqn:E.
  - apply length_zero_iff_empty in E. contradiction.
  - destruct (isAbsolutePath fs p); reflexivity.
Qed.

(** C2. [determinePath] returns an absolute non-empty [config.path]
    unchanged, joins a relative non-empty one with the default directory,
    returns the default file name joined with the default directory when
    the path is absent (the static [defaultPath], as its initializer
    computes it on a platform where the bare file name is relative), and
    raises on the empty string. *)
Theorem determinePath_cases (fs : FileSystem) (config : Configuration.t) :
  (forall dp p, Configuration.path config = Some p -> p <> "" ->
     isAbsolutePath fs p = true ->
     Realm.determinePath fs dp config = Normal p)
  /\ (forall dp p, Configuration.path config = Some p -> p <> "" ->
        isAbsolutePath fs p = false ->
        Realm.determinePath fs dp config =
        Normal (joinPaths fs (getDefaultDirectoryPath fs) p))
  /\ (Configuration.path config = None ->
      isAbsolutePath fs "default.realm" = false ->
      exists dp, Realm.defaultPath_initializer fs = Normal dp
        /\ Realm.determinePath fs dp config =
           Normal (joinPaths fs (getDefaultDirectoryPath fs) "default.realm"))
  /\ (forall dp, Configuration.path config = Some "" ->
        Realm.determinePath fs dp config =
        Throw (Error "Unexpected empty path")).
Proof.
  unfold Realm.determinePath. repeat split.
  - intros dp p -> Hp Habs. rewrite normalizePath_nonempty by assumption.
    now rewrite Habs.
  - intros dp p -> Hp Hrel. rewrite normalizePath_nonempty by assumption.
    now rewrite Hrel.
  - intros -> Hrel. eexists. split.
    + unfold Realm.defaultPath_initializer.
      rewrite normalizePath_nonempty by discriminate.
      rewrite Hrel. reflexivity.
    + reflexivity.
  - intros dp ->. reflexivity.
Qed.

Lemma determinePath_cases_witness :
  Realm.determinePath Reference.fs Reference.defaultPath
    (Configuration.of_path "/tmp/a.realm") = Normal "/tmp/a.realm"
  /\ Realm.determinePath Reference.fs Reference.defaultPath
       (Configuration.of_path "a.realm") = Normal "/data/a.realm"
  /\ (exists dp, Realm.defaultPath_initializer Reference.fs = Normal dp
        /\ Realm.determinePath Reference.fs dp Configuration.empty =
           Normal "/data/default.realm")
  /\ Realm.determinePath Reference.fs Reference.defaultPath
       (Configuration.of_path "") = Throw (Error "Unexpected empty path").
Proof.
  split; [|split; [|split]].
  - apply (proj1 (determinePath_cases Reference.fs
                    (Configuration.of_path "/tmp/a.realm")));
      [reflexivity | discriminate | reflexivity].
  - apply (proj1 (proj2 (determinePath_cases Reference.fs
                           (Configuration.of_path "a.realm"))));
      [reflexivity | discriminate | reflexivity].
  - apply (proj1 (proj2 (proj2 (determinePath_cases Reference.fs
                                  Configuration.empty))));
      reflexivity.
  - apply (proj2 (proj2 (proj2 (determinePath_cases Reference.fs
                                  (Configuration.of_path ""))))).
    reflexivity.
Defined.

(** ** The schema version of a file *)

Lemma Number_of_BigInt_small (n : Z) :
  Z.abs n < 2 ^ 53 -> Number_of_BigInt n = n.
Proof.
  intros H. unfold Number_of_BigInt.
  destruct (Z.ltb_spec (Z.abs n) (2 ^ 53)); [reflexivity | lia].
Qed.

Lemma Number_of_BigInt_nonneg (n : Z) : 0 <= n -> 0 <= Number_of_BigInt n.
Proof.
  intros Hn. unfold Number_of_BigInt.
  destruct (Z.ltb_spec (Z.abs n) (2 ^ 53)) as [|Hbig]; [assumption|].
  rewrite Z.abs_eq in * by assumption.
  assert (Hq : 0 <= Z.shiftr n (Z.log2 n - 52))
    by (apply Z.shiftr_nonneg; assumption).
  apply Z.mul_nonneg_nonneg; [destruct n; simpl; lia|].
  apply Z.shiftl_nonneg.
  repeat match goal with |- context [if ?b then _ else _] => destruct b end;
    lia.
Qed.

(** C8. For every path that resolves (every non-empty path does, see
    [normalizePath_nonempty]), the static [schemaVersion] asks the engine
    about the resolved path; whatever unsigned 64-bit version the engine
    reports, the result is [-1] exactly when that version is the
    unversioned sentinel [2^64 - 1], and is the reported version
    converted to a number otherwise. *)
Theorem schemaVersion_sentinel (fs : FileSystem) (dp : string)
    (getSchemaVersion : string -> Completion Z)
    (path absolutePath : string) (v : Z) :
  Realm.determinePath fs dp (Configuration.of_path path) = Normal absolutePath ->
  getSchemaVersion absolutePath = Normal v ->
  0 <= v < 2 ^ 64 ->
  exists r,
    Realm.schemaVersion fs dp getSchemaVersion path None
    = Normal (VNumber (Int r))
    /\ (r = -1 <-> v = 2 ^ 64 - 1)
    /\ (v <> 2 ^ 64 - 1 -> r = Number_of_BigInt v).
Proof.
  intros Hpath Hv Hrange. unfold Realm.schemaVersion.
  rewrite Hpath. simpl cbind. rewrite Hv. simpl cbind.
  change NOT_VERSIONED with (2 ^ 64 - 1).
  destruct (Z.eqb_spec v (2 ^ 64 - 1)) as [->|Hne].
  - exists (-1). repeat split; intros; congruence.
  - exists (Number_of_BigInt v). split; [reflexivity|]. split.
    + split; [|contradiction].
      pose proof (Number_of_BigInt_nonneg v (proj1 Hrange)). lia.
    + reflexivity.
Qed.

Lemma schemaVersion_sentinel_witness :
  exists r,
    Realm.schemaVersion Reference.fs Reference.defaultPath
      (fun _ => Normal 18446744073709551615) "a.realm" None
    = Normal (VNumber (Int r))
    /\ (r = -1 <-> 18446744073709551615 = 2 ^ 64 - 1)
    /\ (18446744073709551615 <> 2 ^ 64 - 1 ->
        r = Number_of_BigInt 18446744073709551615).
Proof.
  apply (schemaVersion_sentinel Reference.fs Reference.defaultPath
           (fun _ => Normal 18446744073709551615) "a.realm" "/data/a.realm"
           18446744073709551615).
  - reflexivity.
  - reflexivity.
  - lia.
Defined.

Example schemaVersion_unversioned :
  Realm.schemaVersion Reference.fs Reference.defaultPath
    (fun _ => Normal 18446744073709551615) "a.realm" None
  = Normal (VNumber (Int (-1))).
Proof. reflexivity. Qed.

Example schemaVersion_versioned :
  Realm.schemaVersion Reference.fs Reference.defaultPath
    (fun _ => Normal 12) "a.realm" None
  = Normal (VNumber (Int 12)).
Proof. reflexivity. Qed.

Example schemaVersion_rounds :
  Realm.schemaVersion Reference.fs Reference.defaultPath
    (fun _ => Normal (2 ^ 53 + 1)) "a.realm" None
  = Normal (VNumber (Int (2 ^ 53))).
Proof. reflexivity. Qed.

(** ** Engine open parameters *)

Lemma determinePath_total fs dp (config : Configuration.t) :
  Configuration.path config <> Some "" ->
  exists path, Realm.determinePath fs dp config = Normal path.
Proof.
  intros Hp. unfold Realm.determinePath.
  destruct (Configuration.path config) as [p|].
  - rewrite normalizePath_nonempty by congruence. eauto.
  - simpl. eauto.
Qed.

Lemma determineSchemaMode_exclusive fs dp (config : Configuration.t) :
  truthy (Configuration.readOnly config) = true ->
  truthy (Configuration.deleteRealmIfMigrationNeeded config) = true ->
  Realm.determineSchemaMode config =
  Throw (AssertionError
           "Cannot set 'deleteRealmIfMigrationNeeded' when 'readOnly' is set.")
  /\ forall toBindingSchema normalizedSchema,
       exists e,
         Realm.transformConfig fs dp toBindingSchema config normalizedSchema
         = Throw e.
Proof.
  intros Hr Hd.
  assert (Hmode : Realm.determineSchemaMode config =
    Throw (AssertionError
             "Cannot set 'deleteRealmIfMigrationNeeded' when 'readOnly' is set.")).
  { unfold Realm.determineSchemaMode. now rewrite Hr, Hd. }
  split; [exact Hmode|].
  intros tbs ns. unfold Realm.transformConfig.
  destruct (Realm.determinePath fs dp config); simpl cbind.
  - rewrite Hmode. simpl. eauto.
  - eauto.
Qed.

Lemma determineSchemaMode_total (config : Configuration.t) :
  truthy (Configuration.readOnly config)
  && truthy (Configuration.deleteRealmIfMigrationNeeded config) = false ->
  Realm.determineSchemaMode config =
  Normal (if truthy (Configuration.readOnly config) then Some Immutable
          else if truthy (Configuration.deleteRealmIfMigrationNeeded config)
               then Some ResetFile else None).
Proof.
  unfold Realm.determineSchemaMode.
  destruct (truthy (Configuration.readOnly config)),
    (truthy (Configuration.deleteRealmIfMigrationNeeded config));
    simpl; intros H; try discriminate; reflexivity.
Qed.

(** C10. For a configuration that resolves (its path is not the empty
    string and the two exclusive flags are not both set), the engine open
    parameters carry schema version [0] when a schema is supplied without
    a numeric [schemaVersion], the supplied version as an integer when
    both are supplied (the version is an integer, as the configuration's
    data model has it), and no schema version when no schema is supplied,
    whatever [schemaVersion] the configuration holds. *)
Theorem transformConfig_schemaVersion (fs : FileSystem) (dp : string)
    (toBindingSchema : list CanonicalObjectSchema -> list BindingObjectSchema)
    (config : Configuration.t)
    (normalizedSchema : option (list CanonicalObjectSchema)) :
  Configuration.path config <> Some "" ->
  truthy (Configuration.readOnly config)
  && truthy (Configuration.deleteRealmIfMigrationNeeded config) = false ->
  (forall schema, Configuration.schema config = Some schema ->
     (forall x, Configuration.schemaVersion config <> VNumber x) ->
     exists params,
       Realm.transformConfig fs dp toBindingSchema config normalizedSchema
       = Normal params
       /\ RealmConfig.schemaVersion params = Some 0)
  /\ (forall schema n, Configuration.schema config = Some schema ->
        Configuration.schemaVersion config = VNumber (Int n) ->
        exists params,
          Realm.transformConfig fs dp toBindingSchema config normalizedSchema
          = Normal params
          /\ RealmConfig.schemaVersion params = Some n)
  /\ (Configuration.schema config = None ->
      exists params,
        Realm.transformConfig fs dp toBindingSchema config normalizedSchema
        = Normal params
        /\ RealmConfig.schemaVersion params = None).
Proof.
  intros Hp Hflags.
  destruct (determinePath_total fs dp config Hp) as [path Hpath].
  unfold Realm.transformConfig. rewrite Hpath. simpl cbind.
  rewrite (determineSchemaMode_total config Hflags). simpl cbind.
  split; [|split].
  - intros schema -> Hn.
    destruct (Configuration.schemaVersion config) as [| | |x| | | |];
      try (eexists; split; reflexivity).
    now destruct (Hn x).
  - intros schema n -> ->. eexists. split; reflexivity.
  - intros ->. eexists. split; reflexivity.
Qed.

Lemma transformConfig_schemaVersion_witness :
  exists params,
    Realm.transformConfig Reference.fs Reference.defaultPath
      Reference.toBindingSchema Reference.versionedConfig
      (Some [Reference.dogCanonical])
    = Normal params
    /\ RealmConfig.schemaVersion params = Some 7.
Proof.
  apply (proj1 (proj2 (transformConfig_schemaVersion Reference.fs
                         Reference.defaultPath Reference.toBindingSchema
                         Reference.versionedConfig
                         (Some [Reference.dogCanonical])
                         ltac:(discriminate) eq_refl))
           [Reference.dogSchema] 7 eq_refl eq_refl).
Defined.

Example transformConfig_string_version :
  RealmConfig.schemaVersion
    <$> (match Realm.transformConfig Reference.fs Reference.defaultPath
                 Reference.toBindingSchema
                 {| Configuration.path := None;
                    Configuration.schema := Some [];
                    Configuration.schemaVersion := VString "3";
                    Configuration.inMemory := None;
                    Configuration.readOnly := None;
                    Configuration.deleteRealmIfMigrationNeeded := None;
                    Configuration.fifoFilesFallbackPath := None;
                    Configuration.shouldCompactOnLaunch := None;
                    Configuration.disableFormatUpgrade := None;
                    Configuration.sync := false |} (Some []) with
         | Normal params => Some params
         | Throw _ => None
         end)
  = Some (Some 0).
Proof. reflexivity. Qed.

(** A numeric version that is not an integer does not resolve:
    [BigInt] refuses it. *)
Example transformConfig_fractional_version :
  Realm.transformConfig Reference.fs Reference.defaultPath
    Reference.toBindingSchema
    {| Configuration.path := None;
       Configuration.schema := Some [];
       Configuration.schemaVersion := VNumber NonInteger;
       Configuration.inMemory := None;
       Configuration.readOnly := None;
       Configuration.deleteRealmIfMigrationNeeded := None;
       Configuration.fifoFilesFallbackPath := None;
       Configuration.shouldCompactOnLaunch := None;
       Configuration.disableFormatUpgrade := None;
       Configuration.sync := false |} (Some [])
  = Throw (RangeError
             "The number cannot be converted to a BigInt because it is not an integer").
Proof. reflexivity. Qed.

(** ** Mutually exclusive flags *)

(** C7. A configuration with [readOnly] and
    [deleteRealmIfMigrationNeeded] both set fails [validateConfiguration]
    (as section 4.1 describes it), and, whatever the validator does, it
    never reaches the storage engine: [new Realm(config)] and
    [writeCopyTo(config)] raise without a call into the engine, because
    [determineSchemaMode] asserts the exclusion while the open parameters
    are computed. *)
Theorem exclusive_flags_rejected (config : Configuration.t) :
  truthy (Configuration.readOnly config) = true ->
  truthy (Configuration.deleteRealmIfMigrationNeeded config) = true ->
  (forall validateRealmSchema,
     exists e, validateConfiguration_spec validateRealmSchema config = Throw e)
  /\ (forall fs dp validateConfiguration normalizeRealmSchema toBindingSchema
        ClassMap_new getSharedRealm calls,
        exists e,
          Realm.constructor fs dp validateConfiguration normalizeRealmSchema
            toBindingSchema ClassMap_new getSharedRealm config calls
          = (Throw e, calls))
  /\ (forall fs dp validateConfiguration normalizeRealmSchema toBindingSchema
        convert this,
        exists e,
          Realm.writeCopyTo fs dp validateConfiguration normalizeRealmSchema
            toBindingSchema convert config this
          = (Throw e, this)).
Proof.
  intros Hr Hd. split; [|split].
  - intros v. unfold validateConfiguration_spec. rewrite Hr, Hd. simpl. eauto.
  - intros fs dp validate normalize tbs cmn gsr calls.
    unfold Realm.constructor, bind, Realm.lift.
    destruct (validate config); [|eauto].
    destruct (Realm.normalizeOptional normalize (Configuration.schema config))
      as [ns|]; [|eauto].
    destruct (proj2 (determineSchemaMode_exclusive fs dp config Hr Hd) tbs ns)
      as [e He].
    rewrite He. eauto.
  - intros fs dp validate normalize tbs convert this.
    unfold Realm.writeCopyTo, bind, Realm.lift, Realm.assert_outTransaction,
      bind, get, assert.
    destruct (negb (Realm.isInTransaction this)); simpl; [|eauto].
    destruct (validate config); [|eauto].
    destruct (Realm.normalizeOptional normalize (Configuration.schema config))
      as [ns|]; [|eauto].
    destruct (proj2 (determineSchemaMode_exclusive fs dp config Hr Hd) tbs ns)
      as [e He].
    rewrite He. eauto.
Qed.

Lemma exclusive_flags_rejected_witness :
  (exists e, validateConfiguration_spec (fun _ => Normal tt)
               Reference.exclusiveConfig = Throw e)
  /\ (exists e,
        Realm.constructor Reference.fs Reference.defaultPath
          (fun _ => Normal tt) (fun _ => Normal [])
          Reference.toBindingSchema
          (fun _ => {| getHelpers := fun _ => Throw (Error "no class") |})
          (fun _ => Throw (Error "engine reached"))
          Reference.exclusiveConfig []
        = (Throw e, [])).
Proof.
  destruct (exclusive_flags_rejected Reference.exclusiveConfig)
    as [Hv [Hc _]]; [reflexivity | reflexivity |].
  split.
  - apply Hv.
  - apply Hc.
Defined.

(** ** Template objects *)


Lemma templateStep_other (result : gmap string JsValue) key key' property :
  key <> key' ->
  Realm.templateStep result (key', property) !! key = result !! key.
Proof.
  intros Hne. unfold Realm.templateStep.
  destruct (prop_default property);
    try (rewrite lookup_insert_ne by congruence; reflexivity).
  destruct (prop_optional property); [reflexivity|].
  destruct (Realm.typeDefault (prop_type property)); [|reflexivity].
  rewrite lookup_insert_ne by congruence. reflexivity.
Qed.

Lemma templateStep_same (result : gmap string JsValue) key property :
  result !! key = None ->
  Realm.templateStep result (key, property) !! key = templateValue property.
Proof.
  intros Hfresh. unfold Realm.templateStep, templateValue.
  destruct (prop_default property);
    try (rewrite lookup_insert_eq; reflexivity).
  destruct (prop_optional property); [assumption|].
  destruct (Realm.typeDefault (prop_type property)); [|assumption].
  rewrite lookup_insert_eq. reflexivity.
Qed.

Lemma template_fold_absent (entries : list (string * CanonicalPropertySchema)) :
  forall (result : gmap string JsValue) key,
    ~ In key (map fst entries) ->
    fold_left Realm.templateStep entries result !! key = result !! key.
Proof.
  induction entries as [|[key' property] entries IH]; intros result key Hnot.
  - reflexivity.
  - cbn [fold_left map fst In] in *. rewrite IH by tauto.
    apply templateStep_other.
    intros ->. tauto.
Qed.

Lemma template_fold_present (entries : list (string * CanonicalPropertySchema)) :
  forall (result : gmap string JsValue) key property,
    List.NoDup (map fst entries) ->
    In (key, property) entries ->
    result !! key = None ->
    fold_left Realm.templateStep entries result !! key
    = templateValue property.
Proof.
  induction entries as [|[key' property'] entries IH];
    intros result key property Hnodup Hin Hfresh.
  - destruct Hin.
  - cbn [fold_left map fst In] in *.
    inversion Hnodup as [|? ? Hnotin Hnodup']; subst.
    destruct Hin as [Heq|Hin].
    + inversion Heq; subst.
      rewrite template_fold_absent by assumption.
      apply templateStep_same, Hfresh.
    + assert (Hne : key <> key').
      { intros ->. apply Hnotin. apply (in_map fst) in Hin. exact Hin. }
      apply IH; try assumption.
      rewrite templateStep_other by assumption. exact Hfresh.
Qed.



(** ** Transactions *)

Section Write.

Context {T : Type}.
Variable callback : M Realm.t T.
Variable this : Realm.t.

Lemma beginTransaction_idle :
  Realm.isClosed this = false ->
  Realm.isInTransaction this = false ->
  Realm.beginTransaction this = (Normal tt, afterBegin this)
  /\ Realm.isClosed (afterBegin this) = false
  /\ Realm.isInTransaction (afterBegin this) = true
  /\ binding.persisted (Realm.internal (afterBegin this))
     = binding.persisted (Realm.internal this).
Proof.
  unfold afterBegin, Realm.beginTransaction, Realm.engine,
    binding.beginTransaction, binding.whenOpen, Realm.isClosed,
    Realm.isInTransaction.
  intros -> ->. simpl. repeat split.
Qed.

Lemma write_unfold :
  Realm.isClosed this = false ->
  Realm.isInTransaction this = false ->
  Realm.write callback this =
  match callback (afterBegin this) with
  | (Normal result, after) =>
      match Realm.commitTransaction after with
      | (Normal _, final) => (Normal result, final)
      | (Throw e, final) => (Throw e, final)
      end
  | (Throw err, after) =>
      match Realm.cancelTransaction after with
      | (Normal _, final) => (Throw err, final)
      | (Throw e, final) => (Throw e, final)
      end
  end.
Proof.
  intros Hopen Hidle.
  destruct (beginTransaction_idle Hopen Hidle) as [Hbegin _].
  unfold Realm.write, bind, try_catch, throw, ret.
  fold Realm.beginTransaction Realm.cancelTransaction Realm.commitTransaction.
  rewrite Hbegin.
  destruct (callback (afterBegin this)) as [[result|err] after].
  - destruct (Realm.commitTransaction after) as [[[]|e] final]; reflexivity.
  - destruct (Realm.cancelTransaction after) as [[[]|e] final]; reflexivity.
Qed.

End Write.

Lemma cancelTransaction_active (after : Realm.t) :
  Realm.isClosed after = false ->
  Realm.isInTransaction after = true ->
  exists final,
    Realm.cancelTransaction after = (Normal tt, final)
    /\ Realm.isClosed final = false
    /\ Realm.isInTransaction final = false
    /\ binding.persisted (Realm.internal final)
       = binding.persisted (Realm.internal after)
    /\ binding.current (Realm.internal final)
       = binding.persisted (Realm.internal after).
Proof.
  unfold Realm.cancelTransaction, Realm.engine, binding.cancelTransaction,
    binding.whenOpen, Realm.isClosed, Realm.isInTransaction.
  intros -> ->. eexists. split; [reflexivity|]. simpl.
  destruct (binding.persisted (Realm.internal after)). repeat split.
Qed.

Lemma commitTransaction_active (after : Realm.t) :
  Realm.isClosed after = false ->
  Realm.isInTransaction after = true ->
  exists final,
    Realm.commitTransaction after = (Normal tt, final)
    /\ Realm.isClosed final = false
    /\ Realm.isInTransaction final = false
    /\ binding.persisted (Realm.internal final)
       = binding.current (Realm.internal after)
    /\ binding.current (Realm.internal final)
       = binding.current (Realm.internal after).
Proof.
  unfold Realm.commitTransaction, Realm.engine, binding.commitTransaction,
    binding.whenOpen, Realm.isClosed, Realm.isInTransaction.
  intros -> ->. eexists. split; [reflexivity|]. simpl. repeat split.
Qed.

(** C1. On an idle handle, [write(callback)] first begins a transaction
    and runs the callback inside it.  For every callback that leaves the
    handle in that transaction: if it raises [E], the transaction is
    cancelled and [E] is raised again, the handle is idle and what is
    persisted is what was persisted before the cancel, with every pending
    write discarded; if it returns [v], the transaction is committed (the
    pending state becomes the persisted one), the handle is idle, and
    [write] returns [v]. *)
Theorem write_spec {T : Type} (callback : M Realm.t T) (this : Realm.t) :
  Realm.isClosed this = false ->
  Realm.isInTransaction this = false ->
  let began := afterBegin this in
  Realm.beginTransaction this = (Normal tt, began)
  /\ Realm.isInTransaction began = true
  /\ forall after,
       Realm.isClosed after = false ->
       Realm.isInTransaction after = true ->
       (forall E, callback began = (Throw E, after) ->
          exists final,
            Realm.write callback this = (Throw E, final)
            /\ Realm.isClosed final = false
            /\ Realm.isInTransaction final = false
            /\ binding.persisted (Realm.internal final)
               = binding.persisted (Realm.internal after)
            /\ binding.current (Realm.internal final)
               = binding.persisted (Realm.internal after))
       /\ (forall v, callback began = (Normal v, after) ->
             exists final,
               Realm.write callback this = (Normal v, final)
               /\ Realm.isClosed final = false
               /\ Realm.isInTransaction final = false
               /\ binding.persisted (Realm.internal final)
                  = binding.current (Realm.internal after)
               /\ binding.current (Realm.internal final)
                  = binding.current (Realm.internal after)).
Proof.
  intros Hopen Hidle began.
  destruct (beginTransaction_idle this Hopen Hidle) as [Hbegin [_ [Htx _]]].
  split; [exact Hbegin|]. split; [exact Htx|].
  intros after Hopen' Htx'. split.
  - intros E Hcb.
    destruct (cancelTransaction_active after Hopen' Htx')
      as [final [Hcancel Hfinal]].
    exists final. split; [|exact Hfinal].
    rewrite (write_unfold callback this Hopen Hidle).
    fold began. rewrite Hcb, Hcancel. reflexivity.
  - intros v Hcb.
    destruct (commitTransaction_active after Hopen' Htx')
      as [final [Hcommit Hfinal]].
    exists final. split; [|exact Hfinal].
    rewrite (write_unfold callback this Hopen Hidle).
    fold began. rewrite Hcb, Hcommit. reflexivity.
Qed.

Lemma write_spec_witness :
  (exists final,
     Realm.write Reference.failingCallback (Reference.realm false)
     = (Throw (Error "callback failed"), final)
     /\ Realm.isInTransaction final = false
     /\ binding.current (Realm.internal final) = Reference.snapshot
     /\ binding.persisted (Realm.internal final) = Reference.snapshot)
  /\ (exists final,
        Realm.write Reference.returningCallback (Reference.realm false)
        = (Normal 42, final)
        /\ Realm.isInTransaction final = false
        /\ binding.snap_rows (binding.persisted (Realm.internal final))
           = [Reference.row 1 11; Reference.row 2 20]).
Proof.
  split.
  - destruct (write_spec Reference.failingCallback (Reference.realm false)
                eq_refl eq_refl) as [_ [_ H]].
    destruct (H (snd (Reference.failingCallback
                        (afterBegin (Reference.realm false))))
                eq_refl eq_refl) as [Hthrow _].
    destruct (Hthrow (Error "callback failed") eq_refl)
      as [final [Hrun [_ [Hidle [Hpersisted Hcurrent]]]]].
    exists final. repeat split; assumption.
  - destruct (write_spec Reference.returningCallback (Reference.realm false)
                eq_refl eq_refl) as [_ [_ H]].
    destruct (H (snd (Reference.returningCallback
                        (afterBegin (Reference.realm false))))
                eq_refl eq_refl) as [_ Hreturn].
    destruct (Hreturn 42 eq_refl)
      as [final [Hrun [_ [Hidle [Hpersisted _]]]]].
    exists final. repeat split; try assumption.
    rewrite Hpersisted. reflexivity.
Defined.

(** Outside those hypotheses: on a handle that is already in
    a transaction the begin fails and the callback does not run; a
    callback that ends the transaction itself makes the cancel of [write]
    fail, and that failure is what [write] raises. *)
Example write_nested :
  Realm.write Reference.returningCallback (Reference.realm true)
  = (Throw (Error "The Realm is already in a write transaction"),
     {| Realm.internal := Reference.handle true;
        Realm.classes := Reference.classMap;
        Realm.schemaExtras := [];
        Realm.engineCalls := [CallBeginTransaction] |}).
Proof. reflexivity. Qed.

Example write_callback_ends_transaction :
  fst (Realm.write Reference.cancellingCallback (Reference.realm false))
  = Throw (Error "Cannot cancel: not in a write transaction").
Proof. reflexivity. Qed.

(** C1, as it is written for every callback.  On an idle handle, a
    callback that cancels the transaction itself and then raises [E]:
    [write] does not raise [E] again, it raises the failure of its own
    cancel.  A callback that commits the transaction itself and then
    returns [v]: [write] does not return [v], it raises the failure of
    its own commit. *)
Lemma write_loses_error :
  Realm.isClosed (Reference.realm false) = false
  /\ Realm.isInTransaction (Reference.realm false) = false
  /\ fst (Reference.cancellingCallback (afterBegin (Reference.realm false)))
     = Throw (Error "callback failed")
  /\ fst (Realm.write Reference.cancellingCallback (Reference.realm false))
     = Throw (Error "Cannot cancel: not in a write transaction")
  /\ fst (Realm.write Reference.cancellingCallback (Reference.realm false))
     <> Throw (Error "callback failed")
  /\ fst (ReferenceMore.committingCallback (afterBegin (Reference.realm false)))
     = Normal 42
  /\ fst (Realm.write ReferenceMore.committingCallback (Reference.realm false))
     = Throw (Error "Cannot commit: not in a write transaction")
  /\ fst (Realm.write ReferenceMore.committingCallback (Reference.realm false))
     <> Normal 42.
Proof. repeat split; discriminate. Qed.

(** ** Deleting a model *)

Lemma assert_inTransaction_fails (this : Realm.t) (message : string) :
  Realm.isInTransaction this = false ->
  Realm.assert_inTransaction message this
  = (Throw (AssertionError message), this).
Proof.
  intros H. unfold Realm.assert_inTransaction, bind, get, assert.
  rewrite H. reflexivity.
Qed.

Lemma assert_inTransaction_passes (this : Realm.t) (message : string) :
  Realm.isInTransaction this = true ->
  Realm.assert_inTransaction message this = (Normal tt, this).
Proof.
  intros H. unfold Realm.assert_inTransaction, bind, get, assert.
  rewrite H. reflexivity.
Qed.

Lemma tableKeyOf_Some_iff (r : binding.Realm) (name : string) :
  (exists objectSchema,
     In objectSchema (binding.schema r) /\ bos_name objectSchema = name)
  <-> exists tableKey, binding.tableKeyOf r name = Some tableKey.
Proof.
  unfold binding.tableKeyOf. split.
  - intros [os [Hin Hname]].
    destruct (List.find (fun o => String.eqb (bos_name o) name)
                (binding.schema r)) as [found|] eqn:Hfind.
    + simpl. eauto.
    + exfalso. apply (find_none _ _ Hfind) in Hin.
      rewrite Hname, String.eqb_refl in Hin. discriminate.
  - intros [key Hkey].
    destruct (List.find (fun o => String.eqb (bos_name o) name)
                (binding.schema r)) as [found|] eqn:Hfind; [|discriminate].
    apply find_some in Hfind. destruct Hfind as [Hin Heq].
    apply String.eqb_eq in Heq. eauto.
Qed.

(** C5. [deleteModel(name)] raises when the handle is not in a
    transaction, and changes nothing then.  In a transaction, for every
    class name in the handle's schema, it succeeds: no row of the class
    is left and every other row is kept, the schema is the previous one
    without the entries named [name], and the schema version is the
    previous one plus exactly one; the transaction stays open. *)
Theorem deleteModel_spec (this : Realm.t) (name : string) :
  (Realm.isInTransaction this = false ->
   Realm.deleteModel name this
   = (Throw (AssertionError "Can only delete objects within a transaction."),
      this))
  /\ (Realm.isClosed this = false ->
      Realm.isInTransaction this = true ->
      forall declared,
        In declared (binding.schema (Realm.internal this)) ->
        bos_name declared = name ->
        exists final tableKey,
          Realm.deleteModel name this = (Normal tt, final)
          /\ binding.tableKeyOf (Realm.internal this) name = Some tableKey
          /\ Realm.isInTransaction final = true
          /\ binding.rows (Realm.internal final)
             = List.filter (fun o => negb (binding.obj_table o =? tableKey))
                 (binding.rows (Realm.internal this))
          /\ (forall o, In o (binding.rows (Realm.internal final)) ->
                binding.obj_table o <> tableKey)
          /\ binding.schema (Realm.internal final)
             = List.filter
                 (fun objectSchema =>
                    negb (String.eqb (bos_name objectSchema) name))
                 (binding.schema (Realm.internal this))
          /\ (forall objectSchema,
                In objectSchema (binding.schema (Realm.internal final)) ->
                bos_name objectSchema <> name)
          /\ binding.schemaVersion (Realm.internal final)
             = binding.schemaVersion (Realm.internal this) + 1).
Proof.
  split.
  - intros Hidle. unfold Realm.deleteModel, bind.
    rewrite assert_inTransaction_fails by assumption. reflexivity.
  - intros Hopen Htx declared Hin Hname.
    destruct (proj1 (tableKeyOf_Some_iff (Realm.internal this) name))
      as [tableKey Hkey]; [eauto|].
    unfold Realm.deleteModel, bind.
    rewrite assert_inTransaction_passes by assumption.
    unfold Realm.engine, binding.deleteDataForObject, binding.updateSchema,
      binding.whenOpen, get.
    unfold Realm.isClosed, Realm.isInTransaction in *.
    rewrite Hopen, Hkey. cbn -[List.filter String.eqb Z.add].
    eexists. exists tableKey. split; [reflexivity|].
    cbn -[List.filter String.eqb Z.add].
    split; [reflexivity|]. split; [exact Htx|]. split; [reflexivity|]. split.
    { intros o Ho. apply filter_In in Ho. destruct Ho as [_ Hne].
      apply negb_true_iff, Z.eqb_neq in Hne. exact Hne. }
    split; [reflexivity|]. split; [|reflexivity].
    intros os Hos. apply filter_In in Hos. destruct Hos as [_ Hne].
    apply negb_true_iff in Hne. intros Heq.
    rewrite Heq, String.eqb_refl in Hne. discriminate.
Qed.

Lemma deleteModel_spec_witness :
  Realm.deleteModel "Dog" (Reference.realm false)
  = (Throw (AssertionError "Can only delete objects within a transaction."),
     Reference.realm false)
  /\ exists final,
       Realm.deleteModel "Dog" (Reference.realm true) = (Normal tt, final)
       /\ binding.rows (Realm.internal final) = [Reference.row 2 20]
       /\ binding.schema (Realm.internal final) = [Reference.catTable]
       /\ binding.schemaVersion (Realm.internal final) = 4.
Proof.
  split.
  - apply (proj1 (deleteModel_spec (Reference.realm false) "Dog")).
    reflexivity.
  - destruct (proj2 (deleteModel_spec (Reference.realm true) "Dog")
                eq_refl eq_refl Reference.dogTable
                (or_introl eq_refl) eq_refl)
      as [final [tableKey [Hrun [Hkey [_ [Hrows [_ [Hschema [_ Hversion]]]]]]]]].
    injection Hkey as <-.
    exists final. split; [exact Hrun|].
    rewrite Hrows, Hschema, Hversion. repeat split.
Defined.

(** ** create *)

Lemma create_attached
    (RealmObject_create :
       CreateValues -> string -> ClassHelpers -> M Realm.t RealmObject)
    (type : ClassIdentifier) (values : CreateValues) (mode : string) :
  Realm.isDetached values = false ->
  In mode UpdateMode.values ->
  Realm.create RealmObject_create type values (VString mode)
  = createWith RealmObject_create type values mode.
Proof.
  intros Hattached Hmode. unfold Realm.create. rewrite Hattached.
  simpl in Hmode.
  destruct Hmode as [<- | [<- | [<- | []]]]; reflexivity.
Qed.

Lemma asUpdateMode_outside (mode : JsValue) :
  (forall m, In m UpdateMode.values -> mode <> VString m) ->
  Realm.asUpdateMode mode = None.
Proof.
  intros Hout. unfold Realm.asUpdateMode.
  destruct mode as [| | | | |s| |]; try reflexivity.
  destruct (existsb (String.eqb s) UpdateMode.values) eqn:E; [|reflexivity].
  apply existsb_exists in E. destruct E as [m [Hin Heq]].
  apply String.eqb_eq in Heq. subst. now destruct (Hout m Hin).
Qed.

(** C4. In [create], the boolean [true] stands for [All] and [false] for
    [Never] from the first statement on: the call behaves as the one with
    the named mode, and it is the named mode that is handed on.  A mode
    outside [Never], [Modified], [All] raises the unsupported-mode error,
    and a detached typed object as [values] raises; in both cases nothing
    has been asked of the engine and the handle is untouched. *)
Theorem create_checks
    (RealmObject_create :
       CreateValues -> string -> ClassHelpers -> M Realm.t RealmObject)
    (type : ClassIdentifier) (values : CreateValues) (this : Realm.t) :
  Realm.create RealmObject_create type values (VBool true)
  = Realm.create RealmObject_create type values (VString UpdateMode.All)
  /\ Realm.create RealmObject_create type values (VBool false)
     = Realm.create RealmObject_create type values (VString UpdateMode.Never)
  /\ (Realm.isDetached values = false ->
      Realm.create RealmObject_create type values (VBool true)
      = createWith RealmObject_create type values UpdateMode.All
      /\ Realm.create RealmObject_create type values (VBool false)
         = createWith RealmObject_create type values UpdateMode.Never)
  /\ (forall mode,
        Realm.isDetached values = false ->
        mode <> VUndefined ->
        (forall b, mode <> VBool b) ->
        (forall m, In m UpdateMode.values -> mode <> VString m) ->
        Realm.create RealmObject_create type values mode this
        = (Throw (Error "Unsupported 'updateMode'. Only 'never', 'modified' or 'all' is supported."),
           this))
  /\ (forall mode,
        Realm.isDetached values = true ->
        Realm.create RealmObject_create type values mode this
        = (Throw (Error "Cannot create an object from a detached Realm.Object instance"),
           this)).
Proof.
  split; [reflexivity|]. split; [reflexivity|]. split; [|split].
  - intros Hattached. split.
    + apply (create_attached RealmObject_create type values UpdateMode.All
               Hattached). simpl. auto.
    + apply (create_attached RealmObject_create type values UpdateMode.Never
               Hattached). simpl. auto.
  - intros mode Hattached Hundef Hbool Hout.
    pose proof (asUpdateMode_outside mode Hout) as Hnone.
    unfold Realm.create. rewrite Hattached.
    destruct mode as [| |b| | | | |]; try reflexivity.
    + now destruct Hundef.
    + now destruct (Hbool b).
    + rewrite Hnone. reflexivity.
  - intros mode Hdetached. unfold Realm.create. rewrite Hdetached.
    reflexivity.
Qed.

Lemma create_checks_witness :
  Realm.create Reference.RealmObject_create (ClassName "Dog")
    (ValuesPlain [("name", VString "Rex")]) (VBool true)
  = createWith Reference.RealmObject_create (ClassName "Dog")
      (ValuesPlain [("name", VString "Rex")]) "all"
  /\ Realm.create Reference.RealmObject_create (ClassName "Dog")
       (ValuesPlain [("name", VString "Rex")]) (VString "sometimes")
       (Reference.realm true)
     = (Throw (Error "Unsupported 'updateMode'. Only 'never', 'modified' or 'all' is supported."),
        Reference.realm true)
  /\ Realm.create Reference.RealmObject_create (ClassName "Dog")
       (ValuesRealmObject Reference.detachedDog) (VString "all")
       (Reference.realm true)
     = (Throw (Error "Cannot create an object from a detached Realm.Object instance"),
        Reference.realm true).
Proof.
  destruct (create_checks Reference.RealmObject_create (ClassName "Dog")
              (ValuesPlain [("name", VString "Rex")]) (Reference.realm true))
    as [_ [_ [Hbool [Hmode _]]]].
  destruct (create_checks Reference.RealmObject_create (ClassName "Dog")
              (ValuesRealmObject Reference.detachedDog) (Reference.realm true))
    as [_ [_ [_ [_ Hdetached]]]].
  split; [|split].
  - apply (proj1 (Hbool eq_refl)).
  - apply Hmode.
    + reflexivity.
    + discriminate.
    + discriminate.
    + intros m [<- | [<- | [<- | []]]]; discriminate.
  - apply Hdetached. reflexivity.
Defined.

Example create_default_mode :
  Realm.create Reference.RealmObject_create (ClassName "Dog")
    (ValuesPlain [("name", VString "Rex")]) VUndefined
  = createWith Reference.RealmObject_create (ClassName "Dog")
      (ValuesPlain [("name", VString "Rex")]) "never".
Proof. reflexivity. Qed.

(** ** objectForPrimaryKey *)


Section ObjectForPrimaryKey.

Variable findPrimaryKey : Z -> JsValue -> M binding.Realm JsValue.
Variable getObject : Z -> Z -> M binding.Realm binding.Obj.
Variable toString : JsValue -> string.
Variable type : ClassIdentifier.
Variable primaryKey : JsValue.
Variable this : Realm.t.
Variable helpers : ClassHelpers.

Hypothesis resolved : getHelpers (Realm.classes this) type = Normal helpers.

Abbreviation run :=
  (Realm.objectForPrimaryKey findPrimaryKey getObject toString type primaryKey
     this).
Abbreviation table := (bos_tableKey (objectSchema helpers)).

Lemma objectForPrimaryKey_no_key :
  Realm.declaredPrimaryKey (objectSchema helpers) = None ->
  run = (Throw (Error ("Expected a primary key on '"
                         ++ bos_name (objectSchema helpers) ++ "'")),
         this).
Proof.
  intros Hnone. unfold Realm.objectForPrimaryKey, bind,
    Realm.classes_getHelpers.
  rewrite resolved, Hnone. reflexivity.
Qed.

Lemma objectForPrimaryKey_lookup (pk : string) (value : JsValue) :
  Realm.declaredPrimaryKey (objectSchema helpers) = Some pk ->
  Realm.isClosed this = false ->
  toBinding helpers pk primaryKey = Normal value ->
  fst run =
  match findPrimaryKey table value (Realm.internal this) with
  | (Normal (VBigInt objKey), i) =>
      if objKey =? -1 then Normal None
      else
        match getObject table objKey i with
        | (Normal obj, _) => Normal (Some (wrapObject helpers obj))
        | (Throw err, _) =>
            if isNotFoundError err
            then Throw (Error ("No '" ++ bos_name (objectSchema helpers)
                                 ++ "' with key '" ++ toString primaryKey
                                 ++ "'"))
            else Throw err
        end
  | (Normal _, _) => Throw (TypeAssertionError "a bigint" "value")
  | (Throw err, _) =>
      if isNotFoundError err
      then Throw (Error ("No '" ++ bos_name (objectSchema helpers)
                           ++ "' with key '" ++ toString primaryKey ++ "'"))
      else Throw err
  end.
Proof.
  intros Hpk Hopen Hvalue.
  unfold Realm.objectForPrimaryKey, bind, Realm.classes_getHelpers.
  rewrite resolved, Hpk.
  unfold Realm.getTable, Realm.engine, binding.whenOpen, Realm.lift,
    try_catch, Realm.assert_bigInt, throw, ret.
  unfold Realm.isClosed in Hopen. rewrite Hopen.
  cbn [Realm.internal]. rewrite Hvalue.
  destruct (findPrimaryKey table value (Realm.internal this))
    as [[found|err] i].
  - destruct found as [| | | |objKey| | |]; try reflexivity.
    destruct (objKey =? -1); [reflexivity|].
    cbn [Realm.internal].
    destruct (getObject table objKey i) as [[obj|err] i']; [reflexivity|].
    fold (isNotFoundError err). destruct (isNotFoundError err); reflexivity.
  - fold (isNotFoundError err). destruct (isNotFoundError err); reflexivity.
Qed.

End ObjectForPrimaryKey.

(** C6. Once the class is resolved, [objectForPrimaryKey] raises the
    expected-a-primary-key error when the class declares none.
    Otherwise it encodes the key and asks the table for it (on an open
    handle): when the engine finds no row (the null key [-1n]) the result
    is [undefined]; when it finds one, the row is fetched, wrapped and
    returned; and an error of either lookup that is not the engine's
    not-found error is raised unchanged. *)
Theorem objectForPrimaryKey_spec
    (findPrimaryKey : Z -> JsValue -> M binding.Realm JsValue)
    (getObject : Z -> Z -> M binding.Realm binding.Obj)
    (toString : JsValue -> string)
    (type : ClassIdentifier) (primaryKey : JsValue) (this : Realm.t)
    (helpers : ClassHelpers) :
  getHelpers (Realm.classes this) type = Normal helpers ->
  let run :=
    Realm.objectForPrimaryKey findPrimaryKey getObject toString type
      primaryKey this in
  let table := bos_tableKey (objectSchema helpers) in
  (Realm.declaredPrimaryKey (objectSchema helpers) = None ->
   run = (Throw (Error ("Expected a primary key on '"
                          ++ bos_name (objectSchema helpers) ++ "'")),
          this))
  /\ (forall pk value found i,
        Realm.declaredPrimaryKey (objectSchema helpers) = Some pk ->
        Realm.isClosed this = false ->
        toBinding helpers pk primaryKey = Normal value ->
        findPrimaryKey table value (Realm.internal this) = (found, i) ->
        (found = Normal (VBigInt (-1)) -> fst run = Normal None)
        /\ (forall objKey obj i',
              found = Normal (VBigInt objKey) -> objKey <> -1 ->
              getObject table objKey i = (Normal obj, i') ->
              fst run = Normal (Some (wrapObject helpers obj)))
        /\ (forall err,
              found = Throw err -> isNotFoundError err = false ->
              fst run = Throw err)
        /\ (forall objKey err i',
              found = Normal (VBigInt objKey) -> objKey <> -1 ->
              getObject table objKey i = (Throw err, i') ->
              isNotFoundError err = false ->
              fst run = Throw err)).
Proof.
  intros Hresolved run table. split.
  - apply objectForPrimaryKey_no_key. exact Hresolved.
  - intros pk value found i Hpk Hopen Hvalue Hfind.
    pose proof (objectForPrimaryKey_lookup findPrimaryKey getObject toString
                  type primaryKey this helpers Hresolved pk value
                  Hpk Hopen Hvalue) as Hrun.
    fold run table in Hrun. rewrite Hfind in Hrun.
    split; [|split; [|split]].
    + intros ->. exact Hrun.
    + intros objKey obj i' -> Hne Hget.
      apply Z.eqb_neq in Hne. rewrite Hne, Hget in Hrun. exact Hrun.
    + intros err -> Hgeneric. rewrite Hgeneric in Hrun. exact Hrun.
    + intros objKey err i' -> Hne Hget Hgeneric.
      apply Z.eqb_neq in Hne. rewrite Hne, Hget, Hgeneric in Hrun.
      exact Hrun.
Qed.

Lemma objectForPrimaryKey_spec_witness :
  fst (Realm.objectForPrimaryKey Reference.findPrimaryKey Reference.getObject
         Reference.toString (ClassName "Dog") (VString "Fido")
         (Reference.realm false))
  = Normal None
  /\ fst (Realm.objectForPrimaryKey Reference.findPrimaryKey
            Reference.getObject Reference.toString (ClassName "Dog")
            (VString "Rex") (Reference.realm false))
     = Normal (Some Reference.liveDog)
  /\ Realm.objectForPrimaryKey Reference.findPrimaryKey Reference.getObject
       Reference.toString (ClassName "Cat") (VString "Tom")
       (Reference.realm false)
     = (Throw (Error "Expected a primary key on 'Cat'"),
        Reference.realm false).
Proof.
  split; [|split].
  - destruct (objectForPrimaryKey_spec Reference.findPrimaryKey
                Reference.getObject Reference.toString (ClassName "Dog")
                (VString "Fido") (Reference.realm false)
                (Reference.helpersOf Reference.dogTable) eq_refl)
      as [_ H].
    destruct (H "name" (VString "Fido") (Normal (VBigInt (-1)))
                (Reference.handle false) eq_refl eq_refl eq_refl eq_refl)
      as [Habsent _].
    exact (Habsent eq_refl).
  - destruct (objectForPrimaryKey_spec Reference.findPrimaryKey
                Reference.getObject Reference.toString (ClassName "Dog")
                (VString "Rex") (Reference.realm false)
                (Reference.helpersOf Reference.dogTable) eq_refl)
      as [_ H].
    destruct (H "name" (VString "Rex") (Normal (VBigInt 10))
                (Reference.handle false) eq_refl eq_refl eq_refl eq_refl)
      as [_ [Hfound _]].
    apply (Hfound 10 (Reference.row 1 10) (Reference.handle false) eq_refl).
    + discriminate.
    + reflexivity.
  - apply (proj1 (objectForPrimaryKey_spec Reference.findPrimaryKey
                    Reference.getObject Reference.toString (ClassName "Cat")
                    (VString "Tom") (Reference.realm false)
                    (Reference.helpersOf Reference.catTable) eq_refl)).
    reflexivity.
Defined.

(** An engine failure that is not a not-found error comes out as it is;
    here the handle has been closed between the table lookup and the key
    lookup. *)
Example objectForPrimaryKey_generic_error :
  fst (Realm.objectForPrimaryKey
         (fun _ _ r => (Throw binding.closedError, r))
         Reference.getObject Reference.toString (ClassName "Dog")
         (VString "Rex") (Reference.realm false))
  = Throw binding.closedError.
Proof. reflexivity. Qed.

(** The engine's not-found error of a lookup is replaced by the layer's
    own wording. *)
Example objectForPrimaryKey_not_found_error :
  fst (Realm.objectForPrimaryKey
         (fun _ _ r => (Normal (VBigInt 77), r))
         Reference.getObject Reference.toString (ClassName "Dog")
         (VString "Rex") (Reference.realm false))
  = Throw (Error "No 'Dog' with key 'Rex'").
Proof. reflexivity. Qed.

(** ** delete *)


(** Outside a transaction [delete] raises before it looks at its
    subject, and leaves the handle as it was. *)
Lemma delete_requires_transaction (subject : Subject) (this : Realm.t) :
  Realm.isInTransaction this = false ->
  Realm.delete subject this
  = (Throw (AssertionError "Can only delete objects within a transaction."),
     this).
Proof.
  intros Hidle. unfold Realm.delete, bind.
  rewrite assert_inTransaction_fails by assumption. reflexivity.
Qed.

(** A single typed object whose row is gone is rejected before anything
    is asked of the engine. *)
Lemma delete_single_invalid (subject : RealmObject) (obj : binding.Obj)
    (helpers : ClassHelpers) (this : Realm.t) :
  Realm.isInTransaction this = true ->
  getHelpers (Realm.classes this) (ClassInstance subject) = Normal helpers ->
  ro_INTERNAL subject = Some obj ->
  binding.isValid (Realm.internal this) obj = false ->
  Realm.delete (IsObject (SubjectObject subject)) this
  = (Throw (AssertionError invalidObjectMessage), this).
Proof.
  intros Htx Hhelpers Hobj Hinvalid. unfold Realm.delete, bind.
  rewrite assert_inTransaction_passes by assumption.
  cbn [Realm.assert_object ret]. unfold Realm.classes_getHelpers.
  rewrite Hhelpers, Hobj.
  unfold Realm.assert_isValid, bind, get, assert. rewrite Hinvalid.
  reflexivity.
Qed.

(** A single typed object over a live row is validated and then its row
    is removed. *)
Lemma delete_single_valid (subject : RealmObject) (obj : binding.Obj)
    (helpers : ClassHelpers) (this : Realm.t) :
  Realm.isInTransaction this = true ->
  getHelpers (Realm.classes this) (ClassInstance subject) = Normal helpers ->
  ro_INTERNAL subject = Some obj ->
  binding.isValid (Realm.internal this) obj = true ->
  Realm.delete (IsObject (SubjectObject subject)) this
  = (Realm.getTable (bos_tableKey (objectSchema helpers)) ;;;
     Realm.engine
       (CallRemoveObject (bos_tableKey (objectSchema helpers))
          (binding.obj_key obj))
       (binding.removeObject (bos_tableKey (objectSchema helpers))
          (binding.obj_key obj)))%js this.
Proof.
  intros Htx Hhelpers Hobj Hvalid. unfold Realm.delete, bind.
  rewrite assert_inTransaction_passes by assumption.
  cbn [Realm.assert_object ret]. unfold Realm.classes_getHelpers.
  rewrite Hhelpers, Hobj.
  unfold Realm.assert_isValid, bind, get, assert. rewrite Hvalid.
  cbn [ret]. unfold Realm.getTable, Realm.engine, binding.whenOpen.
  destruct (binding.isClosed (Realm.internal this)); reflexivity.
Qed.

(** An object that is neither a typed object nor iterable is refused as
    not yet implemented. *)
Lemma delete_unsupported_shape (this : Realm.t) :
  Realm.isInTransaction this = true ->
  Realm.delete (IsObject SubjectOther) this
  = (Throw (Error "Not yet implemented"), this).
Proof.
  intros Htx. unfold Realm.delete, bind.
  rewrite assert_inTransaction_passes by assumption. reflexivity.
Qed.

(** In a sequence, an item goes to the engine's [removeObject] with no
    check of its row: the body of the loop is the type check, the table
    lookup and the removal. *)
Lemma delete_sequence_item (object : RealmObject) (obj : binding.Obj)
    (helpers : ClassHelpers) (this : Realm.t) :
  Realm.isClosed this = false ->
  Realm.isInTransaction this = true ->
  getHelpers (Realm.classes this) (ClassInstance object) = Normal helpers ->
  ro_INTERNAL object = Some obj ->
  exists final,
    Realm.delete (IsObject (SubjectArray [ItemObject object])) this
    = (fst (binding.removeObject (bos_tableKey (objectSchema helpers))
              (binding.obj_key obj) (Realm.internal this)),
       final)
    /\ Realm.engineCalls final
       = (Realm.engineCalls this
          ++ [CallGetTable (bos_tableKey (objectSchema helpers));
              CallRemoveObject (bos_tableKey (objectSchema helpers))
                (binding.obj_key obj)])%list.
Proof.
  intros Hopen Htx Hhelpers Hobj. unfold Realm.delete, bind.
  rewrite assert_inTransaction_passes by assumption.
  cbn [Realm.assert_object ret Realm.delete_each]. unfold bind.
  unfold Realm.delete_one, bind. cbn [Realm.assert_instanceOf_RealmObject ret].
  unfold Realm.classes_getHelpers. rewrite Hhelpers, Hobj.
  unfold Realm.getTable, Realm.engine, binding.whenOpen.
  unfold Realm.isClosed in Hopen. rewrite Hopen. cbn [ret Realm.internal].
  destruct (binding.removeObject (bos_tableKey (objectSchema helpers))
              (binding.obj_key obj) (Realm.internal this))
    as [[[]|e] i]; cbn [fst Realm.engineCalls ret];
    eexists; (split; [reflexivity|]);
    cbn [Realm.engineCalls]; rewrite <- app_assoc; reflexivity.
Qed.

(** C3. With the handle in a transaction, a typed object whose row has
    been deleted is rejected by [delete] when it is the subject itself,
    but goes through no validation when it is an item of a sequence: the
    layer asks for the table and calls the engine's [removeObject] with
    the stale key, and what is raised is the engine's error for a key
    that names no row. *)
Theorem delete_sequence_skips_validation :
  Realm.isInTransaction (Reference.realm true) = true
  /\ binding.isValid (Realm.internal (Reference.realm true))
       (Reference.row 1 99) = false
  /\ Realm.delete (IsObject (SubjectObject Reference.staleDog))
       (Reference.realm true)
     = (Throw (AssertionError invalidObjectMessage), Reference.realm true)
  /\ Realm.delete (IsObject (SubjectArray [ItemObject Reference.staleDog]))
       (Reference.realm true)
     = (Throw (Error "No object with key"),
        {| Realm.internal := Reference.handle true;
           Realm.classes := Reference.classMap;
           Realm.schemaExtras := [];
           Realm.engineCalls := [CallGetTable 1; CallRemoveObject 1 99] |}).
Proof. repeat split. Qed.


(** * Further properties of the code *)

(** ** Strings *)

Lemma append_nil_l (s : string) : "" ++ s = s.
Proof. reflexivity. Qed.

Lemma append_cons (c : Ascii.ascii) (s t : string) :
  String c s ++ t = String c (s ++ t).
Proof. reflexivity. Qed.

Lemma endsWith_spec (s suffix : string) :
  endsWith s suffix = true <-> exists stem, s = stem ++ suffix.
Proof.
  induction s as [|c rest IH]; cbn [endsWith].
  - destruct (String.eqb_spec "" suffix) as [<-|Hne].
    + split; [exists ""; reflexivity | reflexivity].
    + split; [discriminate|]. intros [stem Hstem].
      destruct stem as [|c' stem].
      * rewrite append_nil_l in Hstem. congruence.
      * rewrite append_cons in Hstem. discriminate.
  - destruct (String.eqb_spec (String c rest) suffix) as [<-|Hne].
    + split; [exists ""; reflexivity | reflexivity].
    + rewrite IH. split.
      * intros [stem ->]. exists (String c stem). reflexivity.
      * intros [stem Hstem]. destruct stem as [|c' stem].
        -- rewrite append_nil_l in Hstem. congruence.
        -- rewrite append_cons in Hstem. injection Hstem as _ ->. eauto.
Qed.

Lemma endsWith_false (s suffix : string) :
  endsWith s suffix = false <-> ~ exists stem, s = stem ++ suffix.
Proof.
  rewrite <- endsWith_spec. destruct (endsWith s suffix); split; intros H;
    congruence.
Qed.

(** ** The sweep of [clearTestState] *)

Section Sweep.

Variable fs : FileSystem.
Context {F : Type}.
Variable fsx : FileSystemEffects F.

Lemma onFiles_calls {A : Type} (c : FsCall) (op : M F A) (p : Process F) :
  fsCalls (snd (RealmMore.onFiles c op p)) = (fsCalls p ++ [c])%list
  /\ heap (snd (RealmMore.onFiles c op p)) = heap p
  /\ RETURNED_REALMS (snd (RealmMore.onFiles c op p)) = RETURNED_REALMS p.
Proof.
  unfold RealmMore.onFiles. destruct (op (files p)). repeat split.
Qed.

Lemma removeDirent_calls (dir : string) (dirent : Dirent) (p : Process F) :
  fsCalls (snd (RealmMore.removeDirent fs fsx dir dirent p))
  = (fsCalls p ++ sweepCalls fs dir dirent)%list
  /\ heap (snd (RealmMore.removeDirent fs fsx dir dirent p)) = heap p
  /\ RETURNED_REALMS (snd (RealmMore.removeDirent fs fsx dir dirent p))
     = RETURNED_REALMS p.
Proof.
  unfold RealmMore.removeDirent, sweepCalls, realmFileSuffixes.
  cbn [existsb]. rewrite orb_false_r, !orb_assoc.
  destruct (dirent_isDirectory dirent
            && endsWith (dirent_name dirent) ".realm.management").
  - apply onFiles_calls.
  - destruct (endsWith (dirent_name dirent) ".realm"
              || endsWith (dirent_name dirent) ".realm.note"
              || endsWith (dirent_name dirent) ".realm.lock"
              || endsWith (dirent_name dirent) ".realm.log").
    + apply onFiles_calls.
    + cbn. rewrite app_nil_r. repeat split.
Qed.

Lemma removeDirent_untouched (dir : string) (dirent : Dirent) (p : Process F) :
  sweepCalls fs dir dirent = [] ->
  RealmMore.removeDirent fs fsx dir dirent p = (Normal tt, p).
Proof.
  unfold RealmMore.removeDirent, sweepCalls, realmFileSuffixes.
  cbn [existsb]. rewrite orb_false_r, !orb_assoc.
  destruct (dirent_isDirectory dirent
            && endsWith (dirent_name dirent) ".realm.management");
    [discriminate|].
  destruct (endsWith (dirent_name dirent) ".realm"
            || endsWith (dirent_name dirent) ".realm.note"
            || endsWith (dirent_name dirent) ".realm.lock"
            || endsWith (dirent_name dirent) ".realm.log");
    [discriminate|].
  reflexivity.
Qed.

Lemma existsb_suffix (name : string) :
  existsb (endsWith name) realmFileSuffixes = true
  <-> exists stem suffix,
        In suffix realmFileSuffixes /\ name = stem ++ suffix.
Proof.
  rewrite existsb_exists. split.
  - intros [suffix [Hin Hends]]. apply endsWith_spec in Hends.
    destruct Hends as [stem ->]. eauto.
  - intros [stem [suffix [Hin ->]]]. exists suffix. split; [exact Hin|].
    apply endsWith_spec. eauto.
Qed.

End Sweep.

(** X1. What the sweep of [clearTestState] does with one entry of the
    default directory, whatever the file system answers: a directory
    whose name ends in [.realm.management] is handed to
    [removeDirectory]; any other entry, file or directory, whose name
    ends in [.realm], [.realm.note], [.realm.lock] or [.realm.log] is
    handed to [removeFile]; every other entry, a plain file named
    [.realm.management] included, is left alone and nothing is asked of
    the file system.  The path is always the entry's name joined to the
    default directory. *)
Theorem sweep_entry (fs : FileSystem) {F : Type} (fsx : FileSystemEffects F)
    (dir : string) (dirent : Dirent) (p : Process F) :
  let name := dirent_name dirent in
  let path := joinPaths fs dir name in
  let managed :=
    dirent_isDirectory dirent = true
    /\ exists stem, name = stem ++ ".realm.management" in
  let realmFile :=
    exists stem suffix, In suffix realmFileSuffixes /\ name = stem ++ suffix in
  (managed ->
   fsCalls (snd (RealmMore.removeDirent fs fsx dir dirent p))
   = (fsCalls p ++ [CallRemoveDirectory path])%list)
  /\ (~ managed -> realmFile ->
      fsCalls (snd (RealmMore.removeDirent fs fsx dir dirent p))
      = (fsCalls p ++ [CallRemoveFile path])%list)
  /\ (~ managed -> ~ realmFile ->
      RealmMore.removeDirent fs fsx dir dirent p = (Normal tt, p)).
Proof.
  intros name path managed realmFile.
  assert (Hmanaged :
    dirent_isDirectory dirent
    && endsWith (dirent_name dirent) ".realm.management" = true <-> managed).
  { unfold managed, name. rewrite andb_true_iff, endsWith_spec. tauto. }
  assert (HrealmFile :
    existsb (endsWith (dirent_name dirent)) realmFileSuffixes = true
    <-> realmFile) by apply existsb_suffix.
  split; [|split].
  - intros H. apply Hmanaged in H.
    rewrite (proj1 (removeDirent_calls fs fsx dir dirent p)).
    unfold sweepCalls. rewrite H. reflexivity.
  - intros Hn H. apply HrealmFile in H.
    rewrite (proj1 (removeDirent_calls fs fsx dir dirent p)).
    unfold sweepCalls. rewrite H.
    destruct (dirent_isDirectory dirent
              && endsWith (dirent_name dirent) ".realm.management");
      [now destruct Hn; apply Hmanaged | reflexivity].
  - intros Hn Hr. apply removeDirent_untouched. unfold sweepCalls.
    destruct (dirent_isDirectory dirent
              && endsWith (dirent_name dirent) ".realm.management");
      [now destruct Hn; apply Hmanaged |].
    destruct (existsb (endsWith (dirent_name dirent)) realmFileSuffixes);
      [now destruct Hr; apply HrealmFile | reflexivity].
Qed.

Lemma sweep_entry_witness :
  fsCalls (snd (RealmMore.removeDirent Reference.fs ReferenceMore.fsx "/data"
                  {| dirent_name := "a.realm.management";
                     dirent_isDirectory := true |} ReferenceMore.process))
  = [CallRemoveDirectory "/data/a.realm.management"]
  /\ fsCalls (snd (RealmMore.removeDirent Reference.fs ReferenceMore.fsx
                     "/data"
                     {| dirent_name := "b.realm"; dirent_isDirectory := true |}
                     ReferenceMore.process))
     = [CallRemoveFile "/data/b.realm"]
  /\ RealmMore.removeDirent Reference.fs ReferenceMore.fsx "/data"
       {| dirent_name := "a.realm.management"; dirent_isDirectory := false |}
       ReferenceMore.process
     = (Normal tt, ReferenceMore.process).
Proof.
  split; [|split].
  - apply (proj1 (sweep_entry Reference.fs ReferenceMore.fsx "/data"
                    {| dirent_name := "a.realm.management";
                       dirent_isDirectory := true |} ReferenceMore.process)).
    split; [reflexivity | exists "a"; reflexivity].
  - apply (proj1 (proj2 (sweep_entry Reference.fs ReferenceMore.fsx "/data"
                           {| dirent_name := "b.realm";
                              dirent_isDirectory := true |}
                           ReferenceMore.process))).
    + intros [_ Hm]. apply endsWith_spec in Hm. discriminate.
    + exists "b", ".realm". split; [left; reflexivity | reflexivity].
  - apply (proj2 (proj2 (sweep_entry Reference.fs ReferenceMore.fsx "/data"
                           {| dirent_name := "a.realm.management";
                              dirent_isDirectory := false |}
                           ReferenceMore.process))).
    + intros [Hd _]. discriminate.
    + intros H. apply existsb_suffix in H. discriminate.
Defined.

Section SweepLoop.

Variable fs : FileSystem.
Context {F : Type}.
Variable fsx : FileSystemEffects F.

Lemma forEach_removeDirent (dir : string) (entries : list Dirent) :
  forall p : Process F,
  exists done,
    fsCalls (snd (forEach (RealmMore.removeDirent fs fsx dir) entries p))
    = (fsCalls p ++ done)%list
    /\ done `prefix_of` flat_map (sweepCalls fs dir) entries
    /\ (fst (forEach (RealmMore.removeDirent fs fsx dir) entries p)
        = Normal tt ->
        done = flat_map (sweepCalls fs dir) entries)
    /\ heap (snd (forEach (RealmMore.removeDirent fs fsx dir) entries p))
       = heap p
    /\ RETURNED_REALMS
         (snd (forEach (RealmMore.removeDirent fs fsx dir) entries p))
       = RETURNED_REALMS p.
Proof.
  induction entries as [|dirent rest IH]; intros p.
  - exists []. cbn. rewrite app_nil_r. repeat split. apply prefix_nil.
  - cbn [forEach flat_map]. unfold bind.
    destruct (removeDirent_calls fs fsx dir dirent p) as [Hcalls [Hheap Hreg]].
    destruct (RealmMore.removeDirent fs fsx dir dirent p) as [[[]|e] p1];
      cbn [snd fst] in *.
    + destruct (IH p1) as [done [Hdone [Hprefix [Hall [Hheap' Hreg']]]]].
      exists (sweepCalls fs dir dirent ++ done)%list.
      rewrite Hdone, Hcalls, <- app_assoc. split; [reflexivity|].
      split; [apply prefix_app, Hprefix|].
      split; [intros Hok; now rewrite (Hall Hok)|].
      split; congruence.
    + exists (sweepCalls fs dir dirent). split; [exact Hcalls|].
      split; [apply prefix_app_r; reflexivity|].
      split; [discriminate|]. split; assumption.
Qed.

Lemma forEach_closeStraggler (refs : list (option nat)) :
  forall p : Process F,
  exists h,
    forEach RealmMore.closeStraggler refs p
    = (Normal tt,
       {| heap := h; RETURNED_REALMS := RETURNED_REALMS p;
          files := files p; fsCalls := fsCalls p |})
    /\ length h = length (heap p)
    /\ forall i r, heap p !! i = Some r ->
         exists r', h !! i = Some r'
           /\ (binding.isClosed r = true -> r' = r)
           /\ (In (Some i) refs -> binding.isClosed r' = true)
           /\ (~ In (Some i) refs -> r' = r).
Proof.
  induction refs as [|ref refs IH]; intros p.
  - exists (heap p). destruct p. cbn. split; [reflexivity|].
    split; [reflexivity|]. intros i r Hr. exists r. tauto.
  - cbn [forEach]. unfold bind.
    assert (Hstep : exists h1,
      RealmMore.closeStraggler ref p
      = (Normal tt,
         {| heap := h1; RETURNED_REALMS := RETURNED_REALMS p;
            files := files p; fsCalls := fsCalls p |})
      /\ length h1 = length (heap p)
      /\ forall i r, heap p !! i = Some r ->
           exists r', h1 !! i = Some r'
             /\ (binding.isClosed r = true -> r' = r)
             /\ (ref = Some i -> binding.isClosed r' = true)
             /\ (ref <> Some i -> r' = r)).
    { unfold RealmMore.closeStraggler. destruct ref as [j|].
      - destruct (heap p !! j) as [realm|] eqn:Hj.
        + destruct (binding.isClosed realm) eqn:Hclosed.
          * exists (heap p). destruct p. cbn in *. split; [reflexivity|].
            split; [reflexivity|]. intros i r Hr. exists r.
            repeat split; try tauto. intros [= ->]. congruence.
          * exists (<[j := snd (binding.close realm)]> (heap p)).
            cbn. split; [reflexivity|]. split; [apply length_insert|].
            intros i r Hr. destruct (decide (i = j)) as [->|Hne].
            -- exists (snd (binding.close realm)).
               rewrite list_lookup_insert_eq
                 by (apply lookup_lt_Some in Hj; exact Hj).
               split; [reflexivity|]. split; [congruence|].
               split; [reflexivity | congruence].
            -- exists r. rewrite list_lookup_insert_ne by congruence.
               repeat split; try tauto. congruence.
        + exists (heap p). destruct p. cbn in *. split; [reflexivity|].
          split; [reflexivity|]. intros i r Hr. exists r.
          repeat split; try tauto. intros [= ->]. congruence.
      - exists (heap p). destruct p. cbn. split; [reflexivity|].
        split; [reflexivity|]. intros i r Hr. exists r.
        repeat split; try tauto. discriminate. }
    destruct Hstep as [h1 [Hrun [Hlen Hheap]]]. rewrite Hrun.
    destruct (IH {| heap := h1; RETURNED_REALMS := RETURNED_REALMS p;
                    files := files p; fsCalls := fsCalls p |})
      as [h [Hrest [Hlen' Hheap']]].
    exists h. cbn in *. split; [exact Hrest|]. split; [congruence|].
    intros i r Hr.
    destruct (Hheap i r Hr) as [r1 [Hr1 [Hkeep1 [Hclose1 Hother1]]]].
    destruct (Hheap' i r1 Hr1) as [r' [Hr' [Hkeep [Hclose Hother]]]].
    exists r'. split; [exact Hr'|]. split; [|split].
    + intros Hc. rewrite (Hkeep1 Hc) in *. now apply Hkeep.
    + intros [-> | Hin].
      * rewrite (Hkeep (Hclose1 eq_refl)). now apply Hclose1.
      * now apply Hclose.
    + intros Hnot. rewrite Hother by tauto. apply Hother1.
      intros ->. tauto.
Qed.

Lemma clearTestState_unfold (p : Process F) :
  exists h,
    length h = length (heap p)
    /\ (forall i r, heap p !! i = Some r ->
          exists r', h !! i = Some r'
            /\ (binding.isClosed r = true -> r' = r)
            /\ (In (Some i) (RETURNED_REALMS p) -> binding.isClosed r' = true)
            /\ (~ In (Some i) (RETURNED_REALMS p) -> r' = r))
    /\ RealmMore.clearTestState fs fsx p
       = match fs_readDirectory fsx (getDefaultDirectoryPath fs) (files p) with
         | (Normal dirents, f) =>
             forEach (RealmMore.removeDirent fs fsx (getDefaultDirectoryPath fs))
               dirents
               {| heap := h; RETURNED_REALMS := []; files := f;
                  fsCalls :=
                    (fsCalls p
                     ++ [CallReadDirectory (getDefaultDirectoryPath fs)])%list |}
         | (Throw e, f) =>
             (Throw e,
              {| heap := h; RETURNED_REALMS := []; files := f;
                 fsCalls :=
                   (fsCalls p
                    ++ [CallReadDirectory (getDefaultDirectoryPath fs)])%list |})
         end.
Proof.
  destruct (forEach_closeStraggler (RETURNED_REALMS p) p)
    as [h [Hrun [Hlen Hheap]]].
  exists h. split; [exact Hlen|]. split; [exact Hheap|].
  unfold RealmMore.clearTestState, bind, get. rewrite Hrun.
  unfold RealmMore.onFiles. cbn [files fsCalls heap RETURNED_REALMS].
  destruct (fs_readDirectory fsx (getDefaultDirectoryPath fs) (files p))
    as [[dirents|e] f]; reflexivity.
Qed.

End SweepLoop.

(** X2. [clearTestState] and the open handles: whatever the file system
    does afterwards, the registry is empty, no handle appears or
    disappears, every handle that a live weak reference of the registry
    points to is closed, and a handle that was closed already or that no
    live reference points to is exactly as it was. *)
Theorem clearTestState_handles (fs : FileSystem) {F : Type}
    (fsx : FileSystemEffects F) (p : Process F) :
  let final := snd (RealmMore.clearTestState fs fsx p) in
  RETURNED_REALMS final = []
  /\ length (heap final) = length (heap p)
  /\ forall i realm, heap p !! i = Some realm ->
       exists realm', heap final !! i = Some realm'
         /\ (In (Some i) (RETURNED_REALMS p) ->
             binding.isClosed realm' = true)
         /\ (binding.isClosed realm = true -> realm' = realm)
         /\ (~ In (Some i) (RETURNED_REALMS p) -> realm' = realm).
Proof.
  intros final. subst final.
  destruct (clearTestState_unfold fs fsx p) as [h [Hlen [Hheap Hrun]]].
  rewrite Hrun.
  assert (Hkept : forall i realm, heap p !! i = Some realm ->
    exists realm', h !! i = Some realm'
      /\ (In (Some i) (RETURNED_REALMS p) -> binding.isClosed realm' = true)
      /\ (binding.isClosed realm = true -> realm' = realm)
      /\ (~ In (Some i) (RETURNED_REALMS p) -> realm' = realm)).
  { intros i realm Hi.
    destruct (Hheap i realm Hi) as [r' [Hr' [Hkeep [Hclose Hother]]]].
    exists r'. tauto. }
  destruct (fs_readDirectory fsx (getDefaultDirectoryPath fs) (files p))
    as [[dirents|e] f].
  - destruct (forEach_removeDirent fs fsx (getDefaultDirectoryPath fs)
                dirents
                {| heap := h; RETURNED_REALMS := []; files := f;
                   fsCalls :=
                     (fsCalls p
                      ++ [CallReadDirectory (getDefaultDirectoryPath fs)])%list |})
      as [done [_ [_ [_ [Hh Hr]]]]].
    rewrite Hh, Hr. cbn [heap RETURNED_REALMS]. auto.
  - cbn [snd heap RETURNED_REALMS]. auto.
Qed.

Lemma clearTestState_handles_witness :
  exists first last_,
    heap (snd (RealmMore.clearTestState Reference.fs ReferenceMore.fsx
                 ReferenceMore.process)) !! 0%nat = Some first
    /\ binding.isClosed first = true
    /\ heap (snd (RealmMore.clearTestState Reference.fs ReferenceMore.fsx
                    ReferenceMore.process)) !! 1%nat
       = Some (Reference.handle false)
    /\ heap (snd (RealmMore.clearTestState Reference.fs ReferenceMore.fsx
                    ReferenceMore.process)) !! 2%nat = Some last_
    /\ last_ = ReferenceMore.closedHandle.
Proof.
  destruct (clearTestState_handles Reference.fs ReferenceMore.fsx
              ReferenceMore.process) as [_ [_ H]].
  destruct (H 0%nat (Reference.handle true) eq_refl)
    as [first [Hfirst [Hclosed _]]].
  destruct (H 1%nat (Reference.handle false) eq_refl)
    as [second [Hsecond [_ [_ Hsame]]]].
  destruct (H 2%nat ReferenceMore.closedHandle eq_refl)
    as [third [Hthird [_ [Hkept _]]]].
  exists first, third. split; [exact Hfirst|].
  split; [apply Hclosed; left; reflexivity|].
  split.
  - rewrite Hsecond. f_equal. apply Hsame.
    intros [Hin | [Hin | [Hin | [Hin | []]]]]; discriminate.
  - split; [exact Hthird|]. apply Hkept. reflexivity.
Defined.

(** ** Carrying out a list of calls *)

Lemma forEach_app {S A : Type} (body : A -> M S unit) (xs ys : list A) (s : S) :
  forEach body (xs ++ ys)%list s = (forEach body xs ;;; forEach body ys)%js s.
Proof.
  revert s. induction xs as [|x xs IH]; intros s.
  - reflexivity.
  - cbn [forEach app]. unfold bind in *.
    destruct (body x s) as [[[]|e] s1]; [|reflexivity].
    rewrite IH. reflexivity.
Qed.

Section Plan.

Variable fs : FileSystem.
Context {F : Type}.
Variable fsx : FileSystemEffects F.

Lemma forEach_perform (planned : list FsCall) :
  forall p : Process F,
  let run :=
    forEach (fun c => RealmMore.onFiles c (perform fsx c)) planned p in
  heap (snd run) = heap p
  /\ RETURNED_REALMS (snd run) = RETURNED_REALMS p
  /\ forEach (perform fsx) planned (files p) = (fst run, files (snd run))
  /\ (fst run = Normal tt ->
      fsCalls (snd run) = (fsCalls p ++ planned)%list)
  /\ (forall e, fst run = Throw e ->
        exists before c after f1,
          planned = (before ++ c :: after)%list
          /\ fsCalls (snd run) = (fsCalls p ++ before ++ [c])%list
          /\ forEach (perform fsx) before (files p) = (Normal tt, f1)
          /\ perform fsx c f1 = (Throw e, files (snd run))).
Proof.
  set (body := fun c => RealmMore.onFiles c (perform fsx c)).
  induction planned as [|c rest IH]; intros p run; subst run.
  - cbn. rewrite app_nil_r. repeat split. discriminate.
  - cbn [forEach]. unfold bind.
    change (body c p) with (RealmMore.onFiles c (perform fsx c) p).
    unfold RealmMore.onFiles.
    destruct (perform fsx c (files p)) as [[[]|e] f1] eqn:Hc;
      cbv beta iota zeta.
    + destruct (IH {| heap := heap p; RETURNED_REALMS := RETURNED_REALMS p;
                      files := f1; fsCalls := (fsCalls p ++ [c])%list |})
        as [Hheap [Hreg [Houtcome [Hnormal Hthrow]]]].
      cbn [heap RETURNED_REALMS files fsCalls] in *.
      split; [exact Hheap|]. split; [exact Hreg|].
      split; [exact Houtcome|]. split.
      * intros Hok. rewrite (Hnormal Hok), <- app_assoc. reflexivity.
      * intros e He.
        destruct (Hthrow e He) as [before [c' [after [f2 [Hsplit [Hcalls [Hb Hc']]]]]]].
        exists (c :: before), c', after, f2.
        split; [now rewrite Hsplit|].
        split; [now rewrite Hcalls, <- app_assoc|].
        split; [|exact Hc'].
        cbn [forEach]. unfold bind. rewrite Hc. exact Hb.
    + cbn [fst snd heap RETURNED_REALMS files fsCalls].
      split; [reflexivity|]. split; [reflexivity|].
      split; [reflexivity|].
      split; [discriminate|]. intros e' [= <-].
      exists [], c, rest, (files p). repeat split. exact Hc.
Qed.

Lemma removeDirent_plan (dir : string) (dirent : Dirent) (p : Process F) :
  RealmMore.removeDirent fs fsx dir dirent p
  = forEach (fun c => RealmMore.onFiles c (perform fsx c))
      (sweepCalls fs dir dirent) p.
Proof.
  unfold RealmMore.removeDirent, sweepCalls, realmFileSuffixes.
  cbn [existsb]. rewrite orb_false_r, !orb_assoc.
  destruct (dirent_isDirectory dirent
            && endsWith (dirent_name dirent) ".realm.management").
  - cbn [forEach perform]. unfold bind, RealmMore.onFiles.
    destruct (fs_removeDirectory fsx _ (files p)) as [[[]|e] f]; reflexivity.
  - destruct (endsWith (dirent_name dirent) ".realm"
              || endsWith (dirent_name dirent) ".realm.note"
              || endsWith (dirent_name dirent) ".realm.lock"
              || endsWith (dirent_name dirent) ".realm.log").
    + cbn [forEach perform]. unfold bind, RealmMore.onFiles.
      destruct (fs_removeFile fsx _ (files p)) as [[[]|e] f]; reflexivity.
    + reflexivity.
Qed.

Lemma forEach_removeDirent_plan (dir : string) (entries : list Dirent) :
  forall p : Process F,
  forEach (RealmMore.removeDirent fs fsx dir) entries p
  = forEach (fun c => RealmMore.onFiles c (perform fsx c))
      (flat_map (sweepCalls fs dir) entries) p.
Proof.
  induction entries as [|dirent rest IH]; intros p.
  - reflexivity.
  - cbn [forEach flat_map]. rewrite forEach_app. unfold bind.
    rewrite removeDirent_plan.
    destruct (forEach _ (sweepCalls fs dir dirent) p) as [[[]|e] p1];
      [apply IH | reflexivity].
Qed.

Lemma deleteFile_plan (dp : string) (config : Configuration.t) (path : string)
    (p : Process F) :
  Realm.determinePath fs dp config = Normal path ->
  RealmMore.deleteFile fs dp fsx config p
  = forEach (fun c => RealmMore.onFiles c (perform fsx c))
      (deleteFileCalls path) p.
Proof.
  intros Hpath. unfold RealmMore.deleteFile, deleteFileCalls.
  unfold bind at 1. unfold Realm.lift. rewrite Hpath.
  cbn [forEach perform]. unfold bind.
  destruct (RealmMore.onFiles (CallRemoveFile path) _ p) as [[[]|e] p1];
    [|reflexivity].
  destruct (RealmMore.onFiles (CallRemoveFile (path ++ ".lock")) _ p1)
    as [[[]|e] p2]; [|reflexivity].
  destruct (RealmMore.onFiles (CallRemoveFile (path ++ ".note")) _ p2)
    as [[[]|e] p3]; [|reflexivity].
  destruct (RealmMore.onFiles (CallRemoveDirectory (path ++ ".management")) _ p3)
    as [[[]|e] p4]; reflexivity.
Qed.

End Plan.

(** X3. [clearTestState] and the files: it asks for the listing of the
    default directory once; if that fails, nothing else is asked of the
    file system and the failure is raised.  Otherwise the removals that
    the entries of the listing call for are carried out one after the
    other, in the order of the listing, up to the first one that fails:
    the outcome and the files are those of carrying them out in that way.
    When it returns normally all of them have been made.  When it raises
    [e], the calls made are the ones before the failing call, each of
    which succeeded, and then the failing call, which raised [e] and is
    the last call made: no removal is attempted after a failure. *)
Theorem clearTestState_files (fs : FileSystem) {F : Type}
    (fsx : FileSystemEffects F) (p : Process F) :
  let dir := getDefaultDirectoryPath fs in
  let run := RealmMore.clearTestState fs fsx p in
  (forall e f, fs_readDirectory fsx dir (files p) = (Throw e, f) ->
     fst run = Throw e
     /\ fsCalls (snd run) = (fsCalls p ++ [CallReadDirectory dir])%list
     /\ files (snd run) = f)
  /\ (forall dirents f,
        fs_readDirectory fsx dir (files p) = (Normal dirents, f) ->
        let planned := flat_map (sweepCalls fs dir) dirents in
        forEach (perform fsx) planned f = (fst run, files (snd run))
        /\ (fst run = Normal tt ->
            fsCalls (snd run)
            = (fsCalls p ++ CallReadDirectory dir :: planned)%list)
        /\ (forall e, fst run = Throw e ->
              exists before c after f1,
                planned = (before ++ c :: after)%list
                /\ fsCalls (snd run)
                   = (fsCalls p ++ CallReadDirectory dir :: before ++ [c])%list
                /\ forEach (perform fsx) before f = (Normal tt, f1)
                /\ perform fsx c f1 = (Throw e, files (snd run)))).
Proof.
  intros dir run. subst run dir.
  destruct (clearTestState_unfold fs fsx p) as [h [_ [_ Hrun]]].
  rewrite Hrun. split.
  - intros e f ->. repeat split.
  - intros dirents f -> planned. subst planned.
    rewrite forEach_removeDirent_plan.
    destruct (forEach_perform fsx
                (flat_map (sweepCalls fs (getDefaultDirectoryPath fs)) dirents)
                {| heap := h; RETURNED_REALMS := []; files := f;
                   fsCalls :=
                     (fsCalls p
                      ++ [CallReadDirectory (getDefaultDirectoryPath fs)])%list |})
      as [_ [_ [Houtcome [Hnormal Hthrow]]]].
    cbn [fsCalls files] in Houtcome, Hnormal, Hthrow.
    split; [exact Houtcome|]. split.
    + intros Hok. rewrite (Hnormal Hok), <- app_assoc. reflexivity.
    + intros e He.
      destruct (Hthrow e He)
        as [before [c [after [f1 [Hsplit [Hcalls [Hbefore Hc]]]]]]].
      exists before, c, after, f1. rewrite Hcalls, <- app_assoc.
      repeat split; assumption.
Qed.

Lemma clearTestState_files_witness :
  fsCalls (snd (RealmMore.clearTestState Reference.fs ReferenceMore.fsx
                  ReferenceMore.process))
  = [CallReadDirectory "/data"; CallRemoveFile "/data/a.realm";
     CallRemoveFile "/data/a.realm.lock";
     CallRemoveDirectory "/data/a.realm.management";
     CallRemoveFile "/data/b.realm"]
  /\ exists before c after,
       flat_map (sweepCalls Reference.fs "/data") ReferenceMore.listing
       = (before ++ c :: after)%list
       /\ fsCalls (snd (RealmMore.clearTestState Reference.fs
                          ReferenceMore.busyFsx ReferenceMore.process))
          = (CallReadDirectory "/data" :: before ++ [c])%list
       /\ forEach (perform ReferenceMore.busyFsx) before tt = (Normal tt, tt)
       /\ fst (perform ReferenceMore.busyFsx c tt) = Throw (Error "EBUSY").
Proof.
  split.
  - exact (proj1 (proj2 (proj2 (clearTestState_files Reference.fs
                                  ReferenceMore.fsx ReferenceMore.process)
                           ReferenceMore.listing tt eq_refl)) eq_refl).
  - destruct (proj2 (proj2 (proj2 (clearTestState_files Reference.fs
                                     ReferenceMore.busyFsx
                                     ReferenceMore.process)
                              ReferenceMore.listing tt eq_refl))
                (Error "EBUSY") eq_refl)
      as [before [c [after [f1 [Hsplit [Hcalls [Hbefore Hc]]]]]]].
    exists before, c, after. split; [exact Hsplit|]. split; [exact Hcalls|].
    destruct f1. split; [exact Hbefore|]. rewrite Hc. reflexivity.
Defined.

(** On a file system that refuses removals the sweep stops at the first
    one. *)
Example clearTestState_stops :
  RealmMore.clearTestState Reference.fs ReferenceMore.readOnlyFsx
    ReferenceMore.process
  = (Throw (Error "EACCES"),
     {| heap := [snd (binding.close (Reference.handle true));
                 Reference.handle false; ReferenceMore.closedHandle];
        RETURNED_REALMS := [];
        files := tt;
        fsCalls := [CallReadDirectory "/data"; CallRemoveFile "/data/a.realm"] |}).
Proof. reflexivity. Qed.

(** Where only the lock files cannot be removed it stops at the first
    lock file. *)
Example clearTestState_busy :
  RealmMore.clearTestState Reference.fs ReferenceMore.busyFsx
    ReferenceMore.process
  = (Throw (Error "EBUSY"),
     {| heap := [snd (binding.close (Reference.handle true));
                 Reference.handle false; ReferenceMore.closedHandle];
        RETURNED_REALMS := [];
        files := tt;
        fsCalls := [CallReadDirectory "/data"; CallRemoveFile "/data/a.realm";
                    CallRemoveFile "/data/a.realm.lock"] |}).
Proof. reflexivity. Qed.

(** ** More on transactions *)

(** X4. When the begin of [write] fails (the handle is closed, or a
    transaction is open already), [write] raises that failure and the
    callback is not run: the outcome is the outcome of the begin, whatever
    the callback is. *)
Theorem write_begin_fails {T : Type} (callback : M Realm.t T)
    (this after : Realm.t) (e : Thrown) :
  Realm.beginTransaction this = (Throw e, after) ->
  Realm.write callback this = (Throw e, after).
Proof.
  intros Hbegin. unfold Realm.write, bind.
  fold Realm.beginTransaction. rewrite Hbegin. reflexivity.
Qed.

Lemma write_begin_fails_witness :
  Realm.write Reference.returningCallback (Reference.realm true)
  = (Throw (Error "The Realm is already in a write transaction"),
     {| Realm.internal := Reference.handle true;
        Realm.classes := Reference.classMap;
        Realm.schemaExtras := [];
        Realm.engineCalls := [CallBeginTransaction] |}).
Proof.
  apply (write_begin_fails Reference.returningCallback (Reference.realm true)).
  reflexivity.
Defined.

(** X5. What [write] raises when the engine refuses to end the
    transaction, on an idle handle.  If the callback raised [E] and the
    cancel fails, the failure of the cancel is raised and [E] is lost.
    If the callback returned and the commit fails, the failure of the
    commit is raised, the value is lost, and no cancel is attempted: the
    commit is the last call made into the engine. *)
Theorem write_end_fails {T : Type} (callback : M Realm.t T)
    (this after final : Realm.t) (e : Thrown) :
  Realm.isClosed this = false ->
  Realm.isInTransaction this = false ->
  (forall E, callback (afterBegin this) = (Throw E, after) ->
     Realm.cancelTransaction after = (Throw e, final) ->
     Realm.write callback this = (Throw e, final))
  /\ (forall v, callback (afterBegin this) = (Normal v, after) ->
        Realm.commitTransaction after = (Throw e, final) ->
        Realm.write callback this = (Throw e, final)
        /\ Realm.engineCalls final
           = (Realm.engineCalls after ++ [CallCommitTransaction])%list).
Proof.
  intros Hopen Hidle. split.
  - intros E Hcb Hcancel.
    rewrite (write_unfold callback this Hopen Hidle), Hcb, Hcancel.
    reflexivity.
  - intros v Hcb Hcommit.
    rewrite (write_unfold callback this Hopen Hidle), Hcb, Hcommit.
    split; [reflexivity|].
    unfold Realm.commitTransaction, Realm.engine in Hcommit.
    destruct (binding.commitTransaction (Realm.internal after)) as [c i].
    injection Hcommit as _ <-. reflexivity.
Qed.

Lemma write_end_fails_witness :
  Realm.write Reference.cancellingCallback (Reference.realm false)
  = (Throw (Error "Cannot cancel: not in a write transaction"),
     {| Realm.internal := Reference.handle false;
        Realm.classes := Reference.classMap;
        Realm.schemaExtras := [];
        Realm.engineCalls :=
          [CallBeginTransaction; CallCancelTransaction;
           CallCancelTransaction] |}).
Proof.
  apply (proj1 (write_end_fails Reference.cancellingCallback
                  (Reference.realm false)
                  (snd (Reference.cancellingCallback
                          (afterBegin (Reference.realm false))))
                  _ _ eq_refl eq_refl) (Error "callback failed"));
    reflexivity.
Defined.

(** ** More on delete *)

Lemma Obj_eqb_eq (a b : binding.Obj) : binding.Obj_eqb a b = true <-> a = b.
Proof.
  unfold binding.Obj_eqb. rewrite andb_true_iff, !Z.eqb_eq.
  destruct a, b; simpl. split; [intros [-> ->]; reflexivity|].
  intros [= -> ->]. split; reflexivity.
Qed.

Lemma Obj_eqb_sym (a b : binding.Obj) :
  binding.Obj_eqb a b = binding.Obj_eqb b a.
Proof. unfold binding.Obj_eqb. now rewrite (Z.eqb_sym (binding.obj_table a)),
  (Z.eqb_sym (binding.obj_key a)). Qed.

Lemma existsb_Obj_eqb (obj : binding.Obj) (rows : list binding.Obj) :
  existsb (binding.Obj_eqb obj) rows = true <-> In obj rows.
Proof.
  rewrite existsb_exists. split.
  - intros [o [Hin Heq]]. apply Obj_eqb_eq in Heq. now subst.
  - intros Hin. exists obj. split; [exact Hin | now apply Obj_eqb_eq].
Qed.

Lemma rowsOnly_refl (this : Realm.t) : rowsOnly this this.
Proof. repeat split. Qed.

Lemma rowsOnly_trans (a b c : Realm.t) :
  rowsOnly a b -> rowsOnly b c -> rowsOnly a c.
Proof.
  unfold rowsOnly. intros (?&?&?&?&?&?&?) (?&?&?&?&?&?&?).
  repeat split; congruence.
Qed.

Lemma getTable_rowsOnly (tableKey : Z) (this : Realm.t) :
  rowsOnly this (snd (Realm.getTable tableKey this)).
Proof.
  unfold Realm.getTable, Realm.engine, binding.whenOpen.
  destruct (binding.isClosed (Realm.internal this)); repeat split.
Qed.

Lemma removeObject_rowsOnly (tableKey objKey : Z) (this : Realm.t) :
  rowsOnly this
    (snd (Realm.engine (CallRemoveObject tableKey objKey)
            (binding.removeObject tableKey objKey) this)).
Proof.
  unfold Realm.engine, binding.removeObject, binding.whenOpen.
  destruct (binding.isClosed (Realm.internal this)) eqn:Hc;
    [repeat split; cbn; congruence|].
  destruct (existsb _ (binding.rows (Realm.internal this)));
    repeat split; cbn; congruence.
Qed.

Lemma delete_one_rowsOnly (item : DeleteItem) (this : Realm.t) :
  rowsOnly this (snd (Realm.delete_one item this)).
Proof.
  unfold Realm.delete_one, bind.
  destruct item as [object|v]; cbn [Realm.assert_instanceOf_RealmObject];
    [|apply rowsOnly_refl].
  cbn [ret]. unfold Realm.classes_getHelpers.
  destruct (getHelpers (Realm.classes this) (ClassInstance object))
    as [helpers|e]; [|apply rowsOnly_refl].
  pose proof (getTable_rowsOnly (bos_tableKey (objectSchema helpers)) this)
    as Htable.
  destruct (Realm.getTable (bos_tableKey (objectSchema helpers)) this)
    as [[table|e] this1]; cbn [snd] in *; [|exact Htable].
  destruct (ro_INTERNAL object) as [obj|]; [|exact Htable].
  eapply rowsOnly_trans; [exact Htable|]. apply removeObject_rowsOnly.
Qed.

Lemma delete_each_rowsOnly (items : list DeleteItem) :
  forall this, rowsOnly this (snd (Realm.delete_each items this)).
Proof.
  induction items as [|item rest IH]; intros this.
  - apply rowsOnly_refl.
  - cbn [Realm.delete_each]. unfold bind.
    pose proof (delete_one_rowsOnly item this) as Hone.
    destruct (Realm.delete_one item this) as [[[]|e] this1]; cbn [snd] in *.
    + eapply rowsOnly_trans; [exact Hone | apply IH].
    + exact Hone.
Qed.

Lemma delete_each_app (xs ys : list DeleteItem) :
  forall this,
    Realm.delete_each (xs ++ ys) this
    = match Realm.delete_each xs this with
      | (Normal _, mid) => Realm.delete_each ys mid
      | (Throw e, mid) => (Throw e, mid)
      end.
Proof.
  induction xs as [|x xs IH]; intros this.
  - reflexivity.
  - cbn [app Realm.delete_each]. unfold bind.
    destruct (Realm.delete_one x this) as [[[]|e] this1]; [apply IH|].
    reflexivity.
Qed.

Lemma delete_sequence_unfold (items : list DeleteItem) (this : Realm.t) :
  Realm.isInTransaction this = true ->
  Realm.delete (IsObject (SubjectArray items)) this
  = Realm.delete_each items this
  /\ Realm.delete (IsObject (SubjectIterable items)) this
     = Realm.delete_each items this.
Proof.
  intros Htx. unfold Realm.delete, bind.
  rewrite assert_inTransaction_passes by assumption. split; reflexivity.
Qed.

(** X6. Deleting a sequence is deleting its items one after the other,
    with no rollback: in a transaction, [delete] of [xs] followed by
    [ys] does what [delete] of [xs] does and then, if that returned,
    what [delete] of [ys] does on the handle as it is by then; if an
    item of [xs] fails, the removals made before it stay and [ys] is not
    looked at.  The empty sequence changes nothing. *)
Theorem delete_sequence_append (xs ys : list DeleteItem) (this : Realm.t) :
  Realm.isInTransaction this = true ->
  Realm.delete (IsObject (SubjectArray (xs ++ ys))) this
  = match Realm.delete (IsObject (SubjectArray xs)) this with
    | (Normal _, mid) => Realm.delete (IsObject (SubjectArray ys)) mid
    | (Throw e, mid) => (Throw e, mid)
    end
  /\ Realm.delete (IsObject (SubjectArray [])) this = (Normal tt, this).
Proof.
  intros Htx.
  rewrite !(proj1 (delete_sequence_unfold _ this Htx)). split; [|reflexivity].
  rewrite delete_each_app.
  pose proof (delete_each_rowsOnly xs this) as Hshape.
  destruct (Realm.delete_each xs this) as [[[]|e] mid]; [|reflexivity].
  cbn [snd] in Hshape. destruct Hshape as (_&_&_&Hmid&_).
  symmetry. apply delete_sequence_unfold.
  unfold Realm.isInTransaction in *. congruence.
Qed.

Lemma delete_sequence_append_witness :
  Realm.delete
    (IsObject (SubjectArray ([ItemObject Reference.liveDog]
                               ++ [ItemObject Reference.staleDog])))
    (Reference.realm true)
  = (Throw (Error "No object with key"),
     {| Realm.internal :=
          {| binding.isClosed := false; binding.isInTransaction := true;
             binding.schema := [Reference.dogTable; Reference.catTable];
             binding.schemaVersion := 3;
             binding.rows := [Reference.row 1 11; Reference.row 2 20];
             binding.persisted := Reference.snapshot |};
        Realm.classes := Reference.classMap;
        Realm.schemaExtras := [];
        Realm.engineCalls :=
          [CallGetTable 1; CallRemoveObject 1 10;
           CallGetTable 1; CallRemoveObject 1 99] |}).
Proof.
  rewrite (proj1 (delete_sequence_append [ItemObject Reference.liveDog]
                    [ItemObject Reference.staleDog] (Reference.realm true)
                    eq_refl)).
  reflexivity.
Defined.

Lemma delete_one_live (object : RealmObject) (obj : binding.Obj)
    (this : Realm.t) :
  Realm.isClosed this = false ->
  removable this object obj ->
  In obj (binding.rows (Realm.internal this)) ->
  exists final,
    Realm.delete_one (ItemObject object) this = (Normal tt, final)
    /\ binding.rows (Realm.internal final)
       = List.filter (fun o => negb (binding.Obj_eqb obj o))
           (binding.rows (Realm.internal this))
    /\ rowsOnly this final.
Proof.
  intros Hopen [Hobj [helpers [Hhelpers Htable]]] Hin.
  pose proof (delete_one_rowsOnly (ItemObject object) this) as Hshape.
  revert Hshape.
  unfold Realm.delete_one, bind. cbn [Realm.assert_instanceOf_RealmObject ret].
  unfold Realm.classes_getHelpers. rewrite Hhelpers, Hobj.
  unfold Realm.getTable, Realm.engine, binding.removeObject, binding.whenOpen.
  unfold Realm.isClosed in Hopen. rewrite Hopen. cbn [ret Realm.internal].
  rewrite Hopen, Htable.
  replace {| binding.obj_table := binding.obj_table obj;
             binding.obj_key := binding.obj_key obj |} with obj
    by (destruct obj; reflexivity).
  rewrite (proj2 (existsb_Obj_eqb obj _) Hin).
  intros Hshape. eexists. split; [reflexivity|].
  split; [reflexivity | exact Hshape].
Qed.

Lemma withoutRows_cons (obj : binding.Obj) (removed rows : list binding.Obj) :
  withoutRows removed
    (List.filter (fun o => negb (binding.Obj_eqb obj o)) rows)
  = withoutRows (obj :: removed) rows.
Proof.
  unfold withoutRows. induction rows as [|r rows IH]; [reflexivity|].
  cbn [List.filter existsb]. rewrite (Obj_eqb_sym r obj).
  destruct (binding.Obj_eqb obj r); cbn [negb orb List.filter].
  - exact IH.
  - destruct (existsb (binding.Obj_eqb r) removed); cbn [negb]; now rewrite IH.
Qed.

Lemma delete_each_live (objects : list RealmObject) :
  forall (objs : list binding.Obj) (this : Realm.t),
    Realm.isClosed this = false ->
    Forall2 (removable this) objects objs ->
    List.NoDup objs ->
    (forall obj, In obj objs -> In obj (binding.rows (Realm.internal this))) ->
    exists final,
      Realm.delete_each (map ItemObject objects) this = (Normal tt, final)
      /\ binding.rows (Realm.internal final)
         = withoutRows objs (binding.rows (Realm.internal this))
      /\ rowsOnly this final.
Proof.
  induction objects as [|object objects IH]; intros objs this Hopen Hall Hnodup Hlive.
  - inversion Hall; subst. exists this. split; [reflexivity|].
    split; [|apply rowsOnly_refl].
    unfold withoutRows. cbn [existsb negb].
    induction (binding.rows (Realm.internal this)) as [|r rows IHr];
      [reflexivity|]. cbn [List.filter]. now rewrite <- IHr.
  - inversion Hall as [|? obj ? objs' Hone Hrest]; subst.
    inversion Hnodup as [|? ? Hfresh Hnodup']; subst.
    destruct (delete_one_live object obj this Hopen Hone)
      as [mid [Hrun [Hrows Hshape]]]; [apply Hlive; left; reflexivity|].
    cbn [map Realm.delete_each]. unfold bind. rewrite Hrun.
    destruct Hshape as (Hclasses & Hextras & Hclosed & Htx & Hschema & Hv & Hp).
    destruct (IH objs' mid) as [final [Hrun' [Hrows' Hshape']]].
    + unfold Realm.isClosed in *. congruence.
    + eapply Forall2_impl; [exact Hrest|]. intros o ob [Ho [h [Hh Ht]]].
      split; [exact Ho|]. exists h. rewrite Hclasses. auto.
    + exact Hnodup'.
    + intros ob Hob. rewrite Hrows. apply filter_In. split.
      * apply Hlive. right. exact Hob.
      * apply negb_true_iff. destruct (binding.Obj_eqb obj ob) eqn:E;
          [|reflexivity]. apply Obj_eqb_eq in E. subst. contradiction.
    + exists final. split; [exact Hrun'|]. split.
      * rewrite Hrows', Hrows. apply withoutRows_cons.
      * eapply rowsOnly_trans; [|exact Hshape'].
        repeat split; assumption.
Qed.

(** X7. In a transaction on an open handle, [delete] of a sequence (an
    array or another iterable) of typed objects over distinct live rows,
    each of a class that resolves to the table of its row, returns
    normally and removes exactly those rows: the rows left are the
    earlier ones that are not among them, and nothing else of the handle
    changes. *)
Theorem delete_sequence_live (objects : list RealmObject)
    (objs : list binding.Obj) (this : Realm.t) :
  Realm.isClosed this = false ->
  Realm.isInTransaction this = true ->
  Forall2 (removable this) objects objs ->
  List.NoDup objs ->
  (forall obj, In obj objs -> In obj (binding.rows (Realm.internal this))) ->
  exists final,
    Realm.delete (IsObject (SubjectArray (map ItemObject objects))) this
    = (Normal tt, final)
    /\ Realm.delete (IsObject (SubjectIterable (map ItemObject objects))) this
       = (Normal tt, final)
    /\ binding.rows (Realm.internal final)
       = withoutRows objs (binding.rows (Realm.internal this))
    /\ rowsOnly this final.
Proof.
  intros Hopen Htx Hall Hnodup Hlive.
  destruct (delete_each_live objects objs this Hopen Hall Hnodup Hlive)
    as [final [Hrun [Hrows Hshape]]].
  exists final.
  destruct (delete_sequence_unfold (map ItemObject objects) this Htx)
    as [-> ->].
  auto.
Qed.

Lemma delete_sequence_live_witness :
  exists final,
    Realm.delete
      (IsObject (SubjectArray
                   (map ItemObject [Reference.liveDog; ReferenceMore.liveCat])))
      (Reference.realm true)
    = (Normal tt, final)
    /\ binding.rows (Realm.internal final) = [Reference.row 1 11].
Proof.
  destruct (delete_sequence_live [Reference.liveDog; ReferenceMore.liveCat]
              [Reference.row 1 10; Reference.row 2 20] (Reference.realm true))
    as [final [Hrun [_ [Hrows _]]]].
  - reflexivity.
  - reflexivity.
  - repeat constructor.
    + exists (Reference.helpersOf Reference.dogTable). split; reflexivity.
    + exists (Reference.helpersOf Reference.catTable). split; reflexivity.
  - repeat constructor; simpl; intuition discriminate.
  - simpl. intros obj [<- | [<- | []]]; auto.
  - exists final. split; [exact Hrun|]. rewrite Hrows. reflexivity.
Defined.

(** Naming the same object twice fails at its second occurrence, after
    its row has been removed. *)
Example delete_sequence_duplicate :
  Realm.delete
    (IsObject (SubjectArray [ItemObject Reference.liveDog;
                             ItemObject Reference.liveDog]))
    (Reference.realm true)
  = (Throw (Error "No object with key"),
     {| Realm.internal :=
          {| binding.isClosed := false; binding.isInTransaction := true;
             binding.schema := [Reference.dogTable; Reference.catTable];
             binding.schemaVersion := 3;
             binding.rows := [Reference.row 1 11; Reference.row 2 20];
             binding.persisted := Reference.snapshot |};
        Realm.classes := Reference.classMap;
        Realm.schemaExtras := [];
        Realm.engineCalls :=
          [CallGetTable 1; CallRemoveObject 1 10;
           CallGetTable 1; CallRemoveObject 1 10] |}).
Proof. reflexivity. Qed.

(** ** deleteAll *)

Lemma outsideSchema_cons (objectSchema : BindingObjectSchema)
    (schema : list BindingObjectSchema) (rows : list binding.Obj) :
  outsideSchema schema
    (List.filter
       (fun o => negb (binding.obj_table o =? bos_tableKey objectSchema)) rows)
  = outsideSchema (objectSchema :: schema) rows.
Proof.
  unfold outsideSchema. induction rows as [|r rows IH]; [reflexivity|].
  cbn [List.filter existsb].
  destruct (binding.obj_table r =? bos_tableKey objectSchema);
    cbn [negb orb List.filter].
  - exact IH.
  - destruct (existsb _ schema); cbn [negb]; now rewrite IH.
Qed.

Lemma outsideSchema_nil (rows : list binding.Obj) : outsideSchema [] rows = rows.
Proof.
  unfold outsideSchema. cbn [existsb negb].
  induction rows as [|r rows IH]; [reflexivity|].
  cbn [List.filter]. now rewrite IH.
Qed.

Lemma clear_each (schema : list BindingObjectSchema) :
  forall this : Realm.t,
    Realm.isClosed this = false ->
    exists final,
      forEach
        (fun objectSchema =>
           (table <- Realm.getTable (bos_tableKey objectSchema) ;;
            RealmMore.onHandle (binding.clear table))%js)
        schema this
      = (Normal tt, final)
      /\ binding.rows (Realm.internal final)
         = outsideSchema schema (binding.rows (Realm.internal this))
      /\ rowsOnly this final.
Proof.
  induction schema as [|objectSchema schema IH]; intros this Hopen.
  - exists this. split; [reflexivity|]. rewrite outsideSchema_nil.
    split; [reflexivity | apply rowsOnly_refl].
  - cbn [forEach]. unfold bind at 1. unfold bind at 1.
    unfold Realm.getTable, Realm.engine, RealmMore.onHandle, binding.clear,
      binding.whenOpen.
    unfold Realm.isClosed in Hopen. rewrite Hopen. cbn [ret Realm.internal].
    rewrite Hopen.
    match goal with
    | |- context [forEach _ schema ?mid] =>
        destruct (IH mid) as [final [Hrun [Hrows Hshape]]]; [reflexivity|]
    end.
    exists final. split; [exact Hrun|]. split.
    + rewrite Hrows. cbn [Realm.internal binding.rows].
      apply outsideSchema_cons.
    + eapply rowsOnly_trans; [|exact Hshape]. repeat split; cbn; congruence.
Qed.

(** X8. [deleteAll] raises outside a transaction and changes nothing
    then.  In a transaction on an open handle it returns normally; the
    rows left are those of the earlier rows that are in no table of the
    handle's schema, so no row of a declared class is left; the schema,
    its version, the class map and the transaction stay as they were. *)
Theorem deleteAll_spec (this : Realm.t) :
  (Realm.isInTransaction this = false ->
   RealmMore.deleteAll this
   = (Throw (AssertionError "Can only delete objects within a transaction."),
      this))
  /\ (Realm.isClosed this = false ->
      Realm.isInTransaction this = true ->
      exists final,
        RealmMore.deleteAll this = (Normal tt, final)
        /\ binding.rows (Realm.internal final)
           = outsideSchema (binding.schema (Realm.internal this))
               (binding.rows (Realm.internal this))
        /\ (forall o objectSchema,
              In o (binding.rows (Realm.internal final)) ->
              In objectSchema (binding.schema (Realm.internal this)) ->
              binding.obj_table o <> bos_tableKey objectSchema)
        /\ rowsOnly this final).
Proof.
  split.
  - intros Hidle. unfold RealmMore.deleteAll, bind.
    rewrite assert_inTransaction_fails by assumption. reflexivity.
  - intros Hopen Htx. unfold RealmMore.deleteAll, bind.
    rewrite assert_inTransaction_passes by assumption. cbn [get].
    destruct (clear_each (binding.schema (Realm.internal this)) this Hopen)
      as [final [Hrun [Hrows Hshape]]].
    exists final. split; [exact Hrun|]. split; [exact Hrows|].
    split; [|exact Hshape].
    intros o objectSchema Ho Hos Heq. rewrite Hrows in Ho.
    unfold outsideSchema in Ho. apply filter_In in Ho.
    destruct Ho as [_ Hout]. apply negb_true_iff in Hout.
    assert (Hin : existsb
      (fun os => binding.obj_table o =? bos_tableKey os)
      (binding.schema (Realm.internal this)) = true).
    { apply existsb_exists. exists objectSchema. split; [exact Hos|].
      now apply Z.eqb_eq. }
    congruence.
Qed.

Lemma deleteAll_spec_witness :
  RealmMore.deleteAll (Reference.realm false)
  = (Throw (AssertionError "Can only delete objects within a transaction."),
     Reference.realm false)
  /\ exists final,
       RealmMore.deleteAll (Reference.realm true) = (Normal tt, final)
       /\ binding.rows (Realm.internal final) = []
       /\ binding.schema (Realm.internal final)
          = [Reference.dogTable; Reference.catTable].
Proof.
  split.
  - apply (proj1 (deleteAll_spec (Reference.realm false))). reflexivity.
  - destruct (proj2 (deleteAll_spec (Reference.realm true)) eq_refl eq_refl)
      as [final [Hrun [Hrows [_ Hshape]]]].
    exists final. split; [exact Hrun|]. split.
    + rewrite Hrows. reflexivity.
    + destruct Hshape as (_&_&_&_&Hschema&_). rewrite Hschema. reflexivity.
Defined.

(** ** What delete and deleteModel leave alone *)

Lemma removeObject_rows_incl (tableKey objKey : Z) (this : Realm.t) :
  incl
    (binding.rows
       (Realm.internal
          (snd (Realm.engine (CallRemoveObject tableKey objKey)
                  (binding.removeObject tableKey objKey) this))))
    (binding.rows (Realm.internal this)).
Proof.
  unfold Realm.engine, binding.removeObject, binding.whenOpen.
  destruct (binding.isClosed (Realm.internal this)); [apply incl_refl|].
  destruct (existsb _ (binding.rows (Realm.internal this)));
    [|apply incl_refl].
  cbn. intros o Ho. apply filter_In in Ho. tauto.
Qed.

Lemma getTable_rows (tableKey : Z) (this : Realm.t) :
  binding.rows (Realm.internal (snd (Realm.getTable tableKey this)))
  = binding.rows (Realm.internal this).
Proof.
  unfold Realm.getTable, Realm.engine, binding.whenOpen.
  destruct (binding.isClosed (Realm.internal this)); reflexivity.
Qed.

Lemma delete_one_rows_incl (item : DeleteItem) (this : Realm.t) :
  incl (binding.rows (Realm.internal (snd (Realm.delete_one item this))))
    (binding.rows (Realm.internal this)).
Proof.
  unfold Realm.delete_one, bind.
  destruct item as [object|v]; cbn [Realm.assert_instanceOf_RealmObject];
    [|apply incl_refl].
  cbn [ret]. unfold Realm.classes_getHelpers.
  destruct (getHelpers (Realm.classes this) (ClassInstance object))
    as [helpers|e]; [|apply incl_refl].
  pose proof (getTable_rows (bos_tableKey (objectSchema helpers)) this)
    as Htable.
  destruct (Realm.getTable (bos_tableKey (objectSchema helpers)) this)
    as [[table|e] this1]; cbn [snd] in *;
    [|rewrite Htable; apply incl_refl].
  destruct (ro_INTERNAL object) as [obj|];
    [|cbn; rewrite Htable; apply incl_refl].
  rewrite <- Htable. apply removeObject_rows_incl.
Qed.

Lemma delete_each_rows_incl (items : list DeleteItem) :
  forall this,
    incl (binding.rows (Realm.internal (snd (Realm.delete_each items this))))
      (binding.rows (Realm.internal this)).
Proof.
  induction items as [|item rest IH]; intros this.
  - apply incl_refl.
  - cbn [Realm.delete_each]. unfold bind.
    pose proof (delete_one_rows_incl item this) as Hone.
    destruct (Realm.delete_one item this) as [[[]|e] this1]; cbn [snd] in *.
    + eapply incl_tran; [apply IH | exact Hone].
    + exact Hone.
Qed.

(** X9. Whatever its subject and whatever its outcome, [delete] changes
    nothing of the handle but its rows, and it only removes rows: the
    schema, its version, the class map, the schema extras, the open and
    transaction flags and what is persisted are as before, and every row
    left was there before. *)
Theorem delete_only_removes_rows (subject : Subject) (this : Realm.t) :
  rowsOnly this (snd (Realm.delete subject this))
  /\ incl (binding.rows (Realm.internal (snd (Realm.delete subject this))))
       (binding.rows (Realm.internal this)).
Proof.
  unfold Realm.delete, bind.
  destruct (Realm.isInTransaction this) eqn:Htx.
  2:{ rewrite assert_inTransaction_fails by assumption.
      split; [apply rowsOnly_refl | apply incl_refl]. }
  rewrite assert_inTransaction_passes by assumption.
  destruct subject as [[object|items|items|]|v]; cbn [Realm.assert_object ret];
    try (split; [apply rowsOnly_refl | apply incl_refl]);
    try (split; [apply delete_each_rowsOnly | apply delete_each_rows_incl]).
  unfold Realm.classes_getHelpers.
  destruct (getHelpers (Realm.classes this) (ClassInstance object))
    as [helpers|e]; [|split; [apply rowsOnly_refl | apply incl_refl]].
  unfold Realm.assert_isValid.
  destruct (ro_INTERNAL object) as [obj|];
    [|split; [apply rowsOnly_refl | apply incl_refl]].
  unfold bind, get, assert.
  destruct (binding.isValid (Realm.internal this) obj);
    [|split; [apply rowsOnly_refl | apply incl_refl]].
  cbn [ret].
  pose proof (getTable_rowsOnly (bos_tableKey (objectSchema helpers)) this)
    as Hshape.
  pose proof (getTable_rows (bos_tableKey (objectSchema helpers)) this)
    as Hrows.
  destruct (Realm.getTable (bos_tableKey (objectSchema helpers)) this)
    as [[table|e] this1]; cbn [snd] in *.
  - split.
    + eapply rowsOnly_trans; [exact Hshape | apply removeObject_rowsOnly].
    + rewrite <- Hrows. apply removeObject_rows_incl.
  - split; [exact Hshape | rewrite Hrows; apply incl_refl].
Qed.

(** X10. [deleteModel] does not rebuild the class map: whatever the
    outcome, the class map and the schema extras of the handle are the
    ones from before the call, so after a class has been deleted its
    helpers are still served to every lookup. *)
Theorem deleteModel_keeps_classes (name : string) (this : Realm.t) :
  Realm.classes (snd (Realm.deleteModel name this)) = Realm.classes this
  /\ Realm.schemaExtras (snd (Realm.deleteModel name this))
     = Realm.schemaExtras this
  /\ forall arg,
       Realm.classes_getHelpers arg (snd (Realm.deleteModel name this))
       = (getHelpers (Realm.classes this) arg,
          snd (Realm.deleteModel name this)).
Proof.
  assert (H : Realm.classes (snd (Realm.deleteModel name this))
              = Realm.classes this
              /\ Realm.schemaExtras (snd (Realm.deleteModel name this))
                 = Realm.schemaExtras this).
  { unfold Realm.deleteModel, bind.
    destruct (Realm.isInTransaction this) eqn:Htx.
    2:{ rewrite assert_inTransaction_fails by assumption.
        split; reflexivity. }
    rewrite assert_inTransaction_passes by assumption.
    unfold Realm.engine, get.
    destruct (binding.deleteDataForObject name (Realm.internal this))
      as [[[]|e] i]; [|split; reflexivity].
    cbn [Realm.internal].
    destruct (binding.updateSchema _ _ i) as [c i']. split; reflexivity. }
  destruct H as [Hclasses Hextras]. split; [exact Hclasses|].
  split; [exact Hextras|]. intros arg.
  unfold Realm.classes_getHelpers. now rewrite Hclasses.
Qed.

(** After the class "Dog" has been deleted, the schema of the handle no
    longer has it, and the class map still resolves it. *)
Example deleteModel_stale_helpers :
  binding.schema
    (Realm.internal (snd (Realm.deleteModel "Dog" (Reference.realm true))))
  = [Reference.catTable]
  /\ fst (Realm.classes_getHelpers (ClassName "Dog")
            (snd (Realm.deleteModel "Dog" (Reference.realm true))))
     = Normal (Reference.helpersOf Reference.dogTable).
Proof. split; reflexivity. Qed.

(** ** _updateSchema, compact and writeCopyTo *)

(** X11. [_updateSchema] validates and normalizes the schema before it
    looks at the transaction: a schema that fails either step raises
    that failure, in a transaction or not, and a good schema outside a
    transaction raises the transaction error; in each case the handle is
    untouched.  In a transaction on an open handle, the handle's schema
    becomes the engine form of the normalized schema, the version grows
    by exactly one, the class map is rebuilt from the updated handle, and
    the rows, the schema extras and the transaction are as before. *)
Theorem updateSchema_spec
    (validateRealmSchema : list ObjectSchema -> Completion unit)
    (normalizeRealmSchema :
       list ObjectSchema -> Completion (list CanonicalObjectSchema))
    (toBindingSchema : list CanonicalObjectSchema -> list BindingObjectSchema)
    (ClassMap_of : binding.Realm -> RealmSchemaExtra -> ClassMap)
    (schema : list ObjectSchema) (this : Realm.t) :
  let run :=
    RealmMore._updateSchema validateRealmSchema normalizeRealmSchema
      toBindingSchema ClassMap_of schema this in
  (forall e, validateRealmSchema schema = Throw e -> run = (Throw e, this))
  /\ (forall e, validateRealmSchema schema = Normal tt ->
        normalizeRealmSchema schema = Throw e -> run = (Throw e, this))
  /\ (forall normalized, validateRealmSchema schema = Normal tt ->
        normalizeRealmSchema schema = Normal normalized ->
        (Realm.isInTransaction this = false ->
         run = (Throw (Error "Can only create object schema within a transaction."),
                this))
        /\ (Realm.isClosed this = false ->
            Realm.isInTransaction this = true ->
            exists final,
              run = (Normal tt, final)
              /\ binding.schema (Realm.internal final)
                 = toBindingSchema normalized
              /\ binding.schemaVersion (Realm.internal final)
                 = binding.schemaVersion (Realm.internal this) + 1
              /\ Realm.classes final
                 = ClassMap_of (Realm.internal final) (Realm.schemaExtras this)
              /\ Realm.schemaExtras final = Realm.schemaExtras this
              /\ binding.rows (Realm.internal final)
                 = binding.rows (Realm.internal this)
              /\ Realm.isInTransaction final = true)).
Proof.
  intros run. subst run. unfold RealmMore._updateSchema, bind, Realm.lift.
  split; [|split].
  - intros e ->. reflexivity.
  - intros e -> ->. reflexivity.
  - intros normalized -> ->. cbn [get]. split.
    + intros ->. reflexivity.
    + intros Hopen Htx. rewrite Htx. cbn [negb].
      unfold Realm.engine, binding.updateSchema, binding.whenOpen.
      unfold Realm.isClosed, Realm.isInTransaction in *. rewrite Hopen.
      eexists. split; [reflexivity|]. cbn. repeat split. exact Htx.
Qed.

Lemma updateSchema_spec_witness :
  RealmMore._updateSchema (fun _ => Normal tt)
    (fun _ => Normal [Reference.dogCanonical]) Reference.toBindingSchema
    ReferenceMore.classMapOf [Reference.dogSchema] (Reference.realm false)
  = (Throw (Error "Can only create object schema within a transaction."),
     Reference.realm false)
  /\ exists final,
       RealmMore._updateSchema (fun _ => Normal tt)
         (fun _ => Normal [Reference.dogCanonical]) Reference.toBindingSchema
         ReferenceMore.classMapOf [Reference.dogSchema] (Reference.realm true)
       = (Normal tt, final)
       /\ binding.schemaVersion (Realm.internal final) = 4.
Proof.
  destruct (proj2 (proj2 (updateSchema_spec (fun _ => Normal tt)
                            (fun _ => Normal [Reference.dogCanonical])
                            Reference.toBindingSchema ReferenceMore.classMapOf
                            [Reference.dogSchema] (Reference.realm false)))
              [Reference.dogCanonical] eq_refl eq_refl) as [Hidle _].
  destruct (proj2 (proj2 (updateSchema_spec (fun _ => Normal tt)
                            (fun _ => Normal [Reference.dogCanonical])
                            Reference.toBindingSchema ReferenceMore.classMapOf
                            [Reference.dogSchema] (Reference.realm true)))
              [Reference.dogCanonical] eq_refl eq_refl) as [_ Hactive].
  split.
  - apply Hidle. reflexivity.
  - destruct (Hactive eq_refl eq_refl) as [final [Hrun [_ [Hversion _]]]].
    exists final. split; [exact Hrun|]. rewrite Hversion. reflexivity.
Defined.

(** X12. [compact] and [writeCopyTo] refuse to run inside a transaction:
    each raises its own assertion first, before the configuration is
    validated or resolved and before anything is asked of the engine,
    and leaves the handle as it was.  Outside a transaction [compact] is
    the engine's [compact]. *)
Theorem compact_and_copy_outside_transaction
    (compact_ : M binding.Realm bool) (this : Realm.t) :
  (Realm.isInTransaction this = true ->
   RealmMore.compact compact_ this
   = (Throw (AssertionError "Cannot compact a Realm within a transaction."),
      this)
   /\ forall fs dp validateConfiguration normalizeRealmSchema toBindingSchema
        convert config,
        Realm.writeCopyTo fs dp validateConfiguration normalizeRealmSchema
          toBindingSchema convert config this
        = (Throw (AssertionError
                    "Can only convert Realms outside a transaction."),
           this))
  /\ (Realm.isInTransaction this = false ->
      RealmMore.compact compact_ this = RealmMore.onHandle compact_ this).
Proof.
  split.
  - intros Htx. split.
    + unfold RealmMore.compact, bind, Realm.assert_outTransaction, get, assert.
      cbn. rewrite Htx. reflexivity.
    + intros. unfold Realm.writeCopyTo, bind, Realm.assert_outTransaction,
        get, assert. cbn. rewrite Htx. reflexivity.
  - intros Hidle.
    unfold RealmMore.compact, bind, Realm.assert_outTransaction, get, assert.
    cbn. rewrite Hidle. reflexivity.
Qed.

Lemma compact_and_copy_outside_transaction_witness :
  RealmMore.compact (fun r => (Normal true, r)) (Reference.realm true)
  = (Throw (AssertionError "Cannot compact a Realm within a transaction."),
     Reference.realm true)
  /\ Realm.writeCopyTo Reference.fs Reference.defaultPath
       (fun _ => Throw (Error "invalid")) (fun _ => Normal [])
       Reference.toBindingSchema (fun _ r => (Normal tt, r))
       (Configuration.of_path "") (Reference.realm true)
     = (Throw (AssertionError "Can only convert Realms outside a transaction."),
        Reference.realm true).
Proof.
  destruct (proj1 (compact_and_copy_outside_transaction
                     (fun r => (Normal true, r)) (Reference.realm true))
              eq_refl) as [Hcompact Hcopy].
  split; [exact Hcompact | apply Hcopy].
Defined.

(** ** More on objectForPrimaryKey *)

(** X13. In [objectForPrimaryKey], a failure of the key lookup or of the
    row fetch that is an [Error] whose message starts with
    "No object with key" is not passed on: what is raised instead is a
    new error, "No '<class>' with key '<key>'", whatever else the engine's
    message said. *)
Theorem objectForPrimaryKey_not_found
    (findPrimaryKey : Z -> JsValue -> M binding.Realm JsValue)
    (getObject : Z -> Z -> M binding.Realm binding.Obj)
    (toString : JsValue -> string)
    (type : ClassIdentifier) (primaryKey : JsValue) (this : Realm.t)
    (helpers : ClassHelpers) (pk : string) (value : JsValue) :
  getHelpers (Realm.classes this) type = Normal helpers ->
  Realm.declaredPrimaryKey (objectSchema helpers) = Some pk ->
  Realm.isClosed this = false ->
  toBinding helpers pk primaryKey = Normal value ->
  let run :=
    Realm.objectForPrimaryKey findPrimaryKey getObject toString type
      primaryKey this in
  let table := bos_tableKey (objectSchema helpers) in
  let replaced :=
    Throw (Error ("No '" ++ bos_name (objectSchema helpers) ++ "' with key '"
                    ++ toString primaryKey ++ "'")) in
  (forall err i,
     findPrimaryKey table value (Realm.internal this) = (Throw err, i) ->
     isNotFoundError err = true -> fst run = replaced)
  /\ (forall objKey err i i',
        findPrimaryKey table value (Realm.internal this)
        = (Normal (VBigInt objKey), i) ->
        objKey <> -1 ->
        getObject table objKey i = (Throw err, i') ->
        isNotFoundError err = true -> fst run = replaced).
Proof.
  intros Hresolved Hpk Hopen Hvalue run table replaced.
  pose proof (objectForPrimaryKey_lookup findPrimaryKey getObject toString
                type primaryKey this helpers Hresolved pk value
                Hpk Hopen Hvalue) as Hrun.
  fold run table in Hrun. split.
  - intros err i Hfind Hnf. rewrite Hfind, Hnf in Hrun. exact Hrun.
  - intros objKey err i i' Hfind Hne Hget Hnf.
    apply Z.eqb_neq in Hne. rewrite Hfind, Hne, Hget, Hnf in Hrun. exact Hrun.
Qed.

Lemma objectForPrimaryKey_not_found_witness :
  fst (Realm.objectForPrimaryKey
         (fun _ _ r => (Normal (VBigInt 77), r))
         Reference.getObject Reference.toString (ClassName "Dog")
         (VString "Rex") (Reference.realm false))
  = Throw (Error "No 'Dog' with key 'Rex'").
Proof.
  apply (proj2 (objectForPrimaryKey_not_found
                  (fun _ _ r => (Normal (VBigInt 77), r))
                  Reference.getObject Reference.toString (ClassName "Dog")
                  (VString "Rex") (Reference.realm false)
                  (Reference.helpersOf Reference.dogTable) "name"
                  (VString "Rex") eq_refl eq_refl eq_refl eq_refl)
           77 (Error "No object with key") (Reference.handle false)
           (Reference.handle false));
    [reflexivity | discriminate | reflexivity | reflexivity].
Defined.

(** X14. What [objectForPrimaryKey] raises as it is.  A class that does
    not resolve raises the class map's error with nothing asked of the
    engine.  A key that cannot be encoded raises the encoder's error
    unchanged, even one that reads like the engine's not-found error,
    because the encoding is outside the [try].  A key lookup that
    answers with something that is not a [bigint] raises the type
    assertion. *)
Theorem objectForPrimaryKey_passes_on
    (findPrimaryKey : Z -> JsValue -> M binding.Realm JsValue)
    (getObject : Z -> Z -> M binding.Realm binding.Obj)
    (toString : JsValue -> string)
    (type : ClassIdentifier) (primaryKey : JsValue) (this : Realm.t) :
  let run :=
    Realm.objectForPrimaryKey findPrimaryKey getObject toString type
      primaryKey this in
  (forall e, getHelpers (Realm.classes this) type = Throw e ->
     run = (Throw e, this))
  /\ (forall helpers pk,
        getHelpers (Realm.classes this) type = Normal helpers ->
        Realm.declaredPrimaryKey (objectSchema helpers) = Some pk ->
        Realm.isClosed this = false ->
        (forall e, toBinding helpers pk primaryKey = Throw e ->
           fst run = Throw e
           /\ Realm.engineCalls (snd run)
              = (Realm.engineCalls this
                 ++ [CallGetTable (bos_tableKey (objectSchema helpers))])%list)
        /\ (forall value answer i,
              toBinding helpers pk primaryKey = Normal value ->
              findPrimaryKey (bos_tableKey (objectSchema helpers)) value
                (Realm.internal this) = (Normal answer, i) ->
              (forall n, answer <> VBigInt n) ->
              fst run = Throw (TypeAssertionError "a bigint" "value"))).
Proof.
  intros run. split.
  - intros e He. subst run.
    unfold Realm.objectForPrimaryKey, bind, Realm.classes_getHelpers.
    rewrite He. reflexivity.
  - intros helpers pk Hresolved Hpk Hopen. split.
    + intros e He. subst run.
      unfold Realm.objectForPrimaryKey, bind, Realm.classes_getHelpers.
      rewrite Hresolved, Hpk.
      unfold Realm.getTable, Realm.engine, binding.whenOpen, Realm.lift.
      unfold Realm.isClosed in Hopen. rewrite Hopen. cbn [ret Realm.internal].
      rewrite He. split; reflexivity.
    + intros value answer i Hvalue Hfind Hnot.
      pose proof (objectForPrimaryKey_lookup findPrimaryKey getObject toString
                    type primaryKey this helpers Hresolved pk value
                    Hpk Hopen Hvalue) as Hrun.
      fold run in Hrun. rewrite Hfind in Hrun.
      destruct answer as [| | | |n| | |]; try exact Hrun.
      now destruct (Hnot n).
Qed.

Lemma objectForPrimaryKey_passes_on_witness :
  Realm.objectForPrimaryKey Reference.findPrimaryKey Reference.getObject
    Reference.toString (ClassName "Bird") (VString "Rex")
    (Reference.realm false)
  = (Throw (Error "Object type not found in schema."), Reference.realm false)
  /\ fst (Realm.objectForPrimaryKey
            (fun _ _ r => (Normal (VNumber (Int 10)), r))
            Reference.getObject Reference.toString (ClassName "Dog")
            (VString "Rex") (Reference.realm false))
     = Throw (TypeAssertionError "a bigint" "value").
Proof.
  split.
  - apply (proj1 (objectForPrimaryKey_passes_on Reference.findPrimaryKey
                    Reference.getObject Reference.toString (ClassName "Bird")
                    (VString "Rex") (Reference.realm false))).
    reflexivity.
  - destruct (proj2 (objectForPrimaryKey_passes_on
                       (fun _ _ r => (Normal (VNumber (Int 10)), r))
                       Reference.getObject Reference.toString
                       (ClassName "Dog") (VString "Rex")
                       (Reference.realm false))
                (Reference.helpersOf Reference.dogTable) "name"
                eq_refl eq_refl eq_refl) as [_ Hanswer].
    apply (Hanswer (VString "Rex") (VNumber (Int 10)) (Reference.handle false));
      [reflexivity | reflexivity | discriminate].
Defined.

(** ** More on create *)

(** X15. [create] hands on to [RealmObject.create] only a mode among
    never, modified and all, only helpers that the class map resolved for
    the requested class, and only after [verifyOpen] succeeded.  For
    every argument and handle, either [create] raises without consulting
    [RealmObject.create] at all (its outcome is the same for every such
    function), or its outcome is exactly that of [RealmObject.create] on
    the given values, a valid mode and the resolved helpers. *)
Theorem create_hands_on
    (type : ClassIdentifier) (values : CreateValues) (mode : JsValue)
    (this : Realm.t) :
  (exists e after,
     forall RealmObject_create,
       Realm.create RealmObject_create type values mode this
       = (Throw e, after))
  \/ (exists m helpers after,
        In m UpdateMode.values
        /\ getHelpers (Realm.classes this) type = Normal helpers
        /\ Realm.engine CallVerifyOpen binding.verifyOpen this
           = (Normal tt, after)
        /\ forall RealmObject_create,
             Realm.create RealmObject_create type values mode this
             = RealmObject_create values m helpers after).
Proof.
  unfold Realm.create.
  destruct (Realm.isDetached values); [left; eauto|].
  set (defaulted := match mode with
                    | VUndefined => VString UpdateMode.Never
                    | _ => mode
                    end).
  set (normalized := match defaulted with
                     | VBool true => VString UpdateMode.All
                     | VBool false => VString UpdateMode.Never
                     | _ => defaulted
                     end).
  destruct (Realm.asUpdateMode normalized) as [m|] eqn:Hmode; [|left; eauto].
  assert (Hin : In m UpdateMode.values).
  { unfold Realm.asUpdateMode in Hmode. destruct normalized; try discriminate.
    destruct (existsb (String.eqb s) UpdateMode.values) eqn:E;
      [|discriminate].
    injection Hmode as <-. apply existsb_exists in E.
    destruct E as [x [Hx Heq]]. apply String.eqb_eq in Heq. now subst. }
  unfold bind, Realm.classes_getHelpers.
  destruct (Realm.engine CallVerifyOpen binding.verifyOpen this)
    as [[[]|e] after] eqn:Hopen; [|left; eauto].
  assert (Hclasses : Realm.classes after = Realm.classes this).
  { unfold Realm.engine in Hopen.
    destruct (binding.verifyOpen (Realm.internal this)).
    injection Hopen as _ <-. reflexivity. }
  rewrite Hclasses.
  destruct (getHelpers (Realm.classes this) type) as [helpers|e] eqn:Hh;
    [|left; eauto].
  right. exists m, helpers, after. auto.
Qed.

(** On a closed handle the class is not even looked up. *)
Example create_closed_handle :
  fst (Realm.create Reference.RealmObject_create (ClassName "Bird")
         (ValuesPlain []) (VString "all")
         {| Realm.internal := ReferenceMore.closedHandle;
            Realm.classes := Reference.classMap;
            Realm.schemaExtras := [];
            Realm.engineCalls := [] |})
  = Throw binding.closedError.
Proof. reflexivity. Qed.

(** ** More on the engine open parameters *)

Lemma transformConfig_unfold (fs : FileSystem) (dp : string)
    (toBindingSchema : list CanonicalObjectSchema -> list BindingObjectSchema)
    (config : Configuration.t)
    (normalizedSchema : option (list CanonicalObjectSchema))
    (path : string) :
  Realm.determinePath fs dp config = Normal path ->
  truthy (Configuration.readOnly config)
  && truthy (Configuration.deleteRealmIfMigrationNeeded config) = false ->
  Realm.transformConfig fs dp toBindingSchema config normalizedSchema
  = cbind
      (match Configuration.schema config with
       | Some _ =>
           match Configuration.schemaVersion config with
           | VNumber x => cbind (BigInt_of_Number x) (fun n => Normal (Some n))
           | _ => Normal (Some 0)
           end
       | None => Normal None
       end)
      (fun schemaVersion =>
         Normal
           {| RealmConfig.path := path;
              RealmConfig.fifoFilesFallbackPath :=
                Configuration.fifoFilesFallbackPath config;
              RealmConfig.schema := option_map toBindingSchema normalizedSchema;
              RealmConfig.inMemory :=
                match Configuration.inMemory config with
                | Some true => true
                | _ => false
                end;
              RealmConfig.schemaMode :=
                if truthy (Configuration.readOnly config) then Some Immutable
                else if truthy (Configuration.deleteRealmIfMigrationNeeded config)
                     then Some ResetFile else None;
              RealmConfig.schemaVersion := schemaVersion;
              RealmConfig.shouldCompactOnLaunchFunction :=
                match Configuration.shouldCompactOnLaunch config with
                | Some f =>
                    Some (fun totalBytes usedBytes =>
                            f (Number_of_BigInt totalBytes)
                              (Number_of_BigInt usedBytes))
                | None => None
                end;
              RealmConfig.disableFormatUpgrade :=
                Configuration.disableFormatUpgrade config |}).
Proof.
  intros Hpath Hflags. unfold Realm.transformConfig.
  rewrite Hpath. cbn [cbind].
  rewrite (determineSchemaMode_total config Hflags). reflexivity.
Qed.

(** X16. [transformConfig] returns exactly when the path is not the
    empty string, the flags [readOnly] and [deleteRealmIfMigrationNeeded]
    are not both set, and the schema version is not a non-integer number
    given along with a schema.  What it returns then carries the
    resolved path, the engine form of the normalized schema, [inMemory]
    only for an explicit [true], and the schema mode [Immutable] for
    [readOnly], [ResetFile] for [deleteRealmIfMigrationNeeded] alone, and
    none otherwise. *)
Theorem transformConfig_resolves (fs : FileSystem) (dp : string)
    (toBindingSchema : list CanonicalObjectSchema -> list BindingObjectSchema)
    (config : Configuration.t)
    (normalizedSchema : option (list CanonicalObjectSchema)) :
  let run :=
    Realm.transformConfig fs dp toBindingSchema config normalizedSchema in
  ((exists params, run = Normal params)
   <-> Configuration.path config <> Some ""
       /\ truthy (Configuration.readOnly config)
          && truthy (Configuration.deleteRealmIfMigrationNeeded config) = false
       /\ ~ (Configuration.schema config <> None
             /\ Configuration.schemaVersion config = VNumber NonInteger))
  /\ forall params, run = Normal params ->
       Realm.determinePath fs dp config = Normal (RealmConfig.path params)
       /\ RealmConfig.schema params = option_map toBindingSchema normalizedSchema
       /\ (RealmConfig.inMemory params = true
           <-> Configuration.inMemory config = Some true)
       /\ (RealmConfig.schemaMode params = Some Immutable
           <-> truthy (Configuration.readOnly config) = true)
       /\ (RealmConfig.schemaMode params = Some ResetFile
           <-> truthy (Configuration.readOnly config) = false
               /\ truthy (Configuration.deleteRealmIfMigrationNeeded config)
                  = true)
       /\ RealmConfig.fifoFilesFallbackPath params
          = Configuration.fifoFilesFallbackPath config
       /\ RealmConfig.disableFormatUpgrade params
          = Configuration.disableFormatUpgrade config.
Proof.
  intros run. subst run. split.
  - split.
    + intros [params Hrun]. unfold Realm.transformConfig in Hrun.
      destruct (Realm.determinePath fs dp config) as [path|e] eqn:Hpath;
        [|discriminate].
      cbn [cbind] in Hrun.
      destruct (truthy (Configuration.readOnly config)
                && truthy (Configuration.deleteRealmIfMigrationNeeded config))
        eqn:Hflags.
      { apply andb_true_iff in Hflags. destruct Hflags as [Hr Hd].
        rewrite (proj1 (determineSchemaMode_exclusive fs dp config Hr Hd))
          in Hrun. discriminate. }
      rewrite (determineSchemaMode_total config Hflags) in Hrun.
      cbn [cbind] in Hrun. split; [|split; [reflexivity|]].
      * intros Hempty. unfold Realm.determinePath in Hpath.
        rewrite Hempty in Hpath. discriminate.
      * intros [Hschema Hversion]. rewrite Hversion in Hrun.
        destruct (Configuration.schema config); [discriminate | congruence].
    + intros [Hp [Hflags Hversion]].
      destruct (determinePath_total fs dp config Hp) as [path Hpath].
      rewrite (transformConfig_unfold fs dp toBindingSchema config
                 normalizedSchema path Hpath Hflags).
      destruct (Configuration.schema config) as [schema|];
        [|eexists; reflexivity].
      destruct (Configuration.schemaVersion config) as [| | |[n|]| | | |];
        try (eexists; reflexivity).
      destruct Hversion. split; [discriminate | reflexivity].
  - intros params Hrun. unfold Realm.transformConfig in Hrun.
    destruct (Realm.determinePath fs dp config) as [path|e] eqn:Hpath;
      [|discriminate].
    cbn [cbind] in Hrun.
    destruct (truthy (Configuration.readOnly config)
              && truthy (Configuration.deleteRealmIfMigrationNeeded config))
      eqn:Hflags.
    { apply andb_true_iff in Hflags. destruct Hflags as [Hr Hd].
      rewrite (proj1 (determineSchemaMode_exclusive fs dp config Hr Hd))
        in Hrun. discriminate. }
    rewrite (determineSchemaMode_total config Hflags) in Hrun.
    cbn [cbind] in Hrun.
    destruct (match Configuration.schema config with
              | Some _ =>
                  match Configuration.schemaVersion config with
                  | VNumber x =>
                      cbind (BigInt_of_Number x) (fun n => Normal (Some n))
                  | _ => Normal (Some 0)
                  end
              | None => Normal None
              end) as [version|e]; [|discriminate].
    cbn [cbind] in Hrun. injection Hrun as <-.
    cbn [RealmConfig.path RealmConfig.schema RealmConfig.inMemory
         RealmConfig.schemaMode RealmConfig.fifoFilesFallbackPath
         RealmConfig.disableFormatUpgrade].
    split; [reflexivity|]. split; [reflexivity|]. split.
    { destruct (Configuration.inMemory config) as [[|]|];
        split; congruence. }
    split.
    { destruct (truthy (Configuration.readOnly config));
        [split; reflexivity|].
      destruct (truthy (Configuration.deleteRealmIfMigrationNeeded config));
        split; congruence. }
    split.
    { destruct (truthy (Configuration.readOnly config)).
      - split; [discriminate | intros [H _]; discriminate].
      - destruct (truthy (Configuration.deleteRealmIfMigrationNeeded config)).
        + split; [split; reflexivity | reflexivity].
        + split; [discriminate | intros [_ H]; discriminate]. }
    split; reflexivity.
Qed.

Lemma transformConfig_resolves_witness :
  exists params,
    Realm.transformConfig Reference.fs Reference.defaultPath
      Reference.toBindingSchema Reference.versionedConfig
      (Some [Reference.dogCanonical]) = Normal params
    /\ RealmConfig.path params = "/data/a.realm"
    /\ RealmConfig.inMemory params = false.
Proof.
  destruct (transformConfig_resolves Reference.fs Reference.defaultPath
              Reference.toBindingSchema Reference.versionedConfig
              (Some [Reference.dogCanonical])) as [Hiff Hfields].
  destruct (proj2 Hiff) as [params Hrun].
  - split; [discriminate|]. split; [reflexivity|].
    intros [_ H]. discriminate.
  - exists params. split; [exact Hrun|].
    destruct (Hfields params Hrun) as [Hpath [_ [HinMemory _]]].
    split.
    + simpl in Hpath. injection Hpath as <-. reflexivity.
    + destruct (RealmConfig.inMemory params); [|reflexivity].
      pose proof (proj1 HinMemory eq_refl) as H. discriminate H.
Defined.

(** X17. The compaction callback handed to the engine exists exactly
    when the configuration has one, and it answers as the user's
    callback does on the byte counts converted to numbers: on the very
    same counts whenever both are below [2^53], so that no precision is
    lost there. *)
Theorem shouldCompactOnLaunch_exact (fs : FileSystem) (dp : string)
    (toBindingSchema : list CanonicalObjectSchema -> list BindingObjectSchema)
    (config : Configuration.t)
    (normalizedSchema : option (list CanonicalObjectSchema))
    (params : RealmConfig.t) :
  Realm.transformConfig fs dp toBindingSchema config normalizedSchema
  = Normal params ->
  (Configuration.shouldCompactOnLaunch config = None ->
   RealmConfig.shouldCompactOnLaunchFunction params = None)
  /\ (forall f, Configuration.shouldCompactOnLaunch config = Some f ->
        exists g,
          RealmConfig.shouldCompactOnLaunchFunction params = Some g
          /\ (forall totalBytes usedBytes,
                g totalBytes usedBytes
                = f (Number_of_BigInt totalBytes) (Number_of_BigInt usedBytes))
          /\ (forall totalBytes usedBytes,
                0 <= totalBytes < 2 ^ 53 -> 0 <= usedBytes < 2 ^ 53 ->
                g totalBytes usedBytes = f totalBytes usedBytes)).
Proof.
  intros Hrun. unfold Realm.transformConfig in Hrun.
  destruct (Realm.determinePath fs dp config) as [path|e]; [|discriminate].
  cbn [cbind] in Hrun.
  destruct (Realm.determineSchemaMode config) as [mode|e]; [|discriminate].
  cbn [cbind] in Hrun.
  destruct (match Configuration.schema config with
            | Some _ =>
                match Configuration.schemaVersion config with
                | VNumber x =>
                    cbind (BigInt_of_Number x) (fun n => Normal (Some n))
                | _ => Normal (Some 0)
                end
            | None => Normal None
            end) as [version|e]; [|discriminate].
  cbn [cbind] in Hrun. injection Hrun as <-.
  cbn [RealmConfig.shouldCompactOnLaunchFunction]. split.
  - intros ->. reflexivity.
  - intros f ->. eexists. split; [reflexivity|]. split; [reflexivity|].
    intros totalBytes usedBytes Ht Hu.
    rewrite !Number_of_BigInt_small by (rewrite Z.abs_eq; lia).
    reflexivity.
Qed.

Lemma shouldCompactOnLaunch_exact_witness :
  exists params g,
    Realm.transformConfig Reference.fs Reference.defaultPath
      Reference.toBindingSchema
      {| Configuration.path := Some "a.realm";
         Configuration.schema := None;
         Configuration.schemaVersion := VUndefined;
         Configuration.inMemory := None;
         Configuration.readOnly := None;
         Configuration.deleteRealmIfMigrationNeeded := None;
         Configuration.fifoFilesFallbackPath := None;
         Configuration.shouldCompactOnLaunch :=
           Some (fun totalBytes usedBytes => 2 * usedBytes <? totalBytes);
         Configuration.disableFormatUpgrade := None;
         Configuration.sync := false |} None = Normal params
    /\ RealmConfig.shouldCompactOnLaunchFunction params = Some g
    /\ g 1000 400 = true.
Proof.
  eexists.
  destruct (proj2 (shouldCompactOnLaunch_exact Reference.fs
                     Reference.defaultPath Reference.toBindingSchema
                     {| Configuration.path := Some "a.realm";
                        Configuration.schema := None;
                        Configuration.schemaVersion := VUndefined;
                        Configuration.inMemory := None;
                        Configuration.readOnly := None;
                        Configuration.deleteRealmIfMigrationNeeded := None;
                        Configuration.fifoFilesFallbackPath := None;
                        Configuration.shouldCompactOnLaunch :=
                          Some (fun totalBytes usedBytes =>
                                  2 * usedBytes <? totalBytes);
                        Configuration.disableFormatUpgrade := None;
                        Configuration.sync := false |} None _ eq_refl)
              _ eq_refl) as [g [Hg [_ Hexact]]].
  exists g. split; [reflexivity|]. split; [exact Hg|].
  rewrite Hexact by lia. reflexivity.
Defined.

(** ** More on paths *)

(** X18. On a platform where a path joined to the default directory is
    absolute and the empty string is not, every path that
    [normalizePath] returns for a given path is absolute and resolves to
    itself: resolving twice is resolving once. *)
Theorem normalizePath_idempotent (fs : FileSystem) (dp path resolved : string) :
  (forall p, isAbsolutePath fs (joinPaths fs (getDefaultDirectoryPath fs) p)
             = true) ->
  isAbsolutePath fs "" = false ->
  Realm.normalizePath fs dp (Some path) = Normal resolved ->
  isAbsolutePath fs resolved = true
  /\ Realm.normalizePath fs dp (Some resolved) = Normal resolved.
Proof.
  intros Hjoin Hempty Hrun.
  assert (Habs : isAbsolutePath fs resolved = true).
  { unfold Realm.normalizePath in Hrun.
    destruct (String.length path =? 0)%nat; [discriminate|].
    destruct (isAbsolutePath fs path) eqn:Hp; injection Hrun as <-;
      [exact Hp | apply Hjoin]. }
  split; [exact Habs|].
  rewrite normalizePath_nonempty by (intros ->; congruence).
  now rewrite Habs.
Qed.

Lemma normalizePath_idempotent_witness :
  isAbsolutePath Reference.fs "/data/a.realm" = true
  /\ Realm.normalizePath Reference.fs Reference.defaultPath
       (Some "/data/a.realm") = Normal "/data/a.realm".
Proof.
  apply (normalizePath_idempotent Reference.fs Reference.defaultPath
           "a.realm" "/data/a.realm");
    [intros p; reflexivity | reflexivity | reflexivity].
Defined.

(** ** More on the schema version *)

(** X19. The schema version of a handle and the static
    [Realm.schemaVersion] of its file, for a handle whose version is the
    one the engine reports for the file: both are that version itself
    when it is below [2^53]; over all unsigned 64-bit versions they
    differ exactly on the unversioned sentinel [2^64 - 1], which the
    static maps to [-1] and the instance getter converts to a number
    like any other version. *)
Theorem schemaVersion_getter_and_static (fs : FileSystem) (dp : string)
    (getSchemaVersion : string -> Completion Z)
    (path absolutePath : string) (this : Realm.t) :
  let v := binding.schemaVersion (Realm.internal this) in
  Realm.determinePath fs dp (Configuration.of_path path) = Normal absolutePath ->
  getSchemaVersion absolutePath = Normal v ->
  0 <= v < 2 ^ 64 ->
  (Realm.schemaVersion fs dp getSchemaVersion path None
   = Normal (RealmMore.schemaVersion this)
   <-> v <> 2 ^ 64 - 1)
  /\ (v < 2 ^ 53 ->
      RealmMore.schemaVersion this = VNumber (Int v)
      /\ Realm.schemaVersion fs dp getSchemaVersion path None
         = Normal (VNumber (Int v)))
  /\ (v = 2 ^ 64 - 1 -> RealmMore.schemaVersion this = VNumber (Int (2 ^ 64))).
Proof.
  intros v Hpath Hv Hrange.
  assert (Hstatic :
    Realm.schemaVersion fs dp getSchemaVersion path None
    = if v =? 2 ^ 64 - 1 then Normal (VNumber (Int (-1)))
      else Normal (VNumber (Int (Number_of_BigInt v)))).
  { unfold Realm.schemaVersion. rewrite Hpath. cbn [cbind].
    rewrite Hv. reflexivity. }
  unfold RealmMore.schemaVersion. fold v. rewrite Hstatic.
  split; [|split].
  - destruct (Z.eqb_spec v (2 ^ 64 - 1)) as [Heq|Hne].
    + split; [|contradiction]. intros H. injection H as H.
      pose proof (Number_of_BigInt_nonneg v (proj1 Hrange)). lia.
    + split; [auto | reflexivity].
  - intros Hsmall.
    rewrite Number_of_BigInt_small by (rewrite Z.abs_eq; lia).
    split; [reflexivity|].
    destruct (Z.eqb_spec v (2 ^ 64 - 1)); [lia | reflexivity].
  - intros ->. reflexivity.
Qed.

Lemma schemaVersion_getter_and_static_witness :
  RealmMore.schemaVersion (Reference.realm false) = VNumber (Int 3)
  /\ Realm.schemaVersion Reference.fs Reference.defaultPath
       (fun _ => Normal 3) "a.realm" None
     = Normal (VNumber (Int 3)).
Proof.
  apply (proj1 (proj2 (schemaVersion_getter_and_static Reference.fs
                         Reference.defaultPath (fun _ => Normal 3) "a.realm"
                         "/data/a.realm" (Reference.realm false)
                         eq_refl eq_refl ltac:(simpl; lia)))).
  simpl. lia.
Defined.

(** X20. When the static [Realm.schemaVersion] raises.  With an
    encryption key it raises "Not yet supported" whatever the path and
    the engine; for the empty path it raises "Unexpected empty path"
    and the engine is not asked; and a failure of the engine for the
    resolved path is raised as it is. *)
Theorem schemaVersion_failures (fs : FileSystem) (dp : string)
    (getSchemaVersion : string -> Completion Z) (path : string) :
  (forall encryptionKey,
     Realm.schemaVersion fs dp getSchemaVersion path (Some encryptionKey)
     = Throw (Error "Not yet supported"))
  /\ (path = "" ->
      forall engine,
        Realm.schemaVersion fs dp engine path None
        = Throw (Error "Unexpected empty path"))
  /\ (forall absolutePath e,
        Realm.determinePath fs dp (Configuration.of_path path)
        = Normal absolutePath ->
        getSchemaVersion absolutePath = Throw e ->
        Realm.schemaVersion fs dp getSchemaVersion path None = Throw e).
Proof.
  split; [reflexivity|]. split.
  - intros -> engine. reflexivity.
  - intros absolutePath e Hpath He. unfold Realm.schemaVersion.
    rewrite Hpath. cbn [cbind]. rewrite He. reflexivity.
Qed.

Lemma schemaVersion_failures_witness :
  Realm.schemaVersion Reference.fs Reference.defaultPath
    (fun _ => Throw (Error "No such file")) "a.realm" None
  = Throw (Error "No such file").
Proof.
  apply (proj2 (proj2 (schemaVersion_failures Reference.fs
                         Reference.defaultPath
                         (fun _ => Throw (Error "No such file")) "a.realm"))
           "/data/a.realm");
    reflexivity.
Defined.

(** ** More on template objects *)

(** Assignments on an ordinary object: array indices come first, in
    ascending order, whenever they are assigned; assigning to a property
    the object has leaves it in its place; assigning to [__proto__] adds
    no property. *)
Example setProperty_array_index :
  setProperty "1" (VBool true)
    (setProperty "name" (VString "") (setProperty "10" (VBool false) []))
  = [("1", VBool true); ("10", VBool false); ("name", VString "")]
  /\ setProperty "name" (VString "Rex")
       [("name", VString ""); ("age", VNumber (Int 3))]
     = [("name", VString "Rex"); ("age", VNumber (Int 3))]
  /\ setProperty "__proto__" (VString "")
       [("name", VString ""); ("age", VNumber (Int 3))]
     = [("name", VString ""); ("age", VNumber (Int 3))]
  /\ arrayIndex "01" = None
  /\ arrayIndex "4294967295" = None
  /\ arrayIndex "4294967294" = Some 4294967294%N.
Proof. repeat split. Qed.

Lemma hasOwnProperty_fresh (key : string) (object : JsObject) :
  ~ In key (map fst object) -> hasOwnProperty key object = false.
Proof.
  unfold hasOwnProperty. induction object as [|[k v] rest IH]; intros Hnot.
  - reflexivity.
  - cbn [existsb fst]. cbn [map fst In] in Hnot.
    destruct (String.eqb_spec k key) as [->|Hne]; [tauto|].
    apply IH. tauto.
Qed.

Lemma setProperty_fresh (key : string) (value : JsValue) (object : JsObject) :
  ~ In key (map fst object) ->
  plainKey key = true ->
  setProperty key value object = (object ++ [(key, value)])%list.
Proof.
  intros Hnot Hplain. unfold plainKey in Hplain.
  apply andb_true_iff in Hplain. destruct Hplain as [Hproto Hindex].
  unfold setProperty. apply negb_true_iff in Hproto. rewrite Hproto.
  rewrite (hasOwnProperty_fresh key object Hnot).
  destruct (arrayIndex key); [discriminate | reflexivity].
Qed.

Lemma templateStep_fresh (result : JsObject) (key : string)
    (property : CanonicalPropertySchema) :
  ~ In key (map fst result) ->
  plainKey key = true ->
  RealmMore.templateStep result (key, property)
  = (result ++ templateEntries [(key, property)])%list.
Proof.
  intros Hnot Hindex.
  unfold RealmMore.templateStep, templateEntries, templateValue.
  cbn [flat_map fst snd]. rewrite app_nil_r.
  destruct (prop_default property);
    try (rewrite setProperty_fresh by assumption; reflexivity).
  destruct (prop_optional property); [now rewrite app_nil_r|].
  destruct (Realm.typeDefault (prop_type property));
    [rewrite setProperty_fresh by assumption; reflexivity
    | now rewrite app_nil_r].
Qed.

Lemma templateEntries_keys (properties : list (string * CanonicalPropertySchema))
    (key : string) :
  In key (map fst (templateEntries properties)) ->
  In key (map fst properties).
Proof.
  unfold templateEntries. induction properties as [|[k p] rest IH].
  - intros [].
  - cbn [flat_map map fst snd]. rewrite map_app, in_app_iff.
    intros [Hin | Hin]; [|right; apply IH, Hin].
    destruct (templateValue p); [|destruct Hin].
    destruct Hin as [<- | []]. left. reflexivity.
Qed.

Lemma templateEntries_cons (entry : string * CanonicalPropertySchema)
    (rest : list (string * CanonicalPropertySchema)) :
  templateEntries (entry :: rest)
  = (templateEntries [entry] ++ templateEntries rest)%list.
Proof. unfold templateEntries. cbn [flat_map]. now rewrite app_nil_r. Qed.

Lemma template_fold_entries
    (properties : list (string * CanonicalPropertySchema)) :
  forall result : JsObject,
  List.NoDup (map fst properties) ->
  (forall key, In key (map fst properties) ->
     plainKey key = true /\ ~ In key (map fst result)) ->
  fold_left RealmMore.templateStep properties result
  = (result ++ templateEntries properties)%list.
Proof.
  induction properties as [|[key property] rest IH]; intros result Hnodup Hkeys.
  - cbn. now rewrite app_nil_r.
  - cbn [fold_left]. cbn [map fst] in Hnodup, Hkeys.
    apply List.NoDup_cons_iff in Hnodup. destruct Hnodup as [Hfresh Hnodup].
    destruct (Hkeys key (or_introl eq_refl)) as [Hindex Hnot].
    rewrite (templateStep_fresh result key property Hnot Hindex).
    rewrite IH.
    + rewrite (templateEntries_cons (key, property) rest), app_assoc.
      reflexivity.
    + exact Hnodup.
    + intros k Hk. destruct (Hkeys k (or_intror Hk)) as [Hi Hn].
      split; [exact Hi|]. rewrite map_app, in_app_iff. intros [Hin | Hin].
      * exact (Hn Hin).
      * apply templateEntries_keys in Hin. cbn in Hin.
        destruct Hin as [<- | []]. exact (Hfresh Hk).
Qed.

Lemma template_entries_lookup
    (properties : list (string * CanonicalPropertySchema)) (key : string) :
  List.NoDup (map fst properties) ->
  (list_to_map (templateEntries properties) : gmap string JsValue) !! key
  = fold_left Realm.templateStep properties ∅ !! key.
Proof.
  intros Hnodup.
  assert (Hpresent : forall property, In (key, property) properties ->
    (list_to_map (templateEntries properties) : gmap string JsValue) !! key
    = templateValue property).
  { clear -Hnodup. induction properties as [|[k p] rest IH]; intros property Hin.
    - destruct Hin.
    - cbn [map fst] in Hnodup. apply List.NoDup_cons_iff in Hnodup.
      destruct Hnodup as [Hfresh Hnodup].
      rewrite templateEntries_cons.
      unfold templateEntries at 1. cbn [flat_map fst snd]. rewrite app_nil_r.
      destruct Hin as [[= -> ->] | Hin].
      + destruct (templateValue property) as [v|].
        * cbn [app]. rewrite list_to_map_cons. apply lookup_insert_eq.
        * cbn [app]. apply not_elem_of_list_to_map_1.
          intros Hin. apply Hfresh. apply templateEntries_keys.
          apply list_elem_of_In in Hin. exact Hin.
      + assert (Hne : k <> key).
        { intros ->. apply Hfresh. apply in_map_iff.
          exists (key, property). split; [reflexivity | exact Hin]. }
        destruct (templateValue p) as [v|].
        * cbn [app]. rewrite list_to_map_cons, lookup_insert_ne by exact Hne.
          apply IH; assumption.
        * cbn [app]. apply IH; assumption. }
  destruct (In_dec string_dec key (map fst properties)) as [Hin|Hnot].
  - apply in_map_iff in Hin. destruct Hin as [[k property] [Hk Hin]].
    cbn in Hk. subst k.
    rewrite (template_fold_present _ ∅ key property Hnodup Hin)
      by apply lookup_empty.
    apply Hpresent, Hin.
  - rewrite template_fold_absent by assumption. rewrite lookup_empty.
    apply not_elem_of_list_to_map_1. intros Hin. apply Hnot.
    apply templateEntries_keys. apply list_elem_of_In in Hin. exact Hin.
Qed.

(** X21. The keys of a template object come in the order of the
    properties of the normalized schema.  For a valid object schema whose
    normalized properties have distinct keys, none of them an array
    index or [__proto__], the object [createTemplateObject] returns has
    exactly the properties that receive a value, each with its value, in
    the order in which the schema lists them (so two schemas that list
    the same properties in another order have templates whose keys come
    in another order); as a mapping from keys to values it is the
    template object with the order of the keys left aside. *)
Theorem createTemplateObject_order
    (validateObjectSchema : ObjectSchema -> Completion unit)
    (normalizeObjectSchema : ObjectSchema -> CanonicalObjectSchema)
    (objectSchema : ObjectSchema) :
  let properties := cos_properties (normalizeObjectSchema objectSchema) in
  validateObjectSchema objectSchema = Normal tt ->
  List.NoDup (map fst properties) ->
  (forall key, In key (map fst properties) -> plainKey key = true) ->
  RealmMore.createTemplateObject validateObjectSchema normalizeObjectSchema
    objectSchema
  = Normal (templateEntries properties)
  /\ Realm.createTemplateObject validateObjectSchema normalizeObjectSchema
       objectSchema
     = Normal (list_to_map (templateEntries properties)).
Proof.
  intros properties Hvalid Hnodup Hkeys. subst properties.
  unfold RealmMore.createTemplateObject, Realm.createTemplateObject.
  rewrite Hvalid. cbn [cbind]. split; f_equal.
  - rewrite template_fold_entries; [reflexivity | exact Hnodup |].
    intros key Hin. split; [apply Hkeys, Hin | intros []].
  - apply map_eq. intros key. symmetry.
    apply template_entries_lookup, Hnodup.
Qed.

Lemma createTemplateObject_order_witness :
  RealmMore.createTemplateObject (fun _ => Normal tt)
    (fun _ => Reference.dogCanonical) Reference.dogSchema
  = Normal [("name", VString ""); ("age", VNumber (Int 3))]
  /\ RealmMore.createTemplateObject (fun _ => Normal tt)
       (fun _ => ReferenceMore.dogReversed) Reference.dogSchema
     = Normal [("age", VNumber (Int 3)); ("name", VString "")].
Proof.
  split.
  - apply (createTemplateObject_order (fun _ => Normal tt)
             (fun _ => Reference.dogCanonical) Reference.dogSchema eq_refl).
    + repeat constructor; simpl; intuition discriminate.
    + intros key [<- | [<- | [<- | [<- | []]]]]; reflexivity.
  - apply (createTemplateObject_order (fun _ => Normal tt)
             (fun _ => ReferenceMore.dogReversed) Reference.dogSchema eq_refl).
    + repeat constructor; simpl; intuition discriminate.
    + intros key [<- | [<- | [<- | [<- | []]]]]; reflexivity.
Defined.

(** ** open and deleteFile *)

(** X22. [open] validates first and raises what the validator raises.
    With a valid configuration that asks for sync it raises "Not yet
    supported" and nothing is asked of the engine, whatever else the
    configuration holds; without sync it is the constructor on that
    configuration.  A path given as a string is the configuration with
    that path only. *)
Theorem open_spec (fs : FileSystem) (dp : string)
    (validateConfiguration : Configuration.t -> Completion unit)
    (normalizeRealmSchema :
       list ObjectSchema -> Completion (list CanonicalObjectSchema))
    (toBindingSchema : list CanonicalObjectSchema -> list BindingObjectSchema)
    (ClassMap_new : binding.Realm -> ClassMap)
    (getSharedRealm : RealmConfig.t -> Completion binding.Realm)
    (arg : ConfigurationArg) (calls : list EngineCall) :
  let run :=
    RealmMore.open fs dp validateConfiguration normalizeRealmSchema
      toBindingSchema ClassMap_new getSharedRealm arg calls in
  (forall e, validateConfiguration (configOf arg) = Throw e ->
     run = (Throw e, calls))
  /\ (validateConfiguration (configOf arg) = Normal tt ->
      Configuration.sync (configOf arg) = true ->
      run = (Throw (Error "Not yet supported"), calls))
  /\ (validateConfiguration (configOf arg) = Normal tt ->
      Configuration.sync (configOf arg) = false ->
      run = Realm.constructor fs dp validateConfiguration normalizeRealmSchema
              toBindingSchema ClassMap_new getSharedRealm (configOf arg) calls)
  /\ (forall path,
        arg = ArgPath path ->
        run = RealmMore.open fs dp validateConfiguration normalizeRealmSchema
                toBindingSchema ClassMap_new getSharedRealm
                (ArgConfiguration (Configuration.of_path path)) calls).
Proof.
  intros run. subst run. unfold RealmMore.open, bind, Realm.lift.
  split; [|split; [|split]].
  - intros e ->. reflexivity.
  - intros -> ->. reflexivity.
  - intros -> ->. reflexivity.
  - intros path ->. reflexivity.
Qed.

Lemma open_spec_witness :
  RealmMore.open Reference.fs Reference.defaultPath (fun _ => Normal tt)
    (fun _ => Normal []) Reference.toBindingSchema
    (fun _ => Reference.classMap) (fun _ => Normal (Reference.handle false))
    (ArgConfiguration
       {| Configuration.path := Some "a.realm";
          Configuration.schema := None;
          Configuration.schemaVersion := VUndefined;
          Configuration.inMemory := None;
          Configuration.readOnly := None;
          Configuration.deleteRealmIfMigrationNeeded := None;
          Configuration.fifoFilesFallbackPath := None;
          Configuration.shouldCompactOnLaunch := None;
          Configuration.disableFormatUpgrade := None;
          Configuration.sync := true |}) []
  = (Throw (Error "Not yet supported"), []).
Proof.
  apply (proj1 (proj2 (open_spec Reference.fs Reference.defaultPath
                         (fun _ => Normal tt) (fun _ => Normal [])
                         Reference.toBindingSchema
                         (fun _ => Reference.classMap)
                         (fun _ => Normal (Reference.handle false)) _ [])));
    reflexivity.
Defined.

Lemma onFiles_step {F A B : Type} (c : FsCall) (op : M F A)
    (rest : M (Process F) B) (planned : list FsCall) (p : Process F) :
  (forall p1,
     exists done,
       fsCalls (snd (rest p1)) = (fsCalls p1 ++ done)%list
       /\ done `prefix_of` planned
       /\ ((exists b, fst (rest p1) = Normal b) -> done = planned)
       /\ heap (snd (rest p1)) = heap p1
       /\ RETURNED_REALMS (snd (rest p1)) = RETURNED_REALMS p1) ->
  exists done,
    fsCalls (snd ((RealmMore.onFiles c op ;;; rest)%js p))
    = (fsCalls p ++ done)%list
    /\ done `prefix_of` (c :: planned)
    /\ ((exists b, fst ((RealmMore.onFiles c op ;;; rest)%js p) = Normal b) ->
        done = c :: planned)
    /\ heap (snd ((RealmMore.onFiles c op ;;; rest)%js p)) = heap p
    /\ RETURNED_REALMS (snd ((RealmMore.onFiles c op ;;; rest)%js p))
       = RETURNED_REALMS p.
Proof.
  intros Hrest. unfold bind.
  destruct (onFiles_calls c op p) as [Hcalls [Hheap Hreg]].
  destruct (RealmMore.onFiles c op p) as [[a|e] p1]; cbn [snd fst] in *.
  - destruct (Hrest p1) as [done [Hdone [Hprefix [Hall [Hh Hr]]]]].
    exists (c :: done). rewrite Hdone, Hcalls, <- app_assoc.
    split; [reflexivity|]. split; [apply prefix_cons, Hprefix|].
    split; [intros Hok; now rewrite (Hall Hok)|]. split; congruence.
  - exists [c]. split; [exact Hcalls|].
    split; [apply prefix_cons, prefix_nil|].
    split; [intros [b Hb]; discriminate|]. split; assumption.
Qed.

(** X23. [deleteFile] does not validate its configuration and raises,
    before anything is asked of the file system, only when the path is
    the empty string.  Otherwise it carries out, one after the other and
    up to the first one that fails: remove the file at the resolved path,
    the file at that path followed by [.lock], the one followed by
    [.note], and the directory at that path followed by [.management].
    The outcome and the files are those of carrying them out in that way;
    all four calls have been made when it returns normally; when it
    raises [e], the calls made are the ones before the failing call, each
    of which succeeded, and then the failing call, which raised [e] and is
    the last call made.  It never touches the open handles or the
    registry. *)
Theorem deleteFile_calls (fs : FileSystem) (dp : string) {F : Type}
    (fsx : FileSystemEffects F) (config : Configuration.t) (p : Process F) :
  let run := RealmMore.deleteFile fs dp fsx config p in
  (Configuration.path config = Some "" ->
   run = (Throw (Error "Unexpected empty path"), p))
  /\ (forall path, Realm.determinePath fs dp config = Normal path ->
        let planned := deleteFileCalls path in
        heap (snd run) = heap p
        /\ RETURNED_REALMS (snd run) = RETURNED_REALMS p
        /\ forEach (perform fsx) planned (files p)
           = (fst run, files (snd run))
        /\ (fst run = Normal tt ->
            fsCalls (snd run) = (fsCalls p ++ planned)%list)
        /\ (forall e, fst run = Throw e ->
              exists before c after f1,
                planned = (before ++ c :: after)%list
                /\ fsCalls (snd run) = (fsCalls p ++ before ++ [c])%list
                /\ forEach (perform fsx) before (files p) = (Normal tt, f1)
                /\ perform fsx c f1 = (Throw e, files (snd run)))).
Proof.
  intros run. subst run. split.
  - intros Hempty. unfold RealmMore.deleteFile, bind, Realm.lift,
      Realm.determinePath. rewrite Hempty. reflexivity.
  - intros path Hpath planned. subst planned.
    rewrite (deleteFile_plan fs fsx dp config path p Hpath).
    apply forEach_perform.
Qed.

Lemma deleteFile_calls_witness :
  fsCalls (snd (RealmMore.deleteFile Reference.fs Reference.defaultPath
                  ReferenceMore.fsx (Configuration.of_path "a.realm")
                  ReferenceMore.process))
  = [CallRemoveFile "/data/a.realm"; CallRemoveFile "/data/a.realm.lock";
     CallRemoveFile "/data/a.realm.note";
     CallRemoveDirectory "/data/a.realm.management"]
  /\ exists before c after,
       deleteFileCalls "/data/a.realm" = (before ++ c :: after)%list
       /\ fsCalls (snd (RealmMore.deleteFile Reference.fs Reference.defaultPath
                          ReferenceMore.busyFsx
                          (Configuration.of_path "a.realm")
                          ReferenceMore.process))
          = (before ++ [c])%list
       /\ forEach (perform ReferenceMore.busyFsx) before tt = (Normal tt, tt)
       /\ fst (perform ReferenceMore.busyFsx c tt) = Throw (Error "EBUSY").
Proof.
  split.
  - destruct (proj2 (deleteFile_calls Reference.fs Reference.defaultPath
                       ReferenceMore.fsx (Configuration.of_path "a.realm")
                       ReferenceMore.process) "/data/a.realm" eq_refl)
      as [_ [_ [_ [Hnormal _]]]].
    exact (Hnormal eq_refl).
  - destruct (proj2 (deleteFile_calls Reference.fs Reference.defaultPath
                       ReferenceMore.busyFsx (Configuration.of_path "a.realm")
                       ReferenceMore.process) "/data/a.realm" eq_refl)
      as [_ [_ [_ [_ Hthrow]]]].
    destruct (Hthrow (Error "EBUSY") eq_refl)
      as [before [c [after [f1 [Hsplit [Hcalls [Hbefore Hc]]]]]]].
    exists before, c, after. split; [exact Hsplit|]. split; [exact Hcalls|].
    destruct f1. split; [exact Hbefore|]. rewrite Hc. reflexivity.
Defined.

(** Where the lock file cannot be removed, the note file and the
    management directory are left. *)
Example deleteFile_busy :
  RealmMore.deleteFile Reference.fs Reference.defaultPath ReferenceMore.busyFsx
    (Configuration.of_path "a.realm") ReferenceMore.process
  = (Throw (Error "EBUSY"),
     {| heap := heap ReferenceMore.process;
        RETURNED_REALMS := RETURNED_REALMS ReferenceMore.process;
        files := tt;
        fsCalls := [CallRemoveFile "/data/a.realm";
                    CallRemoveFile "/data/a.realm.lock"] |}).
Proof. reflexivity. Qed.

(** ** Deleting inside write *)

(** X26. [write] around [delete]: on an idle, open handle, deleting a
    sequence of typed objects over distinct live rows inside [write]
    returns normally, leaves the handle idle, and persists exactly the
    removal: what is persisted afterwards is the earlier schema and
    version with the earlier rows that are not among the deleted ones. *)
Theorem write_delete_commits (objects : list RealmObject)
    (objs : list binding.Obj) (this : Realm.t) :
  Realm.isClosed this = false ->
  Realm.isInTransaction this = false ->
  Forall2 (removable this) objects objs ->
  List.NoDup objs ->
  (forall obj, In obj objs -> In obj (binding.rows (Realm.internal this))) ->
  exists final,
    Realm.write
      (Realm.delete (IsObject (SubjectArray (map ItemObject objects)))) this
    = (Normal tt, final)
    /\ Realm.isInTransaction final = false
    /\ binding.persisted (Realm.internal final)
       = {| binding.snap_schema := binding.schema (Realm.internal this);
            binding.snap_schemaVersion :=
              binding.schemaVersion (Realm.internal this);
            binding.snap_rows :=
              withoutRows objs (binding.rows (Realm.internal this)) |}
    /\ binding.current (Realm.internal final)
       = binding.persisted (Realm.internal final).
Proof.
  intros Hopen Hidle Hall Hnodup Hlive.
  destruct (beginTransaction_idle this Hopen Hidle)
    as [Hbegin [Hopen1 [Htx1 _]]].
  assert (Hbegan :
    Realm.classes (afterBegin this) = Realm.classes this
    /\ binding.rows (Realm.internal (afterBegin this))
       = binding.rows (Realm.internal this)
    /\ binding.schema (Realm.internal (afterBegin this))
       = binding.schema (Realm.internal this)
    /\ binding.schemaVersion (Realm.internal (afterBegin this))
       = binding.schemaVersion (Realm.internal this)).
  { unfold afterBegin, Realm.beginTransaction, Realm.engine,
      binding.beginTransaction, binding.whenOpen.
    unfold Realm.isClosed, Realm.isInTransaction in Hopen, Hidle.
    rewrite Hopen, Hidle. repeat split. }
  destruct Hbegan as [Hclasses [Hrows [Hschema Hversion]]].
  destruct (delete_each_live objects objs (afterBegin this)) as
    [after [Hrun [Hrows' Hshape]]].
  - exact Hopen1.
  - eapply Forall2_impl; [exact Hall|]. intros o ob [Ho [h [Hh Ht]]].
    split; [exact Ho|]. exists h. rewrite Hclasses. auto.
  - exact Hnodup.
  - intros obj Hobj. rewrite Hrows. now apply Hlive.
  - destruct Hshape as (_ & _ & Hclosed & Htx & Hschema' & Hversion' & _).
    destruct (commitTransaction_active after) as [final [Hcommit Hfinal]].
    + unfold Realm.isClosed in *. congruence.
    + unfold Realm.isInTransaction in *. congruence.
    + exists final.
      rewrite (write_unfold _ this Hopen Hidle).
      rewrite (proj1 (delete_sequence_unfold _ (afterBegin this) Htx1)).
      rewrite Hrun, Hcommit.
      destruct Hfinal as [_ [Hidle' [Hpersisted Hcurrent]]].
      split; [reflexivity|]. split; [exact Hidle'|]. split.
      * rewrite Hpersisted. unfold binding.current.
        rewrite Hschema', Hversion', Hrows', Hschema, Hversion, Hrows.
        reflexivity.
      * congruence.
Qed.

Lemma write_delete_commits_witness :
  exists final,
    Realm.write
      (Realm.delete
         (IsObject (SubjectArray
                      (map ItemObject
                         [Reference.liveDog; ReferenceMore.liveCat]))))
      (Reference.realm false)
    = (Normal tt, final)
    /\ binding.snap_rows (binding.persisted (Realm.internal final))
       = [Reference.row 1 11].
Proof.
  destruct (write_delete_commits [Reference.liveDog; ReferenceMore.liveCat]
              [Reference.row 1 10; Reference.row 2 20] (Reference.realm false))
    as [final [Hrun [_ [Hpersisted _]]]].
  - reflexivity.
  - reflexivity.
  - repeat constructor.
    + exists (Reference.helpersOf Reference.dogTable). split; reflexivity.
    + exists (Reference.helpersOf Reference.catTable). split; reflexivity.
  - repeat constructor; simpl; intuition discriminate.
  - simpl. intros obj [<- | [<- | []]]; auto.
  - exists final. split; [exact Hrun|]. rewrite Hpersisted. reflexivity.
Defined.

(** ** The logger of the app provider *)

(** X24. The default logger makes exactly one call on the console: on
    [console.error] for the levels Error and Fatal, on [console.warn]
    for Warn, and on [console.log] for every other level.  The line is
    the message after the level's name in capitals between square
    brackets, and after empty brackets for a level the logger has no
    name for. *)
Theorem defaultLogger_routes (level : AppProvider.NumericLogLevel)
    (message : string) :
  let name := AppProvider.toUpperCase (AppProvider.getLogLevelString level) in
  let line := "[" ++ name ++ "] " ++ message in
  In name ["FATAL"; "ERROR"; "WARN"; "INFO"; "DETAIL"; "DEBUG"; "TRACE"; ""]
  /\ (name = "" <-> exists n, level = AppProvider.OtherLevel n)
  /\ (level = AppProvider.Fatal \/ level = AppProvider.Error_ ->
      AppProvider.defaultLogger level message = AppProvider.ConsoleError line)
  /\ (level = AppProvider.Warn ->
      AppProvider.defaultLogger level message = AppProvider.ConsoleWarn line)
  /\ (level <> AppProvider.Fatal -> level <> AppProvider.Error_ ->
      level <> AppProvider.Warn ->
      AppProvider.defaultLogger level message = AppProvider.ConsoleLog line).
Proof.
  intros name line. subst line name.
  split; [destruct level; cbn; tauto|].
  split.
  { destruct level; cbn; split; try discriminate; eauto;
      intros [n Hn]; discriminate. }
  split; [intros [-> | ->]; reflexivity|].
  split; [intros ->; reflexivity|].
  intros Hf He Hw. destruct level; try reflexivity; contradiction.
Qed.

Lemma defaultLogger_routes_witness :
  AppProvider.defaultLogger AppProvider.Error_ "connection lost"
  = AppProvider.ConsoleError "[ERROR] connection lost"
  /\ AppProvider.defaultLogger (AppProvider.OtherLevel 0) "started"
     = AppProvider.ConsoleLog "[] started".
Proof.
  destruct (defaultLogger_routes AppProvider.Error_ "connection lost")
    as [_ [_ [Herror _]]].
  destruct (defaultLogger_routes (AppProvider.OtherLevel 0) "started")
    as [_ [_ [_ [_ Hlog]]]].
  split.
  - apply Herror. right. reflexivity.
  - apply Hlog; discriminate.
Defined.

(** X25. The layout effect of the app provider configures logging only
    when an [appRef] is given: without one it does nothing at all.
    With one, a logger passed as a prop is installed only together with
    a non-empty [logLevel]; with no [logLevel] (or an empty one) the
    default logger and the default level "warn" are installed, whatever
    logger was passed. *)
Theorem layoutEffect_logger {L : Type} (theDefault : L)
    (logLevel : option string) (logger : option L) :
  AppProvider.layoutEffect theDefault false logLevel logger = []
  /\ (logLevel = None \/ logLevel = Some "" ->
      AppProvider.layoutEffect theDefault true logLevel logger
      = [AppProvider.SetRefCurrent; AppProvider.SetLogger theDefault;
         AppProvider.SetLogLevel "warn"])
  /\ (forall level, logLevel = Some level -> level <> "" ->
        AppProvider.layoutEffect theDefault true logLevel logger
        = [AppProvider.SetRefCurrent;
           AppProvider.SetLogger
             (match logger with Some l => l | None => theDefault end);
           AppProvider.SetLogLevel level]).
Proof.
  split; [reflexivity|]. split.
  - intros [-> | ->]; reflexivity.
  - intros level -> Hne. unfold AppProvider.layoutEffect.
    destruct (String.length level =? 0)%nat eqn:E; [|reflexivity].
    apply length_zero_iff_empty in E. contradiction.
Qed.

Lemma layoutEffect_logger_witness :
  AppProvider.layoutEffect "default" true None (Some "custom")
  = [AppProvider.SetRefCurrent; AppProvider.SetLogger "default";
     AppProvider.SetLogLevel "warn"]
  /\ AppProvider.layoutEffect "default" true (Some "debug") (Some "custom")
     = [AppProvider.SetRefCurrent; AppProvider.SetLogger "custom";
        AppProvider.SetLogLevel "debug"].
Proof.
  destruct (layoutEffect_logger "default" None (Some "custom"))
    as [_ [Hnone _]].
  destruct (layoutEffect_logger "default" (Some "debug") (Some "custom"))
    as [_ [_ Hsome]].
  split.
  - apply Hnone. left. reflexivity.
  - apply Hsome; [reflexivity | discriminate].
Defined.

(** ** exists *)

(** X27. [exists] validates the configuration first and raises what the
    validator raises, with no question asked of the file system.  For a
    valid configuration whose path resolves it asks the file system one
    question, about the resolved path, and answers what the file system
    answers; that path is the one that [deleteFile] removes first for the
    same configuration. *)
Theorem exists_asks_resolved_path (fs : FileSystem) (dp : string) {F : Type}
    (fsx : FileSystemEffects F)
    (validateConfiguration : Configuration.t -> Completion unit)
    (arg : ConfigurationArg) (p : Process F) :
  let run := RealmMore.exists_ fs dp fsx validateConfiguration arg p in
  (forall e, validateConfiguration (configOf arg) = Throw e ->
     run = (Throw e, p))
  /\ (forall path,
        validateConfiguration (configOf arg) = Normal tt ->
        Realm.determinePath fs dp (configOf arg) = Normal path ->
        fst run = fst (fs_exists fsx path (files p))
        /\ fsCalls (snd run) = (fsCalls p ++ [CallExists path])%list
        /\ exists rest,
             fsCalls (snd (RealmMore.deleteFile fs dp fsx (configOf arg) p))
             = (fsCalls p ++ CallRemoveFile path :: rest)%list).
Proof.
  intros run. subst run. unfold RealmMore.exists_, bind, Realm.lift. split.
  - intros e ->. reflexivity.
  - intros path -> Hpath. rewrite Hpath. unfold RealmMore.onFiles.
    split; [destruct (fs_exists fsx path (files p)); reflexivity|].
    split; [destruct (fs_exists fsx path (files p)); reflexivity|].
    unfold RealmMore.deleteFile. unfold bind at 1. unfold Realm.lift.
    rewrite Hpath. unfold bind at 1.
    destruct (onFiles_calls (CallRemoveFile path) (fs_removeFile fsx path) p)
      as [Hcalls _].
    destruct (RealmMore.onFiles (CallRemoveFile path) (fs_removeFile fsx path) p)
      as [[[]|e] p1]; cbn [snd] in *.
    + destruct (onFiles_step (CallRemoveFile (path ++ ".lock"))
                  (fs_removeFile fsx (path ++ ".lock"))
                  (RealmMore.onFiles (CallRemoveFile (path ++ ".note"))
                     (fs_removeFile fsx (path ++ ".note")) ;;;
                   RealmMore.onFiles
                     (CallRemoveDirectory (path ++ ".management"))
                     (fs_removeDirectory fsx (path ++ ".management")))%js
                  [CallRemoveFile (path ++ ".note");
                   CallRemoveDirectory (path ++ ".management")] p1)
        as [done [Hdone _]].
      { intros p2. apply onFiles_step. intros p3.
        destruct (onFiles_calls
                    (CallRemoveDirectory (path ++ ".management"))
                    (fs_removeDirectory fsx (path ++ ".management")) p3)
          as [Hc [Hh Hr]].
        exists [CallRemoveDirectory (path ++ ".management")].
        split; [exact Hc|]. split; [reflexivity|].
        split; [reflexivity|]. split; assumption. }
      exists done. rewrite Hdone, Hcalls, <- app_assoc. reflexivity.
    + exists []. exact Hcalls.
Qed.

Lemma exists_asks_resolved_path_witness :
  RealmMore.exists_ Reference.fs Reference.defaultPath ReferenceMore.fsx
    (fun _ => Normal tt) (ArgPath "a.realm") ReferenceMore.process
  = (Normal true,
     {| heap := heap ReferenceMore.process;
        RETURNED_REALMS := RETURNED_REALMS ReferenceMore.process;
        files := tt;
        fsCalls := [CallExists "/data/a.realm"] |}).
Proof.
  destruct (proj2 (exists_asks_resolved_path Reference.fs
                     Reference.defaultPath ReferenceMore.fsx
                     (fun _ => Normal tt) (ArgPath "a.realm")
                     ReferenceMore.process) "/data/a.realm" eq_refl eq_refl)
    as [Hanswer [Hcalls _]].
  reflexivity.
Defined.
